(** * Order lifecycle and cash ledger of the repair-shop tracker (src/app.py)

    A shallow embedding of the request handlers of [app.py] that read or
    write the tables [client], [repair_order], [status_history], [part] and
    [cash_entry], together with the Python primitives they rely on:
    binary64 floats ([db.Float] columns, [float()], [round(x, 2)], [sum]),
    [str.strip], [str.replace], [str.startswith] and f-string formatting
    of integer keys.
    Besides the handlers it embeds [estado_label], the counters of [index],
    the parts total and the WhatsApp link of [order_detail], [gen_token],
    [get_settings] and [settings_save], and the script
    [update_db_condiciones.py], which adds a column to a SQLite file.

    Conventions of the embedding.
    - Text is a Rocq [string]: a sequence of bytes.  [strip] and [float()]
      are those of CPython on ASCII text; a byte above 127 is an ordinary
      character (CPython also strips the blanks and reads the digits of
      Unicode).  The literals of the source that are not ASCII
      (["Seña orden #"], ["Devolución seña"]) are their UTF-8 bytes; prefix
      tests on UTF-8 bytes and on code points agree.
    - A float is an IEEE 754 binary64, and a [db.Float] column stores any
      of them, NaN included, as PostgreSQL does (the database of the
      deployment; SQLite, the local fallback, stores a NaN as NULL).
    - A table is the list of its rows in insertion order; primary keys are
      assigned as one more than the largest key of the table.  The columns
      [created_at], [updated_at], [fecha] and [token_publico] are filled by
      the clock and by a random source and are not read by any handler
      modelled here: they are left out, and "most recently created" is
      "last inserted".
    - A handler runs from its first statement to its last commit without
      interleaving: a handler is a function from a database to a database
      and a response.  [order_create] and [seed] commit more than once;
      the databases that their commits leave on the way are
      [order_create_commits] and [seed_commits].
    - The vocabulary of the specification is the English rendering of the
      literals of the source: received/diagnosis/in_progress/awaiting_parts/
      ready/delivered/cancelled are recibido/diagnostico/en_proceso/
      esperando_repuestos/listo/entregado/cancelado, the directions in/out
      are entrada/salida, "Final payment order #" is "Pago final orden #" and
      "Deposit refund order #" is "Devolución seña orden #". *)

From Stdlib Require Import ZArith Bool List String Ascii Lia DecimalString.
From Stdlib Require Import Floats.SpecFloat.
From Stdlib Require DecimalPos.
Import ListNotations.
Local Open Scope string_scope.
Local Open Scope list_scope.
Local Open Scope Z_scope.

(** ** Python floats: IEEE 754 binary64

    The values are those of the standard library's [spec_float]; addition,
    subtraction and comparison are its [SFadd], [SFsub] and [SFcompare] at
    precision 53 and maximal exponent 1024. *)

Module PyFloat.

Definition prec : Z := 53.
Definition emax : Z := 1024.

Definition float : Type := spec_float.

Definition nan : float := S754_nan.
Definition zero : float := S754_zero false.

(** [x + y] and [x - y] on two floats. *)
Definition add (x y : float) : float := SFadd prec emax x y.
Definition sub (x y : float) : float := SFsub prec emax x y.

(** [float(n)] for an integer literal of the source such as [0], [45000]. *)
Definition of_int (n : Z) : float := binary_normalize prec emax n 0 false.

(** [x > 0] and [x <= 0]; both are [False] on a NaN. *)
Definition gt0 (x : float) : bool := SFltb zero x.
Definition le0 (x : float) : bool := SFleb x zero.

(** Truth value of a float: [bool(x)] is [x != 0.0], so a NaN is true. *)
Definition truthy (x : float) : bool := negb (SFeqb x zero).

(** [x or 0.0] *)
Definition or_zero (x : float) : float := if truthy x then x else zero.

(** Round-half-even of the rational [a / b], [b > 0], to an integer. *)
Definition div_half_even (a b : Z) : Z :=
  let q := a / b in
  let r := a mod b in
  if (b <? 2 * r) || ((2 * r =? b) && Z.odd q) then q + 1 else q.

(** [floor (log2 (n / d))] for positive [n] and [d]. *)
Definition ilog2_ratio (n d : Z) : Z :=
  let l := Z.log2 n - Z.log2 d in
  if n * 2 ^ Z.max (- l) 0 <? d * 2 ^ Z.max l 0 then l - 1 else l.

(** The binary64 nearest to [(-1)^s * n / d] (ties to even), for positive
    [n] and [d]: the scaled quotient is rounded to a 53-bit significand, or
    to a multiple of [2^-1074] below the normal range; a result of
    [2^1024] or more is an infinity. *)
Definition of_ratio (s : bool) (n d : Z) : float :=
  let e := Z.max (ilog2_ratio n d - 52) (-1074) in
  let m := div_half_even (n * 2 ^ Z.max (- e) 0) (d * 2 ^ Z.max e 0) in
  let '(m, e) := if m =? 2 ^ 53 then (2 ^ 52, e + 1) else (m, e) in
  match m with
  | Zpos p => if 971 <? e then S754_infinity s else S754_finite s p e
  | _ => S754_zero s
  end.

(** [round(x, 2)]: CPython rounds the exact value of [x] to two decimals,
    half to even, and returns the float nearest to that decimal; a NaN or an
    infinity is returned as it is, and a zero result keeps the sign of [x]. *)
Definition round2 (x : float) : float :=
  match x with
  | S754_finite s m e =>
      let h := if 0 <=? e then 100 * Zpos m * 2 ^ e
               else div_half_even (100 * Zpos m) (2 ^ (- e)) in
      if h =? 0 then S754_zero s else of_ratio s h 100
  | _ => x
  end.

(** [sum(xs)] over floats: the accumulator starts at the integer [0] and
    the terms are added from left to right (CPython up to 3.11; later
    versions compensate the rounding errors, with the same result whenever
    no addition rounds). *)
Definition sum (xs : list float) : float := fold_left add xs zero.

End PyFloat.

(** ** Python strings *)

Module PyStr.

Definition code (c : ascii) : N := N_of_ascii c.

Definition between (lo hi : N) (c : ascii) : bool :=
  ((lo <=? code c) && (code c <=? hi))%N.

(** [str.isspace] on an ASCII character: tab to carriage return, the four
    separators 0x1c-0x1f and the space. *)
Definition isspace (c : ascii) : bool :=
  between 9 13 c || between 28 31 c || (code c =? 32)%N.

Definition is_digit (c : ascii) : bool := between 48 57 c.

Definition digit_val (c : ascii) : Z := Z.of_N (code c) - 48.

Fixpoint drop_while (p : ascii -> bool) (l : list ascii) : list ascii :=
  match l with
  | c :: r => if p c then drop_while p r else l
  | [] => []
  end.

Definition strip_by (p : ascii -> bool) (l : list ascii) : list ascii :=
  rev (drop_while p (rev (drop_while p l))).

(** [s.strip()] *)
Definition strip (s : string) : string :=
  string_of_list_ascii (strip_by isspace (list_ascii_of_string s)).

(** [s.replace(",", ".")] *)
Definition replace_comma (s : string) : string :=
  string_of_list_ascii
    (map (fun c => if (code c =? 44)%N then "."%char else c)
         (list_ascii_of_string s)).

(** [s.startswith(p)] *)
Definition startswith (s p : string) : bool := String.prefix p s.

(** [str(n)], as in [f"...{order.id}"]. *)
Definition of_int (n : Z) : string := NilZero.string_of_int (Z.to_int n).

(** [bool(s)]: a string is true when it is not empty. *)
Definition truthy (s : string) : bool :=
  match s with EmptyString => false | _ => true end.

(** *** [float(s)]

    CPython's conversion of an ASCII string: an underscore is accepted only
    between two digits; blanks (tab to carriage return, space) are dropped at
    both ends; what remains is an optionally signed decimal number with an
    optional exponent, or an optionally signed [inf], [infinity] or [nan] in
    any case.  The decimal value is rounded to the nearest float; a value too
    large is an infinity.  Anything else raises [ValueError], here [None]. *)

Definition is_blank (c : ascii) : bool :=
  between 9 13 c || (code c =? 32)%N.

Definition is_underscore (c : ascii) : bool := (code c =? 95)%N.

Fixpoint drop_underscores (prev : ascii) (l : list ascii)
  : option (list ascii) :=
  match l with
  | [] => if is_underscore prev then None else Some []
  | c :: r =>
      if is_underscore c then
        if is_digit prev then drop_underscores c r else None
      else if is_underscore prev && negb (is_digit c) then None
      else option_map (cons c) (drop_underscores c r)
  end.

Fixpoint digits (acc cnt : Z) (l : list ascii) : Z * Z * list ascii :=
  match l with
  | c :: r =>
      if is_digit c then digits (10 * acc + digit_val c) (cnt + 1) r
      else (acc, cnt, l)
  | [] => (acc, cnt, l)
  end.

Definition parse_sign (l : list ascii) : bool * list ascii :=
  match l with
  | c :: r =>
      if (code c =? 45)%N then (true, r)
      else if (code c =? 43)%N then (false, r)
      else (false, l)
  | [] => (false, l)
  end.

Definition lower (c : ascii) : ascii :=
  if between 65 90 c then ascii_of_N (code c + 32) else c.

(** The float nearest to [(-1)^s * v * 10^k]. *)
Definition of_decimal (s : bool) (v k : Z) : PyFloat.float :=
  if v =? 0 then S754_zero s
  else if 0 <=? k then PyFloat.of_ratio s (v * 10 ^ k) 1
  else PyFloat.of_ratio s v (10 ^ (- k)).

Definition parse_exponent (l : list ascii) : Z * list ascii :=
  match l with
  | c :: r =>
      if (code (lower c) =? 101)%N then
        let '(se, r1) := parse_sign r in
        let '(ve, ce, r2) := digits 0 0 r1 in
        if ce =? 0 then (0, l) else (if se then - ve else ve, r2)
      else (0, l)
  | [] => (0, l)
  end.

Definition parse_number (l : list ascii) : option PyFloat.float :=
  let '(s, l1) := parse_sign l in
  let '(v1, c1, l2) := digits 0 0 l1 in
  let '(v2, c2, l3) :=
    match l2 with
    | c :: r => if (code c =? 46)%N then digits v1 0 r else (v1, 0, l2)
    | [] => (v1, 0, l2)
    end in
  if c1 + c2 =? 0 then None
  else
    let '(ex, l4) := parse_exponent l3 in
    match l4 with
    | [] => Some (of_decimal s v2 (ex - c2))
    | _ => None
    end.

Definition parse_inf_or_nan (l : list ascii) : option PyFloat.float :=
  let '(s, r) := parse_sign l in
  let w := string_of_list_ascii (map lower r) in
  if String.eqb w "inf" || String.eqb w "infinity" then Some (S754_infinity s)
  else if String.eqb w "nan" then Some S754_nan
  else None.

Definition to_float (s : string) : option PyFloat.float :=
  match drop_underscores zero (list_ascii_of_string s) with
  | None => None
  | Some l =>
      let t := strip_by is_blank l in
      match parse_number t with
      | Some x => Some x
      | None => parse_inf_or_nan t
      end
  end.

End PyStr.

(** ** [parse_float] (app.py, line 164) *)

Definition parse_float (val : option string) : option PyFloat.float :=
  match val with
  | None => None
  | Some v =>
      if String.eqb (PyStr.strip v) "" then None
      else PyStr.to_float (PyStr.replace_comma v)
  end.

(** ** The tables (app.py, lines 85-142) *)

Record Client := mkClient {
  client_pk : Z;
  nombre : string;
  telefono : string;
  email : string;
  direccion : string;
  dni : option string
}.

Record RepairOrder := mkRepairOrder {
  order_pk : Z;
  client_id : Z;
  marca : string;
  modelo : string;
  imei : string;
  accesorios : string;
  clave_desbloqueo : string;
  problema_reportado : string;
  diagnostico : string;
  costo_estimado : option PyFloat.float;
  senia : option PyFloat.float;
  estado : string
}.

Record StatusHistory := mkStatusHistory {
  history_pk : Z;
  history_order_id : Z;
  history_estado : string;
  nota : string
}.

Record Part := mkPart {
  part_pk : Z;
  part_order_id : Z;
  descripcion : string;
  costo : PyFloat.float
}.

Record CashEntry := mkCashEntry {
  cash_pk : Z;
  tipo : string;
  concepto : string;
  monto : PyFloat.float;
  cash_order_id : option Z
}.

Record database := mkDatabase {
  clients : list Client;
  orders : list RepairOrder;
  status_history : list StatusHistory;
  parts : list Part;
  cash_entries : list CashEntry
}.

Definition empty_db : database := mkDatabase [] [] [] [] [].

(** The key given to a row added to a table whose keys are [pks]. *)
Definition next_pk (pks : list Z) : Z := 1 + fold_right Z.max 0 pks.

Definition ORDER_STATES : list (string * string) :=
  [ ("recibido", "Recibido");
    ("diagnostico", "Diagnóstico");
    ("en_proceso", "En proceso");
    ("esperando_repuestos", "Esperando repuestos");
    ("listo", "Listo para entregar");
    ("entregado", "Entregado");
    ("cancelado", "Cancelado") ].

(** [s in dict(ORDER_STATES)] *)
Definition in_order_states (s : string) : bool :=
  existsb (String.eqb s) (map fst ORDER_STATES).

(** ** Requests and responses *)

(** [request.form]: the submitted fields in order; [get] returns the first
    value of a field. *)
Definition form : Type := list (string * string).

Fixpoint form_get (f : form) (k : string) : option string :=
  match f with
  | (k', v) :: r => if String.eqb k' k then Some v else form_get r k
  | [] => None
  end.

Definition form_get_default (f : form) (k d : string) : string :=
  match form_get f k with Some v => v | None => d end.

(** A handler answers with [flash(message, category)] and a redirect, or
    aborts with 404 in [get_or_404]; the command [flask seed] just ends. *)
Inductive response :=
  | Flash (message category : string)
  | NotFound
  | Finished.

(** The integer key of a submitted text that is a plain decimal numeral,
    as the select boxes and the links of the application submit it.  Any
    other text is taken to match no row, as a text that is not a number
    does (no row in SQLite, a failed query in PostgreSQL; either way
    nothing is written).  The engines also read as the key 1 some texts
    that are not plain numerals (blanks around the numeral or a sign
    before it; in SQLite also ["1.0"]): such texts are outside this
    model. *)
Definition pk_of_text (s : string) : option Z :=
  let '(v, c, r) := PyStr.digits 0 0 (list_ascii_of_string s) in
  match r with
  | [] => if c =? 0 then None else Some v
  | _ => None
  end.

(** [Client.query.get(k)] and [RepairOrder.query.get(k)] on an integer key. *)
Definition get_client (db : database) (k : Z) : option Client :=
  find (fun c => client_pk c =? k) (clients db).

Definition get_order (db : database) (k : Z) : option RepairOrder :=
  find (fun o => order_pk o =? k) (orders db).

(** The same on the text of a form field, which may be missing. *)
Definition get_client_by_field (db : database) (v : option string)
  : option Client :=
  match v with
  | Some s => match pk_of_text s with
              | Some k => get_client db k
              | None => None
              end
  | None => None
  end.

Definition get_order_by_field (db : database) (v : option string)
  : option RepairOrder :=
  match v with
  | Some s => match pk_of_text s with
              | Some k => get_order db k
              | None => None
              end
  | None => None
  end.

(** [order.movimientos_caja]: the cash entries that reference the order. *)
Definition movimientos_caja (db : database) (k : Z) : list CashEntry :=
  filter (fun mov => match cash_order_id mov with
                     | Some k' => k' =? k
                     | None => false
                     end) (cash_entries db).

(** [order.historial] in insertion order. *)
Definition historial (db : database) (k : Z) : list StatusHistory :=
  filter (fun h => history_order_id h =? k) (status_history db).

(** [db.session.add(...)] followed by the commit that assigns the key. *)
Definition add_client (db : database) (mk : Z -> Client) : database :=
  mkDatabase (clients db ++ [mk (next_pk (map client_pk (clients db)))])
             (orders db) (status_history db) (parts db) (cash_entries db).

Definition add_order (db : database) (mk : Z -> RepairOrder) : database :=
  mkDatabase (clients db)
             (orders db ++ [mk (next_pk (map order_pk (orders db)))])
             (status_history db) (parts db) (cash_entries db).

Definition add_history (db : database) (k : Z) (e n : string) : database :=
  mkDatabase (clients db) (orders db)
             (status_history db ++
                [mkStatusHistory
                   (next_pk (map history_pk (status_history db))) k e n])
             (parts db) (cash_entries db).

Definition add_part_row (db : database) (k : Z) (d : string)
  (c : PyFloat.float) : database :=
  mkDatabase (clients db) (orders db) (status_history db)
             (parts db ++ [mkPart (next_pk (map part_pk (parts db))) k d c])
             (cash_entries db).

Definition add_cash (db : database) (t c : string) (m : PyFloat.float)
  (k : option Z) : database :=
  mkDatabase (clients db) (orders db) (status_history db) (parts db)
             (cash_entries db ++
                [mkCashEntry (next_pk (map cash_pk (cash_entries db)))
                   t c m k]).

(** An assignment to attributes of the loaded row, written back on commit. *)
Definition update_client (db : database) (k : Z) (f : Client -> Client)
  : database :=
  mkDatabase (map (fun c => if client_pk c =? k then f c else c) (clients db))
             (orders db) (status_history db) (parts db) (cash_entries db).

Definition update_order (db : database) (k : Z)
  (f : RepairOrder -> RepairOrder) : database :=
  mkDatabase (clients db)
             (map (fun o => if order_pk o =? k then f o else o) (orders db))
             (status_history db) (parts db) (cash_entries db).

Definition set_estado (e : string) (o : RepairOrder) : RepairOrder :=
  mkRepairOrder (order_pk o) (client_id o) (marca o) (modelo o) (imei o)
                (accesorios o) (clave_desbloqueo o) (problema_reportado o)
                (diagnostico o) (costo_estimado o) (senia o) e.

(** [parse_float(v) or 0.0] *)
Definition parse_float_or_zero (v : option string) : PyFloat.float :=
  match parse_float v with
  | Some x => PyFloat.or_zero x
  | None => PyFloat.zero
  end.

(** [x and x > 0], yielding the value when the conjunction is true. *)
Definition positive_value (x : option PyFloat.float) : option PyFloat.float :=
  match x with
  | Some v => if PyFloat.truthy v && PyFloat.gt0 v then Some v else None
  | None => None
  end.

(** ** The handlers *)

(** [client_create] (line 314) *)
Definition client_create (db : database) (f : form) : database * response :=
  let nombre := PyStr.strip (form_get_default f "nombre" "") in
  let telefono := PyStr.strip (form_get_default f "telefono" "") in
  let email := PyStr.strip (form_get_default f "email" "") in
  let direccion := PyStr.strip (form_get_default f "direccion" "") in
  let dni := PyStr.strip (form_get_default f "dni" "") in
  if negb (PyStr.truthy nombre) then
    (db, Flash "El nombre es obligatorio" "danger")
  else if negb (PyStr.truthy dni) then
    (db, Flash "El DNI es obligatorio" "danger")
  else
    (add_client db
       (fun k => mkClient k nombre telefono email direccion (Some dni)),
     Flash "Cliente creado" "success").

(** [client_update] (line 351) *)
Definition client_update (db : database) (client_id : Z) (f : form)
  : database * response :=
  match get_client db client_id with
  | None => (db, NotFound)
  | Some client =>
      let nombre := PyStr.strip (form_get_default f "nombre" "") in
      let telefono := PyStr.strip (form_get_default f "telefono" "") in
      let email := PyStr.strip (form_get_default f "email" "") in
      let direccion := PyStr.strip (form_get_default f "direccion" "") in
      let dni := PyStr.strip (form_get_default f "dni" "") in
      if negb (PyStr.truthy nombre) then
        (db, Flash "El nombre es obligatorio" "danger")
      else if negb (PyStr.truthy dni) then
        (db, Flash "El DNI es obligatorio" "danger")
      else
        (update_client db (client_pk client)
           (fun c => mkClient (client_pk c) nombre telefono email direccion
                              (Some dni)),
         Flash "Cliente actualizado" "success")
  end.

(** [order_create] (line 406): the database after its last commit.  The
    databases after each of its commits are [order_create_commits]
    below. *)
Definition order_create (db : database) (f : form) : database * response :=
  match get_client_by_field db (form_get f "client_id") with
  | None => (db, Flash "Debe seleccionar un cliente válido." "danger")
  | Some client =>
      let marca := PyStr.strip (form_get_default f "marca" "") in
      let modelo := PyStr.strip (form_get_default f "modelo" "") in
      let problema :=
        PyStr.strip (form_get_default f "problema_reportado" "") in
      if negb (PyStr.truthy marca) || negb (PyStr.truthy modelo)
         || negb (PyStr.truthy problema) then
        (db, Flash "Marca, modelo y problema reportado son obligatorios."
                      "danger")
      else
        let order_id := next_pk (map order_pk (orders db)) in
        let order :=
          mkRepairOrder order_id (client_pk client) marca modelo
            (PyStr.strip (form_get_default f "imei" ""))
            (PyStr.strip (form_get_default f "accesorios" ""))
            (PyStr.strip (form_get_default f "clave_desbloqueo" ""))
            problema
            (PyStr.strip (form_get_default f "diagnostico" ""))
            (parse_float (form_get f "costo_estimado"))
            (Some (parse_float_or_zero (form_get f "senia")))
            (form_get_default f "estado" "recibido") in
        let db1 := add_order db (fun _ => order) in
        let db2 :=
          add_history db1 order_id (estado order) "Ingreso de la orden" in
        let db3 :=
          match positive_value (senia order) with
          | Some s =>
              add_cash db2 "entrada"
                (String.append "Seña orden #" (PyStr.of_int order_id))
                s (Some order_id)
          | None => db2
          end in
        (db3,
         Flash (String.append "Orden #"
                     (String.append (PyStr.of_int order_id) " creada."))
                  "success")
  end.

(** [order_update] (line 462) *)
Definition order_update (db : database) (order_id : Z) (f : form)
  : database * response :=
  match get_order db order_id with
  | None => (db, NotFound)
  | Some order =>
      match get_client_by_field db (form_get f "client_id") with
      | None => (db, Flash "Cliente inválido." "danger")
      | Some client =>
          (update_order db (order_pk order)
             (fun o =>
                mkRepairOrder (order_pk o) (client_pk client)
                  (PyStr.strip (form_get_default f "marca" ""))
                  (PyStr.strip (form_get_default f "modelo" ""))
                  (PyStr.strip (form_get_default f "imei" ""))
                  (PyStr.strip (form_get_default f "accesorios" ""))
                  (PyStr.strip (form_get_default f "clave_desbloqueo" ""))
                  (PyStr.strip (form_get_default f "problema_reportado" ""))
                  (PyStr.strip (form_get_default f "diagnostico" ""))
                  (parse_float (form_get f "costo_estimado"))
                  (Some (parse_float_or_zero (form_get f "senia")))
                  (estado o)),
           Flash "Orden actualizada." "success")
      end
  end.

(** The two sums of [order_change_status] (lines 506 and 529) and the
    conditions of their generators. *)
Definition is_entrada (mov : CashEntry) : bool :=
  String.eqb (tipo mov) "entrada".

Definition is_devolucion (mov : CashEntry) : bool :=
  String.eqb (tipo mov) "salida"
  && PyStr.startswith (concepto mov) "Devolución seña".

Definition total_pagado (db : database) (k : Z) : PyFloat.float :=
  PyFloat.sum
    (map (fun mov => PyFloat.or_zero (monto mov))
         (filter is_entrada (movimientos_caja db k))).

Definition total_devuelto (db : database) (k : Z) : PyFloat.float :=
  PyFloat.sum
    (map (fun mov => PyFloat.or_zero (monto mov))
         (filter is_devolucion (movimientos_caja db k))).

Definition pago_final (k : Z) : string :=
  String.append "Pago final orden #" (PyStr.of_int k).

Definition devolucion_senia (k : Z) : string :=
  String.append "Devolución seña orden #" (PyStr.of_int k).

(** The cash logic of [order_change_status] (lines 499-547), on the
    database in which the status is set and the history row is added. *)
Definition logica_de_caja (db : database) (order : RepairOrder)
  (nuevo_estado : string) : database :=
  let k := order_pk order in
  match (if String.eqb nuevo_estado "entregado"
         then positive_value (costo_estimado order) else None) with
  | Some costo =>
      let restante := PyFloat.round2 (PyFloat.sub costo (total_pagado db k)) in
      if PyFloat.gt0 restante
      then add_cash db "entrada" (pago_final k) restante (Some k)
      else db
  | None =>
      match (if String.eqb nuevo_estado "cancelado"
             then positive_value (senia order) else None) with
      | Some s =>
          let a_devolver :=
            PyFloat.round2 (PyFloat.sub s (total_devuelto db k)) in
          if PyFloat.gt0 a_devolver
          then add_cash db "salida" (devolucion_senia k) a_devolver (Some k)
          else db
      | None => db
      end
  end.

(** [order_change_status] (line 486) *)
Definition order_change_status (db : database) (order_id : Z) (f : form)
  : database * response :=
  match get_order db order_id with
  | None => (db, NotFound)
  | Some order =>
      let nota := PyStr.strip (form_get_default f "nota" "") in
      match form_get f "estado" with
      | Some nuevo_estado =>
          if in_order_states nuevo_estado then
            let k := order_pk order in
            let db1 :=
              add_history (update_order db k (set_estado nuevo_estado))
                          k nuevo_estado nota in
            (logica_de_caja db1 order nuevo_estado,
             Flash "Estado actualizado." "success")
          else (db, Flash "Estado inválido." "danger")
      | None => (db, Flash "Estado inválido." "danger")
      end
  end.

(** [add_part] (line 557) and [del_part] (line 571) *)
Definition add_part (db : database) (order_id : Z) (f : form)
  : database * response :=
  match get_order db order_id with
  | None => (db, NotFound)
  | Some order =>
      let desc := PyStr.strip (form_get_default f "descripcion" "") in
      let costo := parse_float_or_zero (form_get f "costo") in
      if negb (PyStr.truthy desc) then
        (db, Flash "Descripción de repuesto requerida." "danger")
      else
        (add_part_row db (order_pk order) desc costo,
         Flash "Repuesto agregado." "success")
  end.

Definition del_part (db : database) (order_id part_id : Z)
  : database * response :=
  match find (fun p => part_pk p =? part_id) (parts db) with
  | None => (db, NotFound)
  | Some part =>
      (mkDatabase (clients db) (orders db) (status_history db)
                  (filter (fun p => negb (part_pk p =? part_pk part))
                          (parts db))
                  (cash_entries db),
       Flash "Repuesto eliminado." "success")
  end.

(** [cash_create] (line 598) *)
Definition cash_create (db : database) (f : form) : database * response :=
  let tipo := form_get f "tipo" in
  let concepto := PyStr.strip (form_get_default f "concepto" "") in
  let monto := parse_float_or_zero (form_get f "monto") in
  let order_id := form_get f "order_id" in
  match tipo with
  | Some t =>
      if negb (String.eqb t "entrada" || String.eqb t "salida")
         || negb (PyStr.truthy concepto) || PyFloat.le0 monto then
        (db, Flash "Completar tipo, concepto y monto (>0)." "danger")
      else
        let order :=
          match order_id with
          | Some s => if PyStr.truthy s then get_order_by_field db order_id
                      else None
          | None => None
          end in
        (add_cash db t concepto monto (option_map order_pk order),
         Flash "Movimiento registrado." "success")
  | None => (db, Flash "Completar tipo, concepto y monto (>0)." "danger")
  end.

(** The totals of [cash_list] (lines 582-584; [index] computes the same):
    [SUM] over the selected rows is [NULL] when there is none, [coalesce]
    and [or 0.0] replace it. *)
Definition sql_sum (xs : list PyFloat.float) : option PyFloat.float :=
  match xs with
  | [] => None
  | x :: r => Some (fold_left PyFloat.add r x)
  end.

Definition coalesce (x : option PyFloat.float) (d : PyFloat.float)
  : PyFloat.float :=
  match x with Some v => v | None => d end.

Definition cash_total (db : database) (t : string) : PyFloat.float :=
  PyFloat.or_zero
    (coalesce
       (sql_sum (map monto
                     (filter (fun e => String.eqb (tipo e) t)
                             (cash_entries db))))
       PyFloat.zero).

Record cash_summary := mkCashSummary {
  entradas : PyFloat.float;
  salidas : PyFloat.float;
  saldo : PyFloat.float
}.

Definition cash_list (db : database) : cash_summary :=
  let entradas := cash_total db "entrada" in
  let salidas := cash_total db "salida" in
  mkCashSummary entradas salidas (PyFloat.sub entradas salidas).

(** [seed] (line 180): the demonstration rows, when there is no client. *)
Definition seed (db : database) : database :=
  match clients db with
  | _ :: _ => db
  | [] =>
      let c1 := next_pk (map client_pk (clients db)) in
      let db1 :=
        add_client db
          (fun k => mkClient k "Juan Pérez" "261-555-1234" "juan@example.com"
                             "San Martín 123" None) in
      let o1 := next_pk (map order_pk (orders db1)) in
      let db2 :=
        add_order db1
          (fun k => mkRepairOrder k c1 "Samsung" "A54" "3598..." "Funda"
                      "1-2-5-8" "No carga" "Conector"
                      (Some (PyFloat.of_int 45000))
                      (Some (PyFloat.of_int 10000)) "diagnostico") in
      let db3 := add_history db2 o1 "recibido" "Ingreso" in
      let db4 := add_history db3 o1 "diagnostico" "Se detecta conector" in
      let db5 :=
        add_part_row db4 o1 "Conector USB-C" (PyFloat.of_int 12000) in
      add_cash db5 "entrada"
        (String.append "Seña orden #" (PyStr.of_int o1))
        (PyFloat.of_int 10000) (Some o1)
  end.

(** ** Runs of the application *)

Inductive request :=
  | ClientCreate (f : form)
  | ClientUpdate (client_id : Z) (f : form)
  | OrderCreate (f : form)
  | OrderUpdate (order_id : Z) (f : form)
  | OrderChangeStatus (order_id : Z) (f : form)
  | AddPart (order_id : Z) (f : form)
  | DelPart (order_id part_id : Z)
  | CashCreate (f : form)
  | Seed.

Definition handle (db : database) (r : request) : database * response :=
  match r with
  | ClientCreate f => client_create db f
  | ClientUpdate k f => client_update db k f
  | OrderCreate f => order_create db f
  | OrderUpdate k f => order_update db k f
  | OrderChangeStatus k f => order_change_status db k f
  | AddPart k f => add_part db k f
  | DelPart k p => del_part db k p
  | CashCreate f => cash_create db f
  | Seed => (seed db, Finished)
  end.

Definition run (db : database) (rs : list request) : database :=
  fold_left (fun d r => fst (handle d r)) rs db.

(** The databases that the application can reach from the empty one at the
    end of a request: the states between two requests.  The states that
    the commits within a request leave are [committed] below. *)
Inductive reachable : database -> Prop :=
  | reachable_empty : reachable empty_db
  | reachable_step db r : reachable db -> reachable (fst (handle db r)).

(** ** The commits of a request

    [order_create] commits three times: the order (line 431), its first
    history row (line 433) and, when the deposit is positive, the cash
    entry of the deposit (line 436).  The databases that these commits
    leave, in order; none when the form is rejected. *)
Definition order_create_commits (db : database) (f : form) : list database :=
  match get_client_by_field db (form_get f "client_id") with
  | None => []
  | Some client =>
      let marca := PyStr.strip (form_get_default f "marca" "") in
      let modelo := PyStr.strip (form_get_default f "modelo" "") in
      let problema :=
        PyStr.strip (form_get_default f "problema_reportado" "") in
      if negb (PyStr.truthy marca) || negb (PyStr.truthy modelo)
         || negb (PyStr.truthy problema) then
        []
      else
        let order_id := next_pk (map order_pk (orders db)) in
        let order :=
          mkRepairOrder order_id (client_pk client) marca modelo
            (PyStr.strip (form_get_default f "imei" ""))
            (PyStr.strip (form_get_default f "accesorios" ""))
            (PyStr.strip (form_get_default f "clave_desbloqueo" ""))
            problema
            (PyStr.strip (form_get_default f "diagnostico" ""))
            (parse_float (form_get f "costo_estimado"))
            (Some (parse_float_or_zero (form_get f "senia")))
            (form_get_default f "estado" "recibido") in
        let db1 := add_order db (fun _ => order) in
        let db2 :=
          add_history db1 order_id (estado order) "Ingreso de la orden" in
        db1 :: db2 ::
        match positive_value (senia order) with
        | Some s =>
            [add_cash db2 "entrada"
               (String.append "Seña orden #" (PyStr.of_int order_id))
               s (Some order_id)]
        | None => []
        end
  end.

(** [seed] commits the client (line 184), then the order (line 188), then
    the two history rows, the part and the cash entry together
    (line 193). *)
Definition seed_commits (db : database) : list database :=
  match clients db with
  | _ :: _ => []
  | [] =>
      let c1 := next_pk (map client_pk (clients db)) in
      let db1 :=
        add_client db
          (fun k => mkClient k "Juan Pérez" "261-555-1234" "juan@example.com"
                             "San Martín 123" None) in
      let o1 := next_pk (map order_pk (orders db1)) in
      let db2 :=
        add_order db1
          (fun k => mkRepairOrder k c1 "Samsung" "A54" "3598..." "Funda"
                      "1-2-5-8" "No carga" "Conector"
                      (Some (PyFloat.of_int 45000))
                      (Some (PyFloat.of_int 10000)) "diagnostico") in
      let db3 := add_history db2 o1 "recibido" "Ingreso" in
      let db4 := add_history db3 o1 "diagnostico" "Se detecta conector" in
      let db5 :=
        add_part_row db4 o1 "Conector USB-C" (PyFloat.of_int 12000) in
      [db1; db2;
       add_cash db5 "entrada"
         (String.append "Seña orden #" (PyStr.of_int o1))
         (PyFloat.of_int 10000) (Some o1)]
  end.

(** Every other handler commits once, at its end (the database is the one
    it found when the handler gives up before). *)
Definition commits (db : database) (r : request) : list database :=
  match r with
  | OrderCreate f => order_create_commits db f
  | Seed => seed_commits db
  | _ => [fst (handle db r)]
  end.

(** The databases that some commit of the application leaves: what another
    request, or a reader of the database, can find at any point in time. *)
Inductive committed : database -> Prop :=
  | committed_empty : committed empty_db
  | committed_commit db r db' :
      committed db -> In db' (commits db r) -> committed db'.

(** * The rest of [app.py] *)

(** ** [RepairOrder.estado_label] (line 117) *)

(** [dict(pairs).get(k)]: the value of the last pair whose key is [k]. *)
Fixpoint dict_get (pairs : list (string * string)) (k : string)
  : option string :=
  match pairs with
  | [] => None
  | (k', v) :: r =>
      match dict_get r k with
      | Some v' => Some v'
      | None => if String.eqb k' k then Some v else None
      end
  end.

Definition estado_label (o : RepairOrder) : string :=
  match dict_get ORDER_STATES (estado o) with
  | Some label => label
  | None => estado o
  end.

(** ** The counters and the balance of [index] (line 218) *)

Record index_view := mkIndexView {
  total_orders : Z;
  open_orders : Z;
  ready_orders : Z;
  delivered_orders : Z;
  index_saldo : PyFloat.float
}.

(** [RepairOrder.query.filter(...).count()] *)
Definition count_orders (db : database) (p : RepairOrder -> bool) : Z :=
  Z.of_nat (List.length (filter p (orders db))).

Definition has_estado (e : string) (o : RepairOrder) : bool :=
  String.eqb (estado o) e.

(** The counters and the balance that [index] hands to its template. *)
Definition index (db : database) : index_view :=
  mkIndexView
    (Z.of_nat (List.length (orders db)))
    (count_orders db
       (fun o => existsb (String.eqb (estado o))
                   ["recibido"; "diagnostico"; "en_proceso";
                    "esperando_repuestos"]))
    (count_orders db (has_estado "listo"))
    (count_orders db (has_estado "entregado"))
    (PyFloat.sub (cash_total db "entrada") (cash_total db "salida")).

(** ** The total of the parts in [order_detail] (line 448) *)

(** [order.repuestos], in the order of the table. *)
Definition repuestos (db : database) (k : Z) : list Part :=
  filter (fun p => part_order_id p =? k) (parts db).

Definition total_repuestos (db : database) (k : Z) : PyFloat.float :=
  PyFloat.sum (map (fun p => PyFloat.or_zero (costo p)) (repuestos db k)).

(** ** [gen_token] (line 71) *)

Definition token_alphabet : string := "ABCDEFGHJKLMNPQRSTUVWXYZ23456789".

(** [secrets.choice(alphabet)] returns the character at an index that the
    system's generator draws below the length of the alphabet; [draws] are
    the indices of the [n] calls, in order. *)
Definition gen_token (draws : list nat) : string :=
  string_of_list_ascii
    (map (fun i => match String.get i token_alphabet with
                   | Some c => c
                   | None => " "%char
                   end) draws).

(** ** The WhatsApp link of [order_detail] (line 445) *)

(** [urllib.parse.quote(text)] on the bytes of the text: letters, digits,
    [_], [.], [-], [~] and the default safe character [/] are kept, every
    other byte becomes [%] and its two upper-case hexadecimal digits. *)
Definition always_safe (c : ascii) : bool :=
  PyStr.between 65 90 c || PyStr.between 97 122 c || PyStr.between 48 57 c
  || (PyStr.code c =? 95)%N || (PyStr.code c =? 46)%N
  || (PyStr.code c =? 45)%N || (PyStr.code c =? 126)%N.

Definition hex_digit (n : N) : ascii :=
  if (n <? 10)%N then ascii_of_N (48 + n) else ascii_of_N (55 + n).

Definition quote_byte (c : ascii) : list ascii :=
  if always_safe c || (PyStr.code c =? 47)%N then [c]
  else ["%"%char; hex_digit (PyStr.code c / 16);
        hex_digit (PyStr.code c mod 16)].

Definition quote (s : string) : string :=
  string_of_list_ascii (flat_map quote_byte (list_ascii_of_string s)).

(** The message of the link; [public_url] is the external address of the
    public page of the order. *)
Definition wa_text (nombre : string) (k : Z) (public_url : string) : string :=
  String.append "Hola "
    (String.append nombre
       (String.append ", te compartimos el estado de tu orden #"
          (String.append (PyStr.of_int k) (String.append ": " public_url)))).

Definition wa_link (nombre : string) (k : Z) (public_url : string) : string :=
  String.append "https://wa.me/?text=" (quote (wa_text nombre k public_url)).

(** ** The settings (app.py, lines 75, 172 and 238) *)

(** The row of the table [settings]; every column is nullable. *)
Record Settings := mkSettings {
  empresa : option string;
  settings_direccion : option string;
  settings_telefono : option string;
  settings_email : option string;
  logo_filename : option string;
  condiciones : option string
}.

(** The row with the key 1, when there is one, and the files of the upload
    directory, the one written last first. *)
Record store := mkStore {
  settings_row : option Settings;
  uploads : list (string * string)
}.

(** [Settings(id=1)] *)
Definition blank_settings : Settings :=
  mkSettings None None None None None None.

(** [get_settings] (line 172): the row is created when it is missing. *)
Definition get_settings (st : store) : store * Settings :=
  match settings_row st with
  | Some s => (st, s)
  | None => (mkStore (Some blank_settings) (uploads st), blank_settings)
  end.

(** [s.lower()] on the ASCII letters, the only ones that can become a
    character of the three suffixes below, and [s.endswith(p)]. *)
Definition lower_text (s : string) : string :=
  string_of_list_ascii (map PyStr.lower (list_ascii_of_string s)).

Definition endswith (s p : string) : bool :=
  (String.length p <=? String.length s)%nat
  && String.eqb
       (String.substring (String.length s - String.length p)
                         (String.length p) s) p.

(** [settings_save] (line 238).  [file] is the uploaded file of the field
    [logo], a name and its contents, and [token] is the text drawn by
    [secrets.token_hex(4)].  The fields are assigned to the loaded row and
    written by the commit at the end; the return on a refused logo comes
    before that commit, so the assignments are dropped with the session. *)
Definition settings_save (st : store) (f : form)
  (file : option (string * string)) (token : string) : store * response :=
  let '(st1, s) := get_settings st in
  let s1 :=
    mkSettings
      (Some (PyStr.strip (form_get_default f "empresa" "")))
      (Some (PyStr.strip (form_get_default f "direccion" "")))
      (Some (PyStr.strip (form_get_default f "telefono" "")))
      (Some (PyStr.strip (form_get_default f "email" "")))
      (logo_filename s)
      (Some (PyStr.strip (form_get_default f "condiciones" ""))) in
  let saved := Flash "Configuración guardada" "success" in
  match file with
  | Some (filename, contents) =>
      if PyStr.truthy filename then
        let fn := lower_text filename in
        if negb (endswith fn ".png" || endswith fn ".jpg"
                 || endswith fn ".jpeg") then
          (st1, Flash "El logo debe ser PNG/JPG." "danger")
        else
          let safe :=
            String.append (String.append "logo_" token)
              (if endswith fn ".png" then ".png" else ".jpg") in
          (mkStore
             (Some (mkSettings (empresa s1) (settings_direccion s1)
                      (settings_telefono s1) (settings_email s1)
                      (Some safe) (condiciones s1)))
             ((safe, contents) :: uploads st1),
           saved)
      else (mkStore (Some s1) (uploads st1), saved)
  | None => (mkStore (Some s1) (uploads st1), saved)
  end.

(** * The script [update_db_condiciones.py] *)

Module UpdateDb.

(** A database file: the columns of its table [settings], when it has that
    table, and the columns of its other tables. *)
Record db_file := mkDbFile {
  settings_columns : option (list string);
  other_tables : list (string * list string)
}.

(** The two files of the working directory that the script looks at:
    [sat.db] and [sat_backup_before_condiciones.db]. *)
Record files := mkFiles {
  sat_db : option db_file;
  backup : option db_file
}.

Inductive outcome :=
  | NoDatabase      (* "No se encontró sat.db en esta carpeta." *)
  | AlreadyThere    (* "La columna 'condiciones' ya existe." *)
  | Added           (* "Listo. ..." *)
  | Raised.         (* [sqlite3.OperationalError], not caught *)

(** [ALTER TABLE settings ADD COLUMN c TEXT]: SQLite refuses a missing
    table, and a column whose name is [c] in any letter case. *)
Definition add_column (d : db_file) (c : string) : option db_file :=
  match settings_columns d with
  | None => None
  | Some cols =>
      if existsb (fun x => String.eqb (lower_text x) (lower_text c)) cols
      then None
      else Some (mkDbFile (Some (cols ++ [c])) (other_tables d))
  end.

(** [PRAGMA table_info(settings)], the names: no row for a missing table. *)
Definition col_names (d : db_file) : list string :=
  match settings_columns d with
  | Some cols => cols
  | None => []
  end.

(** [main] (line 19) *)
Definition main (fs : files) : files * outcome :=
  match sat_db fs with
  | None => (fs, NoDatabase)
  | Some d =>
      let b := match backup fs with
               | None => Some d
               | Some old => Some old
               end in
      if existsb (String.eqb "condiciones") (col_names d) then
        (mkFiles (Some d) b, AlreadyThere)
      else
        match add_column d "condiciones" with
        | Some d' => (mkFiles (Some d') b, Added)
        | None => (mkFiles (Some d) b, Raised)
        end
  end.

End UpdateDb.

(** * Definitions used by the statements *)

(** The database on which [order_change_status] runs its cash logic. *)
Definition with_status (db : database) (k : Z) (e n : string) : database :=
  add_history (update_order db k (set_estado e)) k e n.

(** Two calls of [order_change_status] in a row with the same form. *)
Definition twice (db : database) (k : Z) (f : form) : database :=
  fst (order_change_status (fst (order_change_status db k f)) k f).

(** From [db] to [db'] the cash entries grew by at most one entry. *)
Definition appends_at_most_one (db db' : database) : Prop :=
  exists added, cash_entries db' = cash_entries db ++ added
                /\ (List.length added <= 1)%nat.

(** Two floats that are equal, or are both zeros. *)
Definition same_value (a b : PyFloat.float) : Prop :=
  a = b \/ exists s s', a = S754_zero s /\ b = S754_zero s'.

(** The row of a list of history rows that was inserted last. *)
Definition latest (hs : list StatusHistory) : option StatusHistory :=
  match rev hs with
  | h :: _ => Some h
  | [] => None
  end.

(** The history of every order is not empty and its latest row carries the
    current status of the order. *)
Definition history_follows_status (db : database) : Prop :=
  forall o, In o (orders db) ->
    option_map history_estado (latest (historial db (order_pk o)))
    = Some (estado o).

(** ** Whole amounts

    The float of a whole number of magnitude below [2^53] carries it
    exactly: the significand is shifted to 53 bits. *)
Definition whole_float (s : bool) (n : Z) : PyFloat.float :=
  S754_finite s (Z.to_pos (n * 2 ^ (52 - Z.log2 n))) (Z.log2 n - 52).

Definition total (ns : list Z) : Z := fold_right Z.add 0 ns.

(** The amounts [xs] are the floats of the whole numbers [ns], none
    negative. *)
Definition whole_amounts (xs : list PyFloat.float) (ns : list Z) : Prop :=
  xs = map PyFloat.of_int ns /\ Forall (fun n => 0 <= n) ns.

(** A nullable amount that is null or the float of a whole number from 0
    to [2^53 - 1]. *)
Definition whole_or_absent (x : option PyFloat.float) : Prop :=
  match x with
  | Some v => exists c, 0 <= c < 2 ^ 53 /\ v = PyFloat.of_int c
  | None => True
  end.

(** A shift register that has lost no bit. *)
Definition exact_record (m : Z) : shr_record := Build_shr_record m false false.

(** ** Databases and forms of the examples *)

(** The database of [flask seed]: one client, order 1 with an estimated
    cost of 45000 and a deposit of 10000 recorded as cash entry 1. *)
Definition demo_db : database := seed empty_db.

Definition entregado_form : form := [("estado", "entregado"); ("nota", "")].
Definition cancelado_form : form := [("estado", "cancelado"); ("nota", "")].

Definition three_entries_db : database :=
  mkDatabase [] [] [] []
    [mkCashEntry 1 "entrada" "a" (PyFloat.of_int 100) None;
     mkCashEntry 2 "salida" "b" (PyFloat.of_int 40) None;
     mkCashEntry 3 "entrada" "c" (PyFloat.of_int 5) None].

Definition order_with_deposit_form : form :=
  [("client_id", "1"); ("marca", "Motorola"); ("modelo", "G8");
   ("problema_reportado", "Pantalla rota"); ("senia", "1500,50")].

Definition order_with_unknown_status_form : form :=
  [("client_id", "1"); ("marca", "Motorola"); ("modelo", "G8");
   ("problema_reportado", "Pantalla rota"); ("estado", "roto")].

Definition nan_cash_form : form :=
  [("tipo", "entrada"); ("concepto", "Ajuste"); ("monto", "nan")].

(** One client and one order with an estimated cost of 5066.445 and a
    deposit of 4718, recorded as cash entry 1. *)
Definition half_cent_db : database :=
  run empty_db
    [ClientCreate [("nombre", "Ana"); ("dni", "30111222")];
     OrderCreate [("client_id", "1"); ("marca", "Samsung"); ("modelo", "A54");
                  ("problema_reportado", "No carga");
                  ("costo_estimado", "5066.445"); ("senia", "4718")]].

(** One client, one order with a deposit of 5066.445, and a partial refund
    of 4718 entered by hand for that order. *)
Definition partial_refund_db : database :=
  run empty_db
    [ClientCreate [("nombre", "Ana"); ("dni", "30111222")];
     OrderCreate [("client_id", "1"); ("marca", "Samsung"); ("modelo", "A54");
                  ("problema_reportado", "No carga");
                  ("senia", "5066.445")];
     CashCreate [("tipo", "salida"); ("concepto", "Devolución seña parcial");
                 ("monto", "4718"); ("order_id", "1")]].

(** One client and one order with a deposit of 35184372088832.0546875. *)
Definition huge_deposit_db : database :=
  run empty_db
    [ClientCreate [("nombre", "Ana"); ("dni", "30111222")];
     OrderCreate [("client_id", "1"); ("marca", "Samsung"); ("modelo", "A54");
                  ("problema_reportado", "No carga");
                  ("senia", "35184372088832.0546875")]].

(** * Invariants of the tables *)

(** Every primary key occurs once. *)
Definition keys_unique (db : database) : Prop :=
  NoDup (map client_pk (clients db))
  /\ NoDup (map order_pk (orders db))
  /\ NoDup (map history_pk (status_history db))
  /\ NoDup (map part_pk (parts db))
  /\ NoDup (map cash_pk (cash_entries db)).

Definition client_exists (db : database) (k : Z) : Prop :=
  In k (map client_pk (clients db)).

Definition order_exists (db : database) (k : Z) : Prop :=
  In k (map order_pk (orders db)).

(** Every foreign key references a row of its table. *)
Definition references_resolve (db : database) : Prop :=
  (forall o, In o (orders db) -> client_exists db (client_id o))
  /\ (forall h, In h (status_history db) ->
        order_exists db (history_order_id h))
  /\ (forall p, In p (parts db) -> order_exists db (part_order_id p))
  /\ (forall e k, In e (cash_entries db) -> cash_order_id e = Some k ->
        order_exists db k).

(** [xs] is [ys] followed by further elements. *)
Definition extends {A : Type} (xs ys : list A) : Prop :=
  exists added, xs = ys ++ added.

(** Every status stored in an order or in a history row is one of
    [ORDER_STATES]. *)
Definition statuses_valid (db : database) : Prop :=
  (forall o, In o (orders db) -> in_order_states (estado o) = true)
  /\ (forall h, In h (status_history db) ->
        in_order_states (history_estado h) = true).

(** A request that does not create an order with a status outside
    [ORDER_STATES]. *)
Definition creates_valid_status (r : request) : Prop :=
  match r with
  | OrderCreate f =>
      in_order_states (form_get_default f "estado" "recibido") = true
  | _ => True
  end.

(** The type is one of the two directions, the concept is not empty and
    the amount is not zero or negative. *)
Definition entry_well_formed (e : CashEntry) : Prop :=
  (tipo e = "entrada" \/ tipo e = "salida")
  /\ concepto e <> ""
  /\ PyFloat.le0 (monto e) = false.

(** A request that does not submit the amount [nan] to [cash_create]. *)
Definition no_nan_amount (r : request) : Prop :=
  match r with
  | CashCreate f => parse_float (form_get f "monto") <> Some S754_nan
  | _ => True
  end.

(** A client has a name, and an identity number unless it is null. *)
Definition client_well_formed (c : Client) : Prop :=
  nombre c <> "" /\ dni c <> Some "".

(** The amounts of the cash entries of type [t], in the order of the
    table. *)
Definition amounts_of (db : database) (t : string) : list PyFloat.float :=
  map monto (filter (fun e => String.eqb (tipo e) t) (cash_entries db)).

(** A character that [quote] can produce. *)
Definition quoted_char (c : ascii) : bool :=
  always_safe c || (PyStr.code c =? 47)%N || (PyStr.code c =? 37)%N.

(** The logo that the settings name, when they name one, is a file of the
    upload directory with a name that ends in [.png] or [.jpg]. *)
Definition logo_stored (st : store) : Prop :=
  forall s name,
    settings_row st = Some s -> logo_filename s = Some name ->
    In name (map fst (uploads st))
    /\ (endswith name ".png" || endswith name ".jpg") = true.

(** ** Further forms and files of the examples *)

(** The database of [flask seed] with a second order of the same client. *)
Definition two_orders_db : database :=
  run demo_db [OrderCreate order_with_deposit_form].

Definition part_form : form :=
  [("descripcion", " Pantalla "); ("costo", "8500")].

Definition logo_upload_form : form :=
  [("empresa", " Taller Sur "); ("telefono", "261-555-0000")].

Definition old_settings_file : UpdateDb.db_file :=
  UpdateDb.mkDbFile
    (Some ["id"; "empresa"; "direccion"; "telefono"; "email";
           "logo_filename"])
    [("client", ["id"; "nombre"])].

Definition client_form : form :=
  [("nombre", " Ana Ruiz "); ("dni", "30111222"); ("telefono", "155-0101")].

(** ** Amounts in cents

    The exact value of a finite float whose exponent is at least [-1074],
    as every binary64 has it, counted in units of [2^-1074]. *)
Definition ulps (x : PyFloat.float) : Z :=
  match x with
  | S754_finite s m e => cond_Zopp s (Zpos m * 2 ^ (e + 1074))
  | _ => 0
  end.

(** A zero or a finite float with an exponent of at least [-1074]. *)
Definition proper (x : PyFloat.float) : Prop :=
  match x with
  | S754_finite _ _ e => -1074 <= e
  | S754_zero _ => True
  | _ => False
  end.

(** What is left of [2 * m] below the kept bits after [j] shifts. *)
Definition shifted (m j : Z) (r : shr_record) : Prop :=
  exists t,
    0 <= shr_m r
    /\ 2 * m = (2 * shr_m r + Z.b2z (shr_r r)) * 2 ^ j + t
    /\ 0 <= t < 2 ^ j
    /\ (shr_s r = false -> t = 0).

(** The float nearest to [a / 100]: what [float()] reads in the decimal
    text of [a] cents, written with two decimals. *)
Definition cents (a : Z) : PyFloat.float := PyStr.of_decimal false a (-2).

(** [x] is within [k * 2^-24] of [a / 100]. *)
Definition near (x : PyFloat.float) (a k : Z) : Prop :=
  proper x
  /\ Z.abs (100 * ulps x - a * 2 ^ 1074) <= 100 * k * 2 ^ 1050.

(** ** The entries that a reconciliation counts

    Stated on the table itself: the entries linked to order [k] of type
    [entrada], and the entries linked to order [k] of type [salida] whose
    concept starts with "Devolución seña". *)
Definition linked_to (k : Z) (e : CashEntry) : bool :=
  match cash_order_id e with
  | Some j => j =? k
  | None => false
  end.

Definition entradas_of (db : database) (k : Z) : list CashEntry :=
  filter (fun e => linked_to k e && String.eqb (tipo e) "entrada")
         (cash_entries db).

Definition devoluciones_of (db : database) (k : Z) : list CashEntry :=
  filter (fun e => linked_to k e
                   && (String.eqb (tipo e) "salida"
                       && String.prefix "Devolución seña" (concepto e)))
         (cash_entries db).

(** The sum of the amounts of a list of entries, as [sum] adds them; an
    amount of [-0.0] counts as [0.0]. *)
Definition sum_of (es : list CashEntry) : PyFloat.float :=
  PyFloat.sum (map (fun e => PyFloat.or_zero (monto e)) es).

(** A nullable amount that is null or the float of a cent amount from 0 to
    [10^11] cents, that is up to 1 000 000 000.00. *)
Definition cents_or_absent (x : option PyFloat.float) : Prop :=
  match x with
  | Some v => exists c, 0 <= c <= 10 ^ 11 /\ v = cents c
  | None => True
  end.

(** The amounts [xs] are the floats of the cent amounts [ns], none
    negative: at most 10 000 amounts, adding up to at most [10^11] cents. *)
Definition cent_amounts (xs : list PyFloat.float) (ns : list Z) : Prop :=
  xs = map cents ns
  /\ Forall (fun n => 0 <= n) ns
  /\ total ns <= 10 ^ 11
  /\ Z.of_nat (List.length ns) <= 10000.

(** The database of [flask seed], where order 1 has a cost of 45000 and a
    deposit entry of 10000, after these requests: a second order with a
    deposit of 1500.50; an [entrada] of 500 with no order; an [entrada] of
    1000 for order 1; a [salida] of 200 for order 1. *)
Definition mixed_ledger_db : database :=
  run demo_db
    [OrderCreate order_with_deposit_form;
     CashCreate [("tipo", "entrada"); ("concepto", "Venta de funda");
                 ("monto", "500")];
     CashCreate [("tipo", "entrada"); ("concepto", "Pago a cuenta");
                 ("monto", "1000"); ("order_id", "1")];
     CashCreate [("tipo", "salida"); ("concepto", "Compra de repuesto");
                 ("monto", "200"); ("order_id", "1")]].

(** The database of [flask seed], where order 1 has a deposit of 10000,
    after these requests, all but the third for order 1: a [salida] of
    4000 "Devolución seña parcial"; a [salida] of 1000 "Ajuste de caja"; a
    [salida] of 700 "Devolución seña de otra orden" with no order; an
    [entrada] of 300 "Devolución seña anulada". *)
Definition refund_ledger_db : database :=
  run demo_db
    [CashCreate [("tipo", "salida"); ("concepto", "Devolución seña parcial");
                 ("monto", "4000"); ("order_id", "1")];
     CashCreate [("tipo", "salida"); ("concepto", "Ajuste de caja");
                 ("monto", "1000"); ("order_id", "1")];
     CashCreate [("tipo", "salida");
                 ("concepto", "Devolución seña de otra orden");
                 ("monto", "700")];
     CashCreate [("tipo", "entrada"); ("concepto", "Devolución seña anulada");
                 ("monto", "300"); ("order_id", "1")]].

(** One client and one order with an estimated cost of 100.07 and a
    deposit of 25.01, recorded as cash entry 1. *)
Definition cent_order_db : database :=
  run empty_db
    [ClientCreate [("nombre", "Ana"); ("dni", "30111222")];
     OrderCreate [("client_id", "1"); ("marca", "Samsung"); ("modelo", "A54");
                  ("problema_reportado", "No carga");
                  ("costo_estimado", "100.07"); ("senia", "25.01")]].

(** The same with a partial refund of 10.10 entered by hand for the
    order. *)
Definition cent_refund_db : database :=
  run cent_order_db
    [CashCreate [("tipo", "salida"); ("concepto", "Devolución seña parcial");
                 ("monto", "10,10"); ("order_id", "1")]].

(** The seeded database after the first commit of [order_create] on
    [order_with_deposit_form]. *)
Definition order_without_history_db : database :=
  hd demo_db (order_create_commits demo_db order_with_deposit_form).

(** * Properties *)

(** ** The float primitives on known values *)

(** The floats nearest to 0.1, to 5066.445 and to [2^53 + 1]; a value above
    the largest float; the smallest subnormal. *)
Example to_float_known_values :
  PyStr.to_float "0.1" = Some (S754_finite false 7205759403792794 (-56))
  /\ PyStr.to_float "5066.445"
     = Some (S754_finite false 5570615188987576 (-40))
  /\ PyStr.to_float "9007199254740993"
     = Some (S754_finite false 4503599627370496 1)
  /\ PyStr.to_float "1e400" = Some (S754_infinity false)
  /\ PyStr.to_float "4.9e-324" = Some (S754_finite false 1 (-1074))
  /\ PyStr.to_float " -1_000.50 " = PyStr.to_float "-1000.5"
  /\ PyStr.to_float "-NaN" = Some S754_nan
  /\ PyStr.to_float "Infinity" = Some (S754_infinity false)
  /\ PyStr.to_float "1__0" = None
  /\ PyStr.to_float "1e" = None
  /\ PyStr.to_float "." = None.
Proof. repeat split; vm_compute; reflexivity. Qed.

(** Rounding a ratio of two floats of integers is the division of the
    standard library. *)
Example of_ratio_is_SFdiv :
  map (fun '(n, d) => PyFloat.of_ratio false n d)
      [(1, 3); (2, 3); (1, 10); (7, 100); (355, 113); (1, 9007199254740991);
       (9007199254740991, 7); (123456789, 1000)]
  = map (fun '(n, d) =>
           SFdiv 53 1024 (PyFloat.of_int n) (PyFloat.of_int d))
      [(1, 3); (2, 3); (1, 10); (7, 100); (355, 113); (1, 9007199254740991);
       (9007199254740991, 7); (123456789, 1000)].
Proof. vm_compute. reflexivity. Qed.

(** [round(x, 2)] on values of CPython's documentation and tests: 2.675
    (below the tie as a float) gives 2.67, the ties 0.125 and 0.375 go to
    the even neighbour, a small negative gives [-0.0]. *)
Example round2_known_values :
  option_map PyFloat.round2 (PyStr.to_float "2.675") = PyStr.to_float "2.67"
  /\ option_map PyFloat.round2 (PyStr.to_float "0.125")
     = PyStr.to_float "0.12"
  /\ option_map PyFloat.round2 (PyStr.to_float "0.375")
     = PyStr.to_float "0.38"
  /\ option_map PyFloat.round2 (PyStr.to_float "-0.001")
     = Some (S754_zero true)
  /\ option_map PyFloat.round2 (PyStr.to_float "1e300")
     = PyStr.to_float "1e300"
  /\ PyFloat.round2 S754_nan = S754_nan.
Proof. repeat split; vm_compute; reflexivity. Qed.

(** ** Floats compared with zero *)

Lemma gt0_truthy (x : PyFloat.float) :
  PyFloat.gt0 x = true -> PyFloat.truthy x = true.
Proof. destruct x as [s|s| |s m e]; try destruct s; cbv; congruence. Qed.

Lemma le0_not_gt0 (x : PyFloat.float) :
  PyFloat.le0 x = true -> PyFloat.gt0 x = false.
Proof. destruct x as [s|s| |s m e]; try destruct s; cbv; congruence. Qed.

Lemma positive_value_gt0 (c : PyFloat.float) :
  PyFloat.gt0 c = true -> positive_value (Some c) = Some c.
Proof.
  intros H. unfold positive_value. now rewrite (gt0_truthy _ H), H.
Qed.

(** ** What the handlers leave alone *)

Lemma get_order_pk (db : database) (k : Z) (o : RepairOrder) :
  get_order db k = Some o -> order_pk o = k.
Proof.
  unfold get_order. intros H. apply find_some in H as [_ H].
  now apply Z.eqb_eq.
Qed.

Lemma movimientos_caja_ext (db db' : database) (k : Z) :
  cash_entries db' = cash_entries db ->
  movimientos_caja db' k = movimientos_caja db k.
Proof. unfold movimientos_caja. now intros ->. Qed.

Lemma total_pagado_ext (db db' : database) (k : Z) :
  cash_entries db' = cash_entries db -> total_pagado db' k = total_pagado db k.
Proof.
  intros H. unfold total_pagado. now rewrite (movimientos_caja_ext _ _ _ H).
Qed.

Lemma total_devuelto_ext (db db' : database) (k : Z) :
  cash_entries db' = cash_entries db ->
  total_devuelto db' k = total_devuelto db k.
Proof.
  intros H. unfold total_devuelto. now rewrite (movimientos_caja_ext _ _ _ H).
Qed.

Lemma order_change_status_valid (db : database) (k : Z) (f : form)
  (order : RepairOrder) (e : string) :
  get_order db k = Some order ->
  form_get f "estado" = Some e ->
  in_order_states e = true ->
  order_change_status db k f =
    (logica_de_caja
       (with_status db k e (PyStr.strip (form_get_default f "nota" "")))
       order e,
     Flash "Estado actualizado." "success").
Proof.
  intros Hg Hf He. unfold order_change_status.
  rewrite Hg, Hf, He, (get_order_pk _ _ _ Hg). reflexivity.
Qed.

Lemma logica_de_caja_entregado (db : database) (order : RepairOrder)
  (c : PyFloat.float) :
  costo_estimado order = Some c -> PyFloat.gt0 c = true ->
  logica_de_caja db order "entregado" =
    let k := order_pk order in
    let restante := PyFloat.round2 (PyFloat.sub c (total_pagado db k)) in
    if PyFloat.gt0 restante
    then add_cash db "entrada" (pago_final k) restante (Some k)
    else db.
Proof.
  intros Hc Hpos. unfold logica_de_caja.
  change (String.eqb "entregado" "entregado") with true. cbv iota.
  now rewrite Hc, (positive_value_gt0 _ Hpos).
Qed.

Lemma logica_de_caja_cancelado (db : database) (order : RepairOrder)
  (s : PyFloat.float) :
  senia order = Some s -> PyFloat.gt0 s = true ->
  logica_de_caja db order "cancelado" =
    let k := order_pk order in
    let a_devolver := PyFloat.round2 (PyFloat.sub s (total_devuelto db k)) in
    if PyFloat.gt0 a_devolver
    then add_cash db "salida" (devolucion_senia k) a_devolver (Some k)
    else db.
Proof.
  intros Hs Hpos. unfold logica_de_caja.
  change (String.eqb "cancelado" "entregado") with false.
  change (String.eqb "cancelado" "cancelado") with true. cbv iota.
  now rewrite Hs, (positive_value_gt0 _ Hpos).
Qed.

(** ** Reconciliation on delivery and on cancellation *)

(** ** The entries that the handler counts *)

Lemma filter_filter {A : Type} (p q : A -> bool) (l : list A) :
  filter p (filter q l) = filter (fun x => q x && p x) l.
Proof.
  induction l as [|x l IH]; cbn [filter]; [reflexivity|].
  destruct (q x); cbn [filter andb]; [|exact IH].
  destruct (p x); now rewrite IH.
Qed.

Lemma total_pagado_is_sum (db : database) (k : Z) :
  total_pagado db k = sum_of (entradas_of db k).
Proof.
  unfold total_pagado, movimientos_caja, sum_of, entradas_of.
  now rewrite filter_filter.
Qed.

Lemma total_devuelto_is_sum (db : database) (k : Z) :
  total_devuelto db k = sum_of (devoluciones_of db k).
Proof.
  unfold total_devuelto, movimientos_caja, sum_of, devoluciones_of.
  now rewrite filter_filter.
Qed.

Lemma entradas_of_ext (db db' : database) (k : Z) :
  cash_entries db' = cash_entries db -> entradas_of db' k = entradas_of db k.
Proof. unfold entradas_of. now intros ->. Qed.

Lemma devoluciones_of_ext (db db' : database) (k : Z) :
  cash_entries db' = cash_entries db ->
  devoluciones_of db' k = devoluciones_of db k.
Proof. unfold devoluciones_of. now intros ->. Qed.

Lemma entradas_of_add_cash (db : database) (k : Z) (c : string)
  (m : PyFloat.float) :
  entradas_of (add_cash db "entrada" c m (Some k)) k =
  entradas_of db k ++
    [mkCashEntry (next_pk (map cash_pk (cash_entries db))) "entrada" c m
       (Some k)].
Proof.
  unfold entradas_of, add_cash. cbn [cash_entries].
  rewrite filter_app. cbn [filter linked_to cash_order_id tipo].
  now rewrite Z.eqb_refl.
Qed.

Lemma prefix_append (p q s : string) :
  String.prefix p q = true -> String.prefix p (String.append q s) = true.
Proof.
  revert q. induction p as [|c p IH]; intros q; [now destruct q, s|].
  destruct q as [|c' q]; cbn [String.append String.prefix]; [discriminate|].
  destruct (ascii_dec c c'); [apply IH|discriminate].
Qed.

Lemma devolucion_senia_prefix (k : Z) :
  String.prefix "Devolución seña" (devolucion_senia k) = true.
Proof. apply prefix_append. reflexivity. Qed.

Lemma devoluciones_of_add_cash (db : database) (k : Z) (m : PyFloat.float) :
  devoluciones_of (add_cash db "salida" (devolucion_senia k) m (Some k)) k =
  devoluciones_of db k ++
    [mkCashEntry (next_pk (map cash_pk (cash_entries db))) "salida"
       (devolucion_senia k) m (Some k)].
Proof.
  unfold devoluciones_of, add_cash. cbn [cash_entries].
  rewrite filter_app. cbn [filter linked_to cash_order_id tipo concepto].
  rewrite Z.eqb_refl, devolucion_senia_prefix. reflexivity.
Qed.

(** C1. For an order whose [costo_estimado] is present and [> 0], a
    successful change of status to [entregado] (the "delivered" of the
    specification) appends exactly one cash entry of type [entrada], of
    amount [round(costo_estimado - already_paid, 2)], with the concept
    ["Pago final orden #<id>"] and linked to the order, when that amount is
    [> 0], and appends nothing when it is [<= 0].  The amount already paid
    is the sum of the amounts of the entries of the table that are linked
    to the order and have the type [entrada]: an [entrada] with no order
    or of another order, and a [salida] of the order, do not count.  With
    a cost of 45000 and a single such entry, of 10000, the appended entry
    has amount 35000 and a concept that ends with the key of the order. *)
Theorem final_payment_on_delivery
  (db : database) (k : Z) (f : form) (order : RepairOrder)
  (c : PyFloat.float) :
  get_order db k = Some order ->
  form_get f "estado" = Some "entregado" ->
  costo_estimado order = Some c ->
  PyFloat.gt0 c = true ->
  let already_paid :=
    PyFloat.sum
      (map (fun e => PyFloat.or_zero (monto e))
           (filter (fun e => linked_to k e && String.eqb (tipo e) "entrada")
                   (cash_entries db))) in
  let restante := PyFloat.round2 (PyFloat.sub c already_paid) in
  let db' := fst (order_change_status db k f) in
  snd (order_change_status db k f) = Flash "Estado actualizado." "success"
  /\ (PyFloat.gt0 restante = true ->
      cash_entries db' =
        cash_entries db ++
          [mkCashEntry (next_pk (map cash_pk (cash_entries db))) "entrada"
             (String.append "Pago final orden #" (PyStr.of_int k))
             restante (Some k)])
  /\ (PyFloat.le0 restante = true -> cash_entries db' = cash_entries db)
  /\ (c = PyFloat.of_int 45000 ->
      (exists e0, entradas_of db k = [e0]
                  /\ monto e0 = PyFloat.of_int 10000) ->
      exists e, cash_entries db' = cash_entries db ++ [e]
                /\ tipo e = "entrada"
                /\ monto e = PyFloat.of_int 35000
                /\ concepto e =
                     String.append "Pago final orden #" (PyStr.of_int k)
                /\ cash_order_id e = Some k).
Proof.
  intros Hg Hf Hc Hpos. cbv zeta. fold (entradas_of db k).
  rewrite (order_change_status_valid db k f order "entregado" Hg Hf eq_refl).
  cbn [fst snd].
  rewrite (logica_de_caja_entregado _ _ _ Hc Hpos), (get_order_pk _ _ _ Hg).
  cbv zeta. rewrite (total_pagado_ext db) by reflexivity.
  rewrite total_pagado_is_sum. unfold sum_of.
  set (restante := PyFloat.round2 _).
  split; [reflexivity|]. split; [|split].
  - intros ->. reflexivity.
  - intros H. now rewrite (le0_not_gt0 _ H).
  - intros -> (e0 & Hm & Ha).
    assert (R : restante = PyFloat.of_int 35000).
    { subst restante. rewrite Hm. cbn [map]. rewrite Ha. now vm_compute. }
    rewrite R. change (PyFloat.gt0 (PyFloat.of_int 35000)) with true.
    eexists. split; [reflexivity|]. cbn. repeat split.
Qed.

Lemma final_payment_on_delivery_witness :
  get_order mixed_ledger_db 1 <> None
  /\ cash_entries (fst (order_change_status mixed_ledger_db 1 entregado_form))
     = cash_entries mixed_ledger_db ++
         [mkCashEntry 6 "entrada" "Pago final orden #1"
            (PyFloat.of_int 34000) (Some 1)]
  /\ exists e,
       cash_entries (fst (order_change_status demo_db 1 entregado_form))
       = cash_entries demo_db ++ [e]
       /\ monto e = PyFloat.of_int 35000.
Proof.
  split; [vm_compute; discriminate|]. split.
  - destruct (get_order mixed_ledger_db 1) as [order|] eqn:Hg;
      [|vm_compute in Hg; discriminate Hg].
    destruct (final_payment_on_delivery mixed_ledger_db 1 entregado_form
                order (PyFloat.of_int 45000) Hg eq_refl)
      as (_ & H & _).
    + vm_compute in Hg. injection Hg as <-. reflexivity.
    + reflexivity.
    + rewrite H by (vm_compute; reflexivity). vm_compute. reflexivity.
  - destruct (get_order demo_db 1) as [order|] eqn:Hg;
      [|vm_compute in Hg; discriminate Hg].
    destruct (final_payment_on_delivery demo_db 1 entregado_form order
                (PyFloat.of_int 45000) Hg eq_refl)
      as (_ & _ & _ & H).
    + vm_compute in Hg. injection Hg as <-. reflexivity.
    + reflexivity.
    + destruct (H eq_refl) as (e & He & _ & Hm & _).
      * eexists. split; reflexivity.
      * exists e. split; [exact He|exact Hm].
Defined.

(** C2. For an order whose [senia] (deposit) is [> 0], a successful change
    of status to [cancelado] appends exactly one cash entry of type
    [salida], of amount [round(senia - already_refunded, 2)], with the
    concept ["Devolución seña orden #<id>"] and linked to the order, when
    that amount is [> 0], and appends nothing when it is [<= 0].  The
    amount already refunded is the sum of the amounts of the entries of the
    table that are linked to the order, have the type [salida] and a
    concept that starts with ["Devolución seña"]: a [salida] of the order
    with another concept, an entry with no order or of another order, and
    an [entrada], do not count. *)
Theorem deposit_refund_on_cancellation
  (db : database) (k : Z) (f : form) (order : RepairOrder)
  (s : PyFloat.float) :
  get_order db k = Some order ->
  form_get f "estado" = Some "cancelado" ->
  senia order = Some s ->
  PyFloat.gt0 s = true ->
  let already_refunded :=
    PyFloat.sum
      (map (fun e => PyFloat.or_zero (monto e))
           (filter (fun e => linked_to k e
                             && (String.eqb (tipo e) "salida"
                                 && String.prefix "Devolución seña"
                                      (concepto e)))
                   (cash_entries db))) in
  let a_devolver := PyFloat.round2 (PyFloat.sub s already_refunded) in
  let db' := fst (order_change_status db k f) in
  snd (order_change_status db k f) = Flash "Estado actualizado." "success"
  /\ (PyFloat.gt0 a_devolver = true ->
      cash_entries db' =
        cash_entries db ++
          [mkCashEntry (next_pk (map cash_pk (cash_entries db))) "salida"
             (String.append "Devolución seña orden #" (PyStr.of_int k))
             a_devolver (Some k)])
  /\ (PyFloat.le0 a_devolver = true -> cash_entries db' = cash_entries db).
Proof.
  intros Hg Hf Hs Hpos. cbv zeta. fold (devoluciones_of db k).
  rewrite (order_change_status_valid db k f order "cancelado" Hg Hf eq_refl).
  cbn [fst snd].
  rewrite (logica_de_caja_cancelado _ _ _ Hs Hpos), (get_order_pk _ _ _ Hg).
  cbv zeta. rewrite (total_devuelto_ext db) by reflexivity.
  rewrite total_devuelto_is_sum. unfold sum_of.
  set (a_devolver := PyFloat.round2 _).
  split; [reflexivity|]. split.
  - intros ->. reflexivity.
  - intros H. now rewrite (le0_not_gt0 _ H).
Qed.

Lemma deposit_refund_on_cancellation_witness :
  get_order refund_ledger_db 1 <> None
  /\ cash_entries (fst (order_change_status refund_ledger_db 1 cancelado_form))
     = cash_entries refund_ledger_db ++
         [mkCashEntry 6 "salida" "Devolución seña orden #1"
            (PyFloat.of_int 6000) (Some 1)].
Proof.
  split; [vm_compute; discriminate|].
  destruct (get_order refund_ledger_db 1) as [order|] eqn:Hg;
    [|vm_compute in Hg; discriminate Hg].
  destruct (deposit_refund_on_cancellation refund_ledger_db 1 cancelado_form
              order (PyFloat.of_int 10000) Hg eq_refl)
    as (_ & H & _).
  - vm_compute in Hg. injection Hg as <-. reflexivity.
  - reflexivity.
  - rewrite H by (vm_compute; reflexivity). vm_compute. reflexivity.
Defined.

(** C3. When the submitted status is missing or is not one of the seven
    values of [ORDER_STATES], [order_change_status] on an existing order
    answers with the error ["Estado inválido."] and returns the database as
    it was: the status of the order, the history and the cash entries are
    unchanged. *)
Theorem invalid_status_changes_nothing
  (db : database) (k : Z) (f : form) :
  get_order db k <> None ->
  (forall e, form_get f "estado" = Some e -> in_order_states e = false) ->
  order_change_status db k f = (db, Flash "Estado inválido." "danger").
Proof.
  intros Hg Hf. unfold order_change_status.
  destruct (get_order db k) as [order|]; [|contradiction].
  destruct (form_get f "estado") as [e|]; [|reflexivity].
  now rewrite (Hf e eq_refl).
Qed.

Lemma invalid_status_changes_nothing_witness :
  get_order demo_db 1 <> None
  /\ order_change_status demo_db 1 [("estado", "roto")] =
       (demo_db, Flash "Estado inválido." "danger").
Proof.
  split; [discriminate|].
  apply (invalid_status_changes_nothing demo_db 1 [("estado", "roto")]).
  - discriminate.
  - intros e [= <-]. reflexivity.
Defined.

(** ** The cash totals *)

Lemma same_value_add (a b y : PyFloat.float) :
  same_value a b -> same_value (PyFloat.add a y) (PyFloat.add b y).
Proof.
  intros [->|(s & s' & -> & ->)]; [now left|].
  destruct y as [sy|sy| |sy m e]; cbn.
  - right. destruct s, s', sy; cbn; eauto.
  - now left.
  - now left.
  - now left.
Qed.

Lemma same_value_fold (xs : list PyFloat.float) (a b : PyFloat.float) :
  same_value a b ->
  same_value (fold_left PyFloat.add xs a) (fold_left PyFloat.add xs b).
Proof.
  revert a b. induction xs as [|x xs IH]; intros a b H; cbn; [exact H|].
  apply IH. now apply same_value_add.
Qed.

Lemma same_value_or_zero (a b : PyFloat.float) :
  same_value a b -> PyFloat.or_zero a = PyFloat.or_zero b.
Proof. intros [->|(s & s' & -> & ->)]; [reflexivity|now destruct s, s']. Qed.

Lemma zero_add_same_value (x : PyFloat.float) :
  same_value x (PyFloat.add PyFloat.zero x).
Proof.
  destruct x as [s|s| |s m e]; try (now left).
  right. destruct s; do 2 eexists; split; reflexivity.
Qed.

Lemma sql_sum_is_sum (xs : list PyFloat.float) :
  PyFloat.or_zero (coalesce (sql_sum xs) PyFloat.zero) =
  PyFloat.or_zero (PyFloat.sum xs).
Proof.
  destruct xs as [|x xs]; [reflexivity|].
  apply same_value_or_zero. cbn. apply same_value_fold, zero_add_same_value.
Qed.

(** C8. The balance shown by [cash_list] is the total of the [entrada]
    entries minus the total of the [salida] entries; the total of a type is
    the float sum of the amounts of all the entries of that type, and it is
    the float [0.0], not a null, when there is no such entry.  On the three
    entries (entrada, 100), (salida, 40), (entrada, 5) the balance is 65. *)
Theorem balance_is_in_minus_out (db : database) :
  saldo (cash_list db) =
    PyFloat.sub (entradas (cash_list db)) (salidas (cash_list db))
  /\ entradas (cash_list db) = cash_total db "entrada"
  /\ salidas (cash_list db) = cash_total db "salida"
  /\ (forall t,
        cash_total db t =
          PyFloat.or_zero
            (PyFloat.sum
               (map monto (filter (fun e => String.eqb (tipo e) t)
                                  (cash_entries db)))))
  /\ (forall t, (forall e, In e (cash_entries db) -> tipo e <> t) ->
        cash_total db t = PyFloat.zero)
  /\ (forall e1 e2 e3,
        cash_entries db = [e1; e2; e3] ->
        tipo e1 = "entrada" /\ monto e1 = PyFloat.of_int 100 ->
        tipo e2 = "salida" /\ monto e2 = PyFloat.of_int 40 ->
        tipo e3 = "entrada" /\ monto e3 = PyFloat.of_int 5 ->
        saldo (cash_list db) = PyFloat.of_int 65).
Proof.
  repeat split.
  - intros t. unfold cash_total. apply sql_sum_is_sum.
  - intros t H. unfold cash_total.
    replace (filter (fun e => String.eqb (tipo e) t) (cash_entries db))
      with (@nil CashEntry); [reflexivity|].
    symmetry. induction (cash_entries db) as [|e es IH]; [reflexivity|].
    cbn. destruct (String.eqb_spec (tipo e) t) as [E|_].
    + exfalso. apply (H e); [now left|exact E].
    + apply IH. intros e' He'. apply H. now right.
  - intros e1 e2 e3 E [T1 M1] [T2 M2] [T3 M3].
    unfold cash_list, cash_total. rewrite E. cbn [filter saldo].
    rewrite T1, T2, T3. cbn [String.eqb Ascii.eqb Bool.eqb map].
    rewrite M1, M2, M3. now vm_compute.
Qed.

Lemma balance_is_in_minus_out_witness :
  saldo (cash_list three_entries_db) = PyFloat.of_int 65.
Proof.
  destruct (balance_is_in_minus_out three_entries_db)
    as (_ & _ & _ & _ & _ & H).
  apply (H _ _ _ eq_refl); split; reflexivity.
Defined.

(** ** The deposit recorded when an order is created *)

Lemma order_create_accepted (db : database) (f : form) (client : Client) :
  get_client_by_field db (form_get f "client_id") = Some client ->
  PyStr.truthy (PyStr.strip (form_get_default f "marca" "")) = true ->
  PyStr.truthy (PyStr.strip (form_get_default f "modelo" "")) = true ->
  PyStr.truthy (PyStr.strip (form_get_default f "problema_reportado" ""))
    = true ->
  let k := next_pk (map order_pk (orders db)) in
  let order :=
    mkRepairOrder k (client_pk client)
      (PyStr.strip (form_get_default f "marca" ""))
      (PyStr.strip (form_get_default f "modelo" ""))
      (PyStr.strip (form_get_default f "imei" ""))
      (PyStr.strip (form_get_default f "accesorios" ""))
      (PyStr.strip (form_get_default f "clave_desbloqueo" ""))
      (PyStr.strip (form_get_default f "problema_reportado" ""))
      (PyStr.strip (form_get_default f "diagnostico" ""))
      (parse_float (form_get f "costo_estimado"))
      (Some (parse_float_or_zero (form_get f "senia")))
      (form_get_default f "estado" "recibido") in
  let db2 :=
    add_history (add_order db (fun _ => order)) k (estado order)
                "Ingreso de la orden" in
  fst (order_create db f) =
    match positive_value (senia order) with
    | Some s =>
        add_cash db2 "entrada"
          (String.append "Seña orden #" (PyStr.of_int k)) s (Some k)
    | None => db2
    end.
Proof.
  intros Hc Hm Ho Hp k order db2. unfold order_create.
  rewrite Hc, Hm, Ho, Hp. cbn [negb orb]. reflexivity.
Qed.

(** C10. When an order is created from a request whose [senia] field
    parses to a float [> 0], exactly one cash entry is appended: of type
    [entrada], of that amount, with the concept ["Seña orden #<id>"] that
    ends with the key of the new order, and linked to the new order.  When
    the field is absent, does not parse, or parses to a zero, no cash entry
    is appended. *)
Theorem deposit_recorded_on_creation
  (db : database) (f : form) (client : Client) :
  get_client_by_field db (form_get f "client_id") = Some client ->
  PyStr.truthy (PyStr.strip (form_get_default f "marca" "")) = true ->
  PyStr.truthy (PyStr.strip (form_get_default f "modelo" "")) = true ->
  PyStr.truthy (PyStr.strip (form_get_default f "problema_reportado" ""))
    = true ->
  let k := next_pk (map order_pk (orders db)) in
  let db' := fst (order_create db f) in
  (exists o, orders db' = orders db ++ [o] /\ order_pk o = k)
  /\ (forall s,
        parse_float (form_get f "senia") = Some s ->
        PyFloat.gt0 s = true ->
        cash_entries db' =
          cash_entries db ++
            [mkCashEntry (next_pk (map cash_pk (cash_entries db))) "entrada"
               (String.append "Seña orden #" (PyStr.of_int k)) s (Some k)])
  /\ (form_get f "senia" = None
      \/ parse_float (form_get f "senia") = None
      \/ (exists sg, parse_float (form_get f "senia") = Some (S754_zero sg))
      -> cash_entries db' = cash_entries db).
Proof.
  intros Hc Hm Ho Hp k db'. subst db'.
  rewrite (order_create_accepted db f client Hc Hm Ho Hp).
  cbn [senia]. fold k. split; [|split].
  - destruct (positive_value _); eexists; split; reflexivity.
  - intros s Hs Hpos. unfold parse_float_or_zero. rewrite Hs.
    assert (E : PyFloat.or_zero s = s)
      by (unfold PyFloat.or_zero; now rewrite (gt0_truthy _ Hpos)).
    rewrite E, (positive_value_gt0 _ Hpos). reflexivity.
  - intros H.
    assert (E : parse_float_or_zero (form_get f "senia") = PyFloat.zero).
    { unfold parse_float_or_zero.
      destruct H as [H|[H|[sg H]]]; rewrite H; reflexivity. }
    rewrite E. reflexivity.
Qed.

Lemma deposit_recorded_on_creation_witness :
  get_client_by_field demo_db (form_get order_with_deposit_form "client_id")
    <> None
  /\ exists s,
       parse_float (Some "1500,50") = Some s
       /\ cash_entries (fst (order_create demo_db order_with_deposit_form)) =
            cash_entries demo_db ++
              [mkCashEntry 2 "entrada" "Seña orden #2" s (Some 2)].
Proof.
  split; [discriminate|].
  destruct (get_client_by_field demo_db
              (form_get order_with_deposit_form "client_id"))
    as [client|] eqn:Hc; [|discriminate].
  destruct (parse_float (Some "1500,50")) as [s|] eqn:Hs; [|discriminate].
  exists s. split; [reflexivity|].
  destruct (deposit_recorded_on_creation demo_db order_with_deposit_form
              client Hc eq_refl eq_refl eq_refl) as (_ & H & _).
  apply (H s Hs). vm_compute in Hs. injection Hs as <-. reflexivity.
Defined.

(** ** The history follows the status *)

Lemma latest_app (hs : list StatusHistory) (h : StatusHistory) :
  latest (hs ++ [h]) = Some h.
Proof. unfold latest. now rewrite rev_unit. Qed.

Lemma latest_app_nil (hs hs' : list StatusHistory) :
  hs' = [] -> latest (hs ++ hs') = latest hs.
Proof. intros ->. now rewrite app_nil_r. Qed.

Lemma next_pk_above (pks : list Z) (x : Z) : In x pks -> x < next_pk pks.
Proof.
  unfold next_pk. induction pks as [|p pks IH]; cbn [fold_right In]; [easy|].
  intros [->|H]; [lia|]. specialize (IH H). lia.
Qed.

Lemma next_order_pk_fresh (db : database) (o : RepairOrder) :
  In o (orders db) -> order_pk o <> next_pk (map order_pk (orders db)).
Proof.
  intros H. apply (in_map order_pk) in H. apply next_pk_above in H. lia.
Qed.

(** Rows whose history is untouched keep the property. *)
Lemma history_follows_status_frame (db db' : database) :
  status_history db' = status_history db ->
  (forall o', In o' (orders db') ->
     exists o, In o (orders db) /\ order_pk o' = order_pk o
               /\ estado o' = estado o) ->
  history_follows_status db -> history_follows_status db'.
Proof.
  intros Hh Ho I o' Hin. destruct (Ho o' Hin) as (o & Hin0 & -> & ->).
  unfold historial. rewrite Hh. exact (I o Hin0).
Qed.

Lemma filter_other_order (hs : list StatusHistory) (k k' : Z) :
  (forall x, In x hs -> history_order_id x = k) -> k <> k' ->
  filter (fun h => history_order_id h =? k') hs = [].
Proof.
  intros Hk Hne. induction hs as [|x hs IH]; [reflexivity|]. cbn.
  rewrite (Hk x) by now left.
  destruct (Z.eqb_spec k k') as [E|_]; [contradiction|].
  apply IH. intros y Hy. apply Hk. now right.
Qed.

(** History rows [hs ++ [h]] added for the order [k], whose status becomes
    the one of [h]. *)
Lemma history_follows_status_append (db db' : database) (k : Z)
  (hs : list StatusHistory) (h : StatusHistory) :
  status_history db' = status_history db ++ hs ++ [h] ->
  (forall x, In x (hs ++ [h]) -> history_order_id x = k) ->
  (forall o', In o' (orders db') ->
     (order_pk o' = k /\ estado o' = history_estado h)
     \/ (order_pk o' <> k
         /\ exists o, In o (orders db) /\ order_pk o' = order_pk o
                      /\ estado o' = estado o)) ->
  history_follows_status db -> history_follows_status db'.
Proof.
  intros Hh Hk Ho I o' Hin. unfold historial. rewrite Hh, app_assoc.
  rewrite filter_app. cbn [filter].
  destruct (Ho o' Hin) as [[Hpk He]|(Hpk & o & Hin0 & Epk & Ee)].
  - rewrite (Hk h) by (apply in_or_app; right; now left).
    rewrite Hpk, Z.eqb_refl, latest_app. cbn. now rewrite He.
  - rewrite (Hk h) by (apply in_or_app; right; now left).
    destruct (Z.eqb_spec k (order_pk o')) as [E|_]; [congruence|].
    rewrite app_nil_r, filter_app.
    rewrite latest_app_nil.
    + rewrite Epk, Ee. exact (I o Hin0).
    + apply (filter_other_order hs k); [|congruence].
      intros x Hx. apply Hk, in_or_app. now left.
Qed.

Lemma logica_de_caja_tables (db : database) (o : RepairOrder) (e : string) :
  orders (logica_de_caja db o e) = orders db
  /\ status_history (logica_de_caja db o e) = status_history db.
Proof.
  unfold logica_de_caja.
  repeat match goal with
         | |- context [match ?x with _ => _ end] => destruct x
         end; now split.
Qed.

Lemma order_create_history (db : database) (f : form) :
  history_follows_status db ->
  history_follows_status (fst (order_create db f)).
Proof.
  intros I. unfold order_create.
  destruct (get_client_by_field db (form_get f "client_id")) as [client|];
    [|exact I].
  destruct (negb _ || negb _ || negb _); [exact I|]. cbn [fst].
  set (k := next_pk (map order_pk (orders db))).
  set (order := mkRepairOrder k _ _ _ _ _ _ _ _ _ _ _).
  set (h := mkStatusHistory (next_pk (map history_pk (status_history db)))
              k (estado order) "Ingreso de la orden").
  apply (history_follows_status_append db _ k [] h); [| | |exact I].
  - destruct (positive_value (senia order)); reflexivity.
  - intros x [<-|[]]. reflexivity.
  - intros o' Hin.
    assert (Hin' : In o' (orders db ++ [order]))
      by (destruct (positive_value (senia order)); exact Hin).
    apply in_app_or in Hin' as [Hin'|[<-|[]]].
    + right. split; [now apply next_order_pk_fresh|]. now exists o'.
    + left. now split.
Qed.

Lemma order_change_status_history (db : database) (k : Z) (f : form) :
  history_follows_status db ->
  history_follows_status (fst (order_change_status db k f)).
Proof.
  intros I. unfold order_change_status.
  destruct (get_order db k) as [order|] eqn:Hg; [|exact I].
  destruct (form_get f "estado") as [e|]; [|exact I].
  destruct (in_order_states e); [|exact I]. cbn [fst].
  rewrite (get_order_pk _ _ _ Hg).
  set (n := PyStr.strip _).
  destruct (logica_de_caja_tables (add_history (update_order db k
              (set_estado e)) k e n) order e) as [Eo Eh].
  set (h := mkStatusHistory (next_pk (map history_pk (status_history db)))
              k e n).
  apply (history_follows_status_append db _ k [] h); [| | |exact I].
  - rewrite Eh. reflexivity.
  - intros x [<-|[]]. reflexivity.
  - intros o'. rewrite Eo. cbn [orders update_order]. intros Hin.
    apply in_map_iff in Hin as (o & <- & Hin).
    destruct (Z.eqb_spec (order_pk o) k) as [E|E].
    + left. now split.
    + right. split; [exact E|]. now exists o.
Qed.

Lemma order_update_history (db : database) (k : Z) (f : form) :
  history_follows_status db ->
  history_follows_status (fst (order_update db k f)).
Proof.
  intros I. unfold order_update.
  destruct (get_order db k) as [order|]; [|exact I].
  destruct (get_client_by_field db (form_get f "client_id")) as [client|];
    [|exact I].
  cbn [fst]. apply (history_follows_status_frame db); [reflexivity| |exact I].
  cbn [orders update_order]. intros o' Hin.
  apply in_map_iff in Hin as (o & <- & Hin). exists o.
  destruct (order_pk o =? order_pk order); now repeat split.
Qed.

Lemma seed_history (db : database) :
  history_follows_status db -> history_follows_status (seed db).
Proof.
  intros I. unfold seed. destruct (clients db) as [|c cs] eqn:Ec; [|exact I].
  set (k := next_pk (map order_pk (orders db))).
  apply (history_follows_status_append db _ k
           [mkStatusHistory (next_pk (map history_pk (status_history db)))
              k "recibido" "Ingreso"]
           (mkStatusHistory
              (next_pk (map history_pk
                 (status_history db ++
                    [mkStatusHistory
                       (next_pk (map history_pk (status_history db)))
                       k "recibido" "Ingreso"])))
              k "diagnostico" "Se detecta conector")); [| | |exact I].
  - cbn. now rewrite <- app_assoc.
  - intros x [<-|[<-|[]]]; reflexivity.
  - cbn [orders add_cash add_part_row add_history add_order add_client].
    intros o' Hin. apply in_app_or in Hin as [Hin|[<-|[]]].
    + right. split; [now apply next_order_pk_fresh|]. now exists o'.
    + left. now split.
Qed.

Lemma handle_history (db : database) (r : request) :
  history_follows_status db -> history_follows_status (fst (handle db r)).
Proof.
  intros I. destruct r as [f|k f|f|k f|k f|k f|k p|f|]; cbn [handle].
  - unfold client_create.
    repeat match goal with
           | |- context [if ?b then _ else _] => destruct b
           end; exact I.
  - unfold client_update. destruct (get_client db k); [|exact I].
    repeat match goal with
           | |- context [if ?b then _ else _] => destruct b
           end; exact I.
  - now apply order_create_history.
  - now apply order_update_history.
  - now apply order_change_status_history.
  - unfold add_part. destruct (get_order db k); [|exact I].
    destruct (negb _); exact I.
  - unfold del_part. destruct (find _ _); exact I.
  - unfold cash_create. destruct (form_get f "tipo"); [|exact I].
    destruct (negb _ || negb _ || _); exact I.
  - now apply seed_history.
Qed.

(** Between two requests the history follows the status: in every
    database that the application reaches at the end of a request, every
    order has a history that is not empty and whose most recently inserted
    row carries the current status of the order.  Creating an order
    appends one history row for the new order with its status, and every
    successful change of status appends one history row with the new
    status. *)
Lemma history_between_requests :
  (forall db, reachable db -> history_follows_status db)
  /\ (forall db f message,
        snd (order_create db f) = Flash message "success" ->
        exists o h,
          orders (fst (order_create db f)) = orders db ++ [o]
          /\ status_history (fst (order_create db f)) =
               status_history db ++ [h]
          /\ history_order_id h = order_pk o
          /\ history_estado h = estado o)
  /\ (forall db k f message,
        snd (order_change_status db k f) = Flash message "success" ->
        exists e h,
          form_get f "estado" = Some e
          /\ status_history (fst (order_change_status db k f)) =
               status_history db ++ [h]
          /\ history_order_id h = k
          /\ history_estado h = e
          /\ forall o, In o (orders (fst (order_change_status db k f))) ->
                       order_pk o = k -> estado o = e).
Proof.
  split; [|split].
  - intros db H. induction H as [|db r _ IH].
    + intros o [].
    + now apply handle_history.
  - intros db f message. unfold order_create.
    destruct (get_client_by_field db (form_get f "client_id")) as [client|];
      [|discriminate].
    destruct (negb _ || negb _ || negb _); [discriminate|].
    intros _. cbn [fst]. do 2 eexists.
    destruct (positive_value _); cbn; repeat split.
  - intros db k f message. unfold order_change_status.
    destruct (get_order db k) as [order|] eqn:Hg; [|discriminate].
    destruct (form_get f "estado") as [e|]; [|discriminate].
    destruct (in_order_states e); [|discriminate].
    intros _. cbn [fst]. rewrite (get_order_pk _ _ _ Hg).
    set (n := PyStr.strip _).
    destruct (logica_de_caja_tables (add_history (update_order db k
                (set_estado e)) k e n) order e) as [Eo Eh].
    exists e. eexists. rewrite Eh, Eo. cbn. repeat split.
    intros o Hin Hk. apply in_map_iff in Hin as (o0 & <- & _).
    destruct (Z.eqb_spec (order_pk o0) k) as [E|E]; [reflexivity|].
    now destruct (order_pk o0 =? k) eqn:E'; [apply Z.eqb_eq in E'|].
Qed.

Lemma history_between_requests_example :
  reachable demo_db /\ history_follows_status demo_db.
Proof.
  assert (R : reachable demo_db)
    by exact (reachable_step empty_db Seed reachable_empty).
  split; [exact R|].
  exact (proj1 history_between_requests demo_db R).
Defined.

(** ** The history within a request *)

(** The last commit of a request leaves the database that its handler
    returns. *)
Lemma last_commit (db : database) (r : request) :
  last (commits db r) db = fst (handle db r).
Proof.
  destruct r; try reflexivity.
  - cbn [commits handle]. unfold order_create_commits, order_create.
    destruct (get_client_by_field _ _); [|reflexivity].
    destruct (negb _ || negb _ || negb _); [reflexivity|].
    cbv zeta. now destruct (positive_value _).
  - cbn [commits handle fst]. unfold seed_commits, seed.
    now destruct (clients db).
Qed.

Lemma committed_last (db : database) (r : request) :
  committed db -> committed (last (commits db r) db).
Proof.
  intros H. destruct (commits db r) as [|d l] eqn:E; [exact H|].
  apply (committed_commit db r); [exact H|]. rewrite E.
  assert (d :: l <> []) by discriminate.
  destruct (exists_last H0) as (l' & a & ->).
  rewrite last_last. apply in_or_app. right. now left.
Qed.

(** The databases between two requests are committed ones. *)
Lemma reachable_committed (db : database) : reachable db -> committed db.
Proof.
  induction 1 as [|db r _ IH]; [constructor|].
  rewrite <- last_commit. now apply committed_last.
Qed.

(** C6. [order_create] commits the new order (line 431) before its first
    history row (line 433): on the seeded database, the form
    [order_with_deposit_form] leaves after the first commit a committed
    database in which order 2 exists with status "recibido" and has no
    history row, so that the history of an order can be empty and the
    status is not the one of a latest history row. *)
Theorem order_committed_before_its_history :
  committed order_without_history_db
  /\ In order_without_history_db
        (commits demo_db (OrderCreate order_with_deposit_form))
  /\ (exists o, In o (orders order_without_history_db)
                /\ order_pk o = 2 /\ estado o = "recibido"
                /\ historial order_without_history_db (order_pk o) = [])
  /\ ~ history_follows_status order_without_history_db.
Proof.
  assert (I : In order_without_history_db
                (commits demo_db (OrderCreate order_with_deposit_form)))
    by (vm_compute; now left).
  split; [|split; [exact I|split]].
  - apply (committed_commit demo_db (OrderCreate order_with_deposit_form));
      [|exact I].
    apply reachable_committed.
    exact (reachable_step empty_db Seed reachable_empty).
  - eexists. split; [right; left; reflexivity|]. now vm_compute.
  - intros H.
    assert (Hin : exists o, In o (orders order_without_history_db)
                            /\ order_pk o = 2).
    { eexists. split; [right; left; reflexivity|reflexivity]. }
    destruct Hin as (o & Hin & Hk). specialize (H o Hin). rewrite Hk in H.
    vm_compute in H. discriminate.
Qed.

(** ** Status values outside the enumeration, amounts that are not positive *)

(** C7 (the code departs from the claim). [order_create] stores the
    submitted [estado] as it is: from the demonstration database, a request
    with [estado = "roto"] is accepted and the database reached holds an
    order whose status is not one of the seven values of [ORDER_STATES]. *)
Theorem order_create_stores_unknown_status :
  let db := fst (order_create demo_db order_with_unknown_status_form) in
  reachable db
  /\ snd (order_create demo_db order_with_unknown_status_form) =
       Flash "Orden #2 creada." "success"
  /\ exists o, In o (orders db) /\ order_pk o = 2 /\ estado o = "roto"
               /\ in_order_states (estado o) = false.
Proof.
  split; [|split].
  - exact (reachable_step _ (OrderCreate order_with_unknown_status_form)
             (reachable_step empty_db Seed reachable_empty)).
  - reflexivity.
  - eexists. split; [right; left; reflexivity|]. repeat split.
Qed.

(** C9 (the code departs from the claim). [cash_create] rejects an amount
    [m] when [m <= 0]; the text ["nan"] parses to a NaN, for which the test
    is false, and the entry is written with an amount that is not [> 0]. *)
Theorem cash_create_writes_nan_amount :
  cash_create empty_db nan_cash_form =
    (mkDatabase [] [] [] []
       [mkCashEntry 1 "entrada" "Ajuste" PyFloat.nan None],
     Flash "Movimiento registrado." "success")
  /\ PyFloat.gt0 PyFloat.nan = false.
Proof. split; reflexivity. Qed.

(** ** Whole amounts are carried exactly *)

Lemma digits2_pos_size (p : positive) : digits2_pos p = Pos.size p.
Proof. induction p; cbn; congruence. Qed.

Lemma digits2_log2 (p : positive) :
  Zpos (digits2_pos p) = Z.log2 (Zpos p) + 1.
Proof.
  destruct p as [p|p|]; cbn [digits2_pos Z.log2]; [| |reflexivity];
    rewrite digits2_pos_size; lia.
Qed.

Lemma iter_xO (m d : positive) :
  Zpos (Pos.iter xO m d) = Zpos m * 2 ^ Zpos d.
Proof.
  induction d as [|d IH] using Pos.peano_ind.
  - cbn [Pos.iter]. lia.
  - rewrite Pos.iter_succ, Pos2Z.inj_xO, IH, Pos2Z.inj_succ, Z.pow_succ_r; lia.
Qed.

Lemma iter_pos_iter {A : Type} (f : A -> A) (p : positive) (x : A) :
  iter_pos f p x = Pos.iter f x p.
Proof.
  revert x. induction p as [p IH|p IH|]; intros x; cbn [iter_pos Pos.iter].
  - rewrite !IH. now rewrite <- !Pos.iter_swap.
  - now rewrite !IH.
  - reflexivity.
Qed.

Lemma shr_1_even (m : Z) :
  0 < m -> shr_1 (exact_record (2 * m)) = exact_record m.
Proof. destruct m as [|p|p]; intros H; try lia. reflexivity. Qed.

Lemma iter_shr_1 (p : positive) (m : Z) :
  0 < m ->
  iter_pos shr_1 p (exact_record (m * 2 ^ Zpos p)) = exact_record m.
Proof.
  rewrite iter_pos_iter. revert m.
  induction p as [|p IH] using Pos.peano_ind; intros m Hm.
  - cbn [Pos.iter]. replace (m * 2 ^ 1) with (2 * m) by lia.
    now apply shr_1_even.
  - rewrite Pos.iter_succ_r, Pos2Z.inj_succ, Z.pow_succ_r by lia.
    replace (m * (2 * 2 ^ Zpos p)) with (2 * (m * 2 ^ Zpos p)) by lia.
    rewrite shr_1_even; [now apply IH|].
    apply Z.mul_pos_pos; [exact Hm|]. now apply Z.pow_pos_nonneg.
Qed.


Section Exact.

Variable n : Z.
Hypothesis n_pos : 0 < n.
Hypothesis n_small : n < 2 ^ 53.

Lemma log2_small : 0 <= Z.log2 n <= 52.
Proof.
  split; [apply Z.log2_nonneg|].
  assert (Z.log2 n < 53) by now apply Z.log2_lt_pow2. lia.
Qed.

Lemma scaled_pos (k : Z) : 0 <= k -> 0 < n * 2 ^ k.
Proof.
  intros Hk. apply Z.mul_pos_pos; [exact n_pos|]. now apply Z.pow_pos_nonneg.
Qed.

Lemma shr_fexp_whole (m : positive) (e : Z) :
  e <= Z.log2 n - 52 ->
  Zpos m = n * 2 ^ (- e) ->
  shr_fexp 53 1024 (Zpos m) e loc_Exact =
    (exact_record (n * 2 ^ (52 - Z.log2 n)), Z.log2 n - 52).
Proof.
  intros He Hm. pose proof log2_small as HL.
  unfold shr_fexp, shr_record_of_loc, Zdigits2.
  rewrite digits2_log2, Hm, Z.log2_mul_pow2 by lia.
  replace (fexp 53 1024 (- e + Z.log2 n + 1 + e)) with (Z.log2 n - 52)
    by (unfold fexp, emin; lia).
  unfold shr. destruct (Z.log2 n - 52 - e) as [|p|p] eqn:Ed; [| |lia].
  - replace (- e) with (52 - Z.log2 n) by lia.
    replace e with (Z.log2 n - 52) by lia. reflexivity.
  - replace (- e) with ((52 - Z.log2 n) + Zpos p) by lia.
    rewrite Z.pow_add_r, Z.mul_assoc by lia.
    fold (exact_record (n * 2 ^ (52 - Z.log2 n) * 2 ^ Zpos p)).
    rewrite iter_shr_1 by (apply scaled_pos; lia).
    f_equal. lia.
Qed.

Lemma binary_round_aux_whole (s : bool) (m : positive) (e : Z) :
  e <= Z.log2 n - 52 ->
  Zpos m = n * 2 ^ (- e) ->
  binary_round_aux 53 1024 s (Zpos m) e loc_Exact = whole_float s n.
Proof.
  intros He Hm. pose proof log2_small as HL.
  pose proof (scaled_pos (52 - Z.log2 n) ltac:(lia)) as Hp.
  unfold binary_round_aux. rewrite (shr_fexp_whole m e He Hm).
  cbn [exact_record shr_m loc_of_shr_record round_nearest_even].
  destruct (n * 2 ^ (52 - Z.log2 n)) as [|q|q] eqn:Eq; try lia.
  rewrite (shr_fexp_whole q (Z.log2 n - 52)).
  - cbn [exact_record shr_m]. rewrite Eq.
    replace (Z.log2 n - 52 <=? 1024 - 53) with true
      by (symmetry; apply Z.leb_le; lia).
    unfold whole_float. now rewrite Eq.
  - lia.
  - rewrite <- Eq. f_equal. f_equal. lia.
Qed.

Lemma binary_round_whole (s : bool) (m : positive) (e : Z) :
  e <= 0 ->
  Zpos m = n * 2 ^ (- e) ->
  binary_round 53 1024 s m e = whole_float s n.
Proof.
  intros He Hm. pose proof log2_small as HL.
  unfold binary_round, shl_align.
  rewrite digits2_log2, Hm, Z.log2_mul_pow2 by lia.
  replace (fexp 53 1024 (- e + Z.log2 n + 1 + e)) with (Z.log2 n - 52)
    by (unfold fexp, emin; lia).
  destruct (Z.log2 n - 52 - e) as [|p|p] eqn:Ed.
  - apply binary_round_aux_whole; [lia|exact Hm].
  - apply binary_round_aux_whole; [lia|exact Hm].
  - apply binary_round_aux_whole; [lia|].
    rewrite iter_xO, Hm, <- Z.mul_assoc, <- Z.pow_add_r by lia.
    f_equal. f_equal. lia.
Qed.

End Exact.

Lemma whole_float_mantissa (s : bool) (n : Z) :
  0 < n < 2 ^ 53 ->
  exists m, whole_float s n = S754_finite s m (Z.log2 n - 52)
            /\ Zpos m = n * 2 ^ (52 - Z.log2 n).
Proof.
  intros [Hp Hs]. pose proof (log2_small n Hp Hs) as HL.
  pose proof (scaled_pos n Hp (52 - Z.log2 n) ltac:(lia)) as Hq.
  exists (Z.to_pos (n * 2 ^ (52 - Z.log2 n))). split; [reflexivity|].
  now rewrite Z2Pos.id.
Qed.

Lemma of_int_pos (n : Z) :
  0 < n < 2 ^ 53 -> PyFloat.of_int n = whole_float false n.
Proof.
  intros [Hp Hs]. destruct n as [|p|p]; try lia.
  unfold PyFloat.of_int, binary_normalize.
  apply (binary_round_whole (Zpos p)); try lia.
Qed.

Lemma of_int_neg (n : Z) :
  0 < n < 2 ^ 53 -> PyFloat.of_int (- n) = whole_float true n.
Proof.
  intros [Hp Hs]. destruct n as [|p|p]; try lia.
  unfold PyFloat.of_int, binary_normalize. cbn [Z.opp].
  apply (binary_round_whole (Zpos p)); try lia.
Qed.

(** A significand scaled by a power of two denotes the integer [n]. *)
Lemma normalize_whole (m e n : Z) :
  e <= 0 -> m = n * 2 ^ (- e) -> - 2 ^ 53 < n < 2 ^ 53 ->
  binary_normalize 53 1024 m e false = PyFloat.of_int n.
Proof.
  intros He Hm Hn.
  assert (Hpow : 0 < 2 ^ (- e)) by (apply Z.pow_pos_nonneg; lia).
  destruct (Z.lt_trichotomy n 0) as [Hneg|[->|Hpos]].
  - replace n with (- (- n)) by lia. rewrite of_int_neg by lia.
    destruct m as [|p|p]; try nia.
    unfold binary_normalize. apply binary_round_whole; try lia.
  - now subst m.
  - rewrite of_int_pos by lia.
    destruct m as [|p|p]; try nia.
    unfold binary_normalize. apply binary_round_whole; lia.
Qed.

Lemma shl_align_value (m : positive) (e e' : Z) :
  e' <= e ->
  Zpos (fst (shl_align m e e')) = Zpos m * 2 ^ (e - e').
Proof.
  intros H. unfold shl_align.
  destruct (e' - e) as [|p|p] eqn:E; cbn [fst]; try lia.
  - replace (e - e') with 0 by lia. lia.
  - rewrite iter_xO. f_equal. f_equal. lia.
Qed.

Lemma aligned_value (s : bool) (n : Z) (m : positive) (ez : Z) :
  0 < n < 2 ^ 53 -> ez <= Z.log2 n - 52 ->
  Zpos m = n * 2 ^ (52 - Z.log2 n) ->
  cond_Zopp s (Zpos (fst (shl_align m (Z.log2 n - 52) ez))) =
  cond_Zopp s n * 2 ^ (- ez).
Proof.
  intros [Hp Hs] Hz Hm. pose proof (log2_small n Hp Hs) as HL.
  rewrite shl_align_value, Hm, <- Z.mul_assoc, <- Z.pow_add_r by lia.
  replace (52 - Z.log2 n + (Z.log2 n - 52 - ez)) with (- ez) by lia.
  destruct s; cbn [cond_Zopp]; lia.
Qed.

Lemma add_whole_float (sa sb : bool) (a b : Z) :
  0 < a < 2 ^ 53 -> 0 < b < 2 ^ 53 ->
  - 2 ^ 53 < cond_Zopp sa a + cond_Zopp sb b < 2 ^ 53 ->
  PyFloat.add (whole_float sa a) (whole_float sb b) =
  PyFloat.of_int (cond_Zopp sa a + cond_Zopp sb b).
Proof.
  intros Ha Hb Hab.
  destruct (whole_float_mantissa sa a Ha) as (ma & -> & Hma).
  destruct (whole_float_mantissa sb b Hb) as (mb & -> & Hmb).
  pose proof (log2_small a (proj1 Ha) (proj2 Ha)) as HLa.
  pose proof (log2_small b (proj1 Hb) (proj2 Hb)) as HLb.
  unfold PyFloat.add, PyFloat.prec, PyFloat.emax. cbn [SFadd].
  apply normalize_whole; [lia| |exact Hab].
  rewrite (aligned_value sa a ma), (aligned_value sb b mb) by (trivial; lia).
  lia.
Qed.

Lemma sub_whole_float (sa sb : bool) (a b : Z) :
  0 < a < 2 ^ 53 -> 0 < b < 2 ^ 53 ->
  - 2 ^ 53 < cond_Zopp sa a - cond_Zopp sb b < 2 ^ 53 ->
  PyFloat.sub (whole_float sa a) (whole_float sb b) =
  PyFloat.of_int (cond_Zopp sa a - cond_Zopp sb b).
Proof.
  intros Ha Hb Hab.
  destruct (whole_float_mantissa sa a Ha) as (ma & -> & Hma).
  destruct (whole_float_mantissa sb b Hb) as (mb & -> & Hmb).
  pose proof (log2_small a (proj1 Ha) (proj2 Ha)) as HLa.
  pose proof (log2_small b (proj1 Hb) (proj2 Hb)) as HLb.
  unfold PyFloat.sub, PyFloat.prec, PyFloat.emax. cbn [SFsub].
  apply normalize_whole; [lia| |exact Hab].
  rewrite (aligned_value sa a ma), (aligned_value sb b mb) by (trivial; lia).
  lia.
Qed.

(** Sums and differences of whole amounts below [2^53] are exact. *)
Lemma add_whole (a b : Z) :
  0 <= a -> 0 <= b -> a + b < 2 ^ 53 ->
  PyFloat.add (PyFloat.of_int a) (PyFloat.of_int b) = PyFloat.of_int (a + b).
Proof.
  intros Ha Hb Hab.
  destruct (Z.eq_dec a 0) as [->|Na]; destruct (Z.eq_dec b 0) as [->|Nb].
  - reflexivity.
  - rewrite (of_int_pos (0 + b)), (of_int_pos b) by lia. reflexivity.
  - rewrite Z.add_0_r, (of_int_pos a) by lia. reflexivity.
  - rewrite (of_int_pos a), (of_int_pos b) by lia.
    now apply (add_whole_float false false); cbn [cond_Zopp]; lia.
Qed.

Lemma sub_whole (a b : Z) :
  0 <= a < 2 ^ 53 -> 0 <= b < 2 ^ 53 ->
  PyFloat.sub (PyFloat.of_int a) (PyFloat.of_int b) = PyFloat.of_int (a - b).
Proof.
  intros Ha Hb.
  destruct (Z.eq_dec a 0) as [->|Na]; destruct (Z.eq_dec b 0) as [->|Nb].
  - reflexivity.
  - rewrite (of_int_pos b) by lia. cbn [Z.sub Z.add].
    replace (0 - b) with (- b) by lia. rewrite of_int_neg by lia.
    reflexivity.
  - rewrite Z.sub_0_r, (of_int_pos a) by lia. reflexivity.
  - rewrite (of_int_pos a), (of_int_pos b) by lia.
    now apply (sub_whole_float false false); cbn [cond_Zopp]; lia.
Qed.

Lemma gt0_whole (n : Z) :
  - 2 ^ 53 < n < 2 ^ 53 -> PyFloat.gt0 (PyFloat.of_int n) = (0 <? n).
Proof.
  intros Hn. destruct (Z.lt_trichotomy n 0) as [Hneg|[->|Hpos]].
  - replace n with (- (- n)) by lia. rewrite of_int_neg by lia.
    symmetry. apply Z.ltb_ge. lia.
  - reflexivity.
  - rewrite of_int_pos by lia. symmetry. now apply Z.ltb_lt.
Qed.

Lemma or_zero_whole (n : Z) :
  - 2 ^ 53 < n < 2 ^ 53 ->
  PyFloat.or_zero (PyFloat.of_int n) = PyFloat.of_int n.
Proof.
  intros Hn. destruct (Z.lt_trichotomy n 0) as [Hneg|[->|Hpos]].
  - replace n with (- (- n)) by lia. now rewrite of_int_neg by lia.
  - reflexivity.
  - now rewrite of_int_pos by lia.
Qed.

Lemma div_half_even_exact (a b : Z) :
  0 < b -> PyFloat.div_half_even (a * b) b = a.
Proof.
  intros Hb. unfold PyFloat.div_half_even.
  rewrite Z.div_mul, Z.mod_mul by lia.
  replace (b <? 2 * 0) with false by (symmetry; apply Z.ltb_ge; lia).
  replace (2 * 0 =? b) with false by (symmetry; apply Z.eqb_neq; lia).
  reflexivity.
Qed.

Lemma ilog2_ratio_whole (n : Z) :
  0 < n -> PyFloat.ilog2_ratio (100 * n) 100 = Z.log2 n.
Proof.
  intros Hn. unfold PyFloat.ilog2_ratio.
  change (Z.log2 100) with 6.
  destruct (Z.log2_spec (100 * n) ltac:(lia)) as [Hlo Hhi].
  assert (H6 : 6 <= Z.log2 (100 * n))
    by (apply Z.log2_le_pow2; [lia|change (2 ^ 6) with 64; lia]).
  set (l := Z.log2 (100 * n) - 6) in *.
  replace (Z.log2 (100 * n)) with (6 + l) in Hlo, Hhi by lia.
  rewrite Z.pow_add_r in Hlo by lia.
  rewrite Z.pow_succ_r, Z.pow_add_r in Hhi by lia.
  change (2 ^ 6) with 64 in Hlo, Hhi.
  rewrite !Z.max_r, Z.max_l by lia. change (2 ^ 0) with 1.
  assert (Hl : 0 < 2 ^ l) by (apply Z.pow_pos_nonneg; lia).
  destruct (Z.ltb_spec (100 * n * 1) (100 * 2 ^ l)) as [Hlt|Hge].
  - assert (Hl0 : l <> 0)
      by (intros E; rewrite E in Hlt; change (2 ^ 0) with 1 in Hlt; lia).
    assert (Hl1 : 2 ^ l = 2 * 2 ^ (l - 1))
      by (rewrite <- Z.pow_succ_r by lia; f_equal; lia).
    symmetry. apply Z.log2_unique; [lia|].
    replace (Z.succ (l - 1)) with l by lia. lia.
  - symmetry. apply Z.log2_unique; [lia|].
    rewrite Z.pow_succ_r by lia. lia.
Qed.

Lemma of_ratio_whole (s : bool) (n : Z) :
  0 < n < 2 ^ 53 -> PyFloat.of_ratio s (100 * n) 100 = whole_float s n.
Proof.
  intros [Hp Hs]. pose proof (log2_small n Hp Hs) as HL.
  pose proof (scaled_pos n Hp (52 - Z.log2 n) ltac:(lia)) as Hq.
  unfold PyFloat.of_ratio. rewrite ilog2_ratio_whole by exact Hp.
  replace (Z.max (Z.log2 n - 52) (-1074)) with (Z.log2 n - 52) by lia.
  rewrite (Z.max_l (- (Z.log2 n - 52))), (Z.max_r (Z.log2 n - 52)) by lia.
  change (2 ^ 0) with 1.
  replace (100 * n * 2 ^ (- (Z.log2 n - 52)))
    with (n * 2 ^ (52 - Z.log2 n) * (100 * 1))
    by (replace (- (Z.log2 n - 52)) with (52 - Z.log2 n) by lia; lia).
  rewrite div_half_even_exact by lia.
  assert (Hlt : n * 2 ^ (52 - Z.log2 n) < 2 ^ 53).
  { destruct (Z.log2_spec n Hp) as [_ Hhi].
    replace 53 with (Z.succ (Z.log2 n) + (52 - Z.log2 n)) by lia.
    rewrite Z.pow_add_r by lia.
    apply Z.mul_lt_mono_pos_r; [apply Z.pow_pos_nonneg; lia|exact Hhi]. }
  replace (n * 2 ^ (52 - Z.log2 n) =? 2 ^ 53) with false
    by (symmetry; apply Z.eqb_neq; lia).
  unfold whole_float.
  destruct (n * 2 ^ (52 - Z.log2 n)) as [|q|q]; try lia.
  replace (971 <? Z.log2 n - 52) with false
    by (symmetry; apply Z.ltb_ge; lia).
  reflexivity.
Qed.

Lemma round2_whole_float (s : bool) (n : Z) :
  0 < n < 2 ^ 53 -> PyFloat.round2 (whole_float s n) = whole_float s n.
Proof.
  intros Hn. destruct Hn as [Hp Hs].
  pose proof (log2_small n Hp Hs) as HL.
  destruct (whole_float_mantissa s n (conj Hp Hs)) as (m & E & Hm).
  rewrite E at 1. unfold PyFloat.round2.
  assert (Hh : (if 0 <=? Z.log2 n - 52
                then 100 * Zpos m * 2 ^ (Z.log2 n - 52)
                else PyFloat.div_half_even (100 * Zpos m)
                       (2 ^ (- (Z.log2 n - 52)))) = 100 * n).
  { destruct (Z.leb_spec 0 (Z.log2 n - 52)) as [H0|H0].
    - rewrite Hm. replace (Z.log2 n) with 52 by lia.
      change (2 ^ (52 - 52)) with 1. lia.
    - rewrite Hm. replace (- (Z.log2 n - 52)) with (52 - Z.log2 n) by lia.
      rewrite Z.mul_assoc. apply div_half_even_exact.
      apply Z.pow_pos_nonneg; lia. }
  rewrite Hh.
  replace (100 * n =? 0) with false by (symmetry; apply Z.eqb_neq; lia).
  now apply of_ratio_whole.
Qed.

Lemma round2_whole (n : Z) :
  - 2 ^ 53 < n < 2 ^ 53 ->
  PyFloat.round2 (PyFloat.of_int n) = PyFloat.of_int n.
Proof.
  intros Hn. destruct (Z.lt_trichotomy n 0) as [Hneg|[->|Hpos]].
  - replace n with (- (- n)) by lia. rewrite of_int_neg by lia.
    apply round2_whole_float. lia.
  - reflexivity.
  - rewrite of_int_pos by lia. apply round2_whole_float. lia.
Qed.

(** ** Two deliveries, two cancellations *)

Lemma total_nonneg (ns : list Z) :
  Forall (fun n => 0 <= n) ns -> 0 <= total ns.
Proof. induction 1; cbn [total fold_right]; [lia|]. fold (total l). lia. Qed.

Lemma fold_add_whole (ns : list Z) (acc : Z) :
  0 <= acc -> Forall (fun n => 0 <= n) ns -> acc + total ns < 2 ^ 53 ->
  fold_left PyFloat.add
    (map (fun n => PyFloat.or_zero (PyFloat.of_int n)) ns)
    (PyFloat.of_int acc)
  = PyFloat.of_int (acc + total ns).
Proof.
  intros Ha Hns. revert acc Ha.
  induction Hns as [|n ns Hn Hns IH]; intros acc Ha Hlt;
    cbn [map fold_left total fold_right] in *.
  - f_equal. lia.
  - fold (total ns) in *. pose proof (total_nonneg ns Hns) as Ht.
    rewrite or_zero_whole, add_whole by lia.
    rewrite IH by lia. f_equal. lia.
Qed.

Lemma sum_whole (xs : list PyFloat.float) (ns : list Z) :
  whole_amounts xs ns -> total ns < 2 ^ 53 ->
  PyFloat.sum (map PyFloat.or_zero xs) = PyFloat.of_int (total ns).
Proof.
  intros [-> Hns] Hlt. unfold PyFloat.sum. rewrite map_map.
  change PyFloat.zero with (PyFloat.of_int 0).
  now rewrite fold_add_whole by (trivial; lia).
Qed.

Lemma get_order_update (db : database) (k : Z) (g : RepairOrder -> RepairOrder)
  (o : RepairOrder) :
  (forall x, order_pk (g x) = order_pk x) ->
  get_order db k = Some o ->
  get_order (update_order db k g) k = Some (g o).
Proof.
  intros Hg. unfold get_order, update_order. cbn [orders].
  induction (orders db) as [|x xs IH]; [discriminate|]. cbn [find map].
  destruct (Z.eqb_spec (order_pk x) k) as [E|E].
  - intros [= ->]. now rewrite Hg, E, Z.eqb_refl.
  - destruct (Z.eqb_spec (order_pk x) k) as [E'|_]; [contradiction|].
    exact IH.
Qed.

Lemma get_order_after (db : database) (k : Z) (f : form) (o : RepairOrder)
  (e : string) :
  get_order db k = Some o ->
  form_get f "estado" = Some e -> in_order_states e = true ->
  get_order (fst (order_change_status db k f)) k = Some (set_estado e o).
Proof.
  intros Hg Hf He. rewrite (order_change_status_valid _ _ _ _ _ Hg Hf He).
  cbn [fst]. unfold get_order.
  rewrite (proj1 (logica_de_caja_tables _ _ _)).
  now apply (get_order_update db k (set_estado e) o).
Qed.

Lemma total_app (ns : list Z) (n : Z) : total (ns ++ [n]) = total ns + n.
Proof.
  unfold total. induction ns as [|x ns IH]; cbn [app fold_right]; lia.
Qed.

Lemma whole_amounts_snoc (xs : list PyFloat.float) (ns : list Z) (n : Z) :
  whole_amounts xs ns -> 0 <= n ->
  whole_amounts (xs ++ [PyFloat.of_int n]) (ns ++ [n]).
Proof.
  intros [-> H] Hn. split.
  - now rewrite map_app.
  - apply Forall_app. split; [exact H|]. now constructor.
Qed.

Lemma movimientos_caja_add_cash (db : database) (k : Z) (t c : string)
  (m : PyFloat.float) :
  movimientos_caja (add_cash db t c m (Some k)) k =
  movimientos_caja db k ++
    [mkCashEntry (next_pk (map cash_pk (cash_entries db))) t c m (Some k)].
Proof.
  unfold movimientos_caja, add_cash. cbn [cash_entries].
  rewrite filter_app. cbn [filter cash_order_id]. now rewrite Z.eqb_refl.
Qed.

(** One call of [order_change_status] towards [entregado] on whole amounts. *)
Lemma deliver_whole (db : database) (k : Z) (order : RepairOrder) (c : Z)
  (ns : list Z) :
  get_order db k = Some order ->
  costo_estimado order = Some (PyFloat.of_int c) -> 0 <= c < 2 ^ 53 ->
  whole_amounts (map monto (filter is_entrada (movimientos_caja db k))) ns ->
  total ns < 2 ^ 53 ->
  fst (order_change_status db k entregado_form) =
    let db1 := with_status db k "entregado" "" in
    if 0 <? c - total ns
    then add_cash db1 "entrada" (pago_final k)
           (PyFloat.of_int (c - total ns)) (Some k)
    else db1.
Proof.
  intros Hg Hc Hrange Hw Ht.
  pose proof (total_nonneg ns (proj2 Hw)) as Hnn.
  rewrite (order_change_status_valid db k entregado_form order "entregado"
             Hg eq_refl eq_refl).
  cbn [fst]. change (PyStr.strip (form_get_default entregado_form "nota" ""))
    with "".
  destruct (Z.eq_dec c 0) as [->|Hc0].
  - unfold logica_de_caja. rewrite Hc.
    replace (0 <? 0 - total ns) with false by (symmetry; apply Z.ltb_ge; lia).
    reflexivity.
  - assert (Hpos : PyFloat.gt0 (PyFloat.of_int c) = true)
      by (rewrite gt0_whole by lia; apply Z.ltb_lt; lia).
    rewrite (logica_de_caja_entregado _ _ _ Hc Hpos), (get_order_pk _ _ _ Hg).
    cbv zeta. rewrite (total_pagado_ext db) by reflexivity.
    unfold total_pagado. rewrite <- map_map. fold is_entrada.
    rewrite (sum_whole _ ns Hw Ht), sub_whole, round2_whole, gt0_whole by lia.
    reflexivity.
Qed.

Lemma refund_whole (db : database) (k : Z) (order : RepairOrder) (d : Z)
  (ns : list Z) :
  get_order db k = Some order ->
  senia order = Some (PyFloat.of_int d) -> 0 <= d < 2 ^ 53 ->
  whole_amounts (map monto (filter is_devolucion (movimientos_caja db k))) ns ->
  total ns < 2 ^ 53 ->
  fst (order_change_status db k cancelado_form) =
    let db1 := with_status db k "cancelado" "" in
    if 0 <? d - total ns
    then add_cash db1 "salida" (devolucion_senia k)
           (PyFloat.of_int (d - total ns)) (Some k)
    else db1.
Proof.
  intros Hg Hd Hrange Hw Ht.
  pose proof (total_nonneg ns (proj2 Hw)) as Hnn.
  rewrite (order_change_status_valid db k cancelado_form order "cancelado"
             Hg eq_refl eq_refl).
  cbn [fst]. change (PyStr.strip (form_get_default cancelado_form "nota" ""))
    with "".
  destruct (Z.eq_dec d 0) as [->|Hd0].
  - unfold logica_de_caja. rewrite Hd.
    replace (0 <? 0 - total ns) with false by (symmetry; apply Z.ltb_ge; lia).
    reflexivity.
  - assert (Hpos : PyFloat.gt0 (PyFloat.of_int d) = true)
      by (rewrite gt0_whole by lia; apply Z.ltb_lt; lia).
    rewrite (logica_de_caja_cancelado _ _ _ Hd Hpos), (get_order_pk _ _ _ Hg).
    cbv zeta. rewrite (total_devuelto_ext db) by reflexivity.
    unfold total_devuelto. rewrite <- map_map. fold is_devolucion.
    rewrite (sum_whole _ ns Hw Ht), sub_whole, round2_whole, gt0_whole by lia.
    reflexivity.
Qed.

(** Two deliveries on whole amounts: the second finds nothing to collect. *)
Lemma two_deliveries_whole (db : database) (k : Z)
  (order : RepairOrder) (ns : list Z) :
  get_order db k = Some order ->
  whole_or_absent (costo_estimado order) ->
  whole_amounts (map monto (filter is_entrada (movimientos_caja db k))) ns ->
  total ns < 2 ^ 53 ->
  cash_entries (twice db k entregado_form) =
    cash_entries (fst (order_change_status db k entregado_form))
  /\ appends_at_most_one db (twice db k entregado_form).
Proof.
  intros Hg Hc Hw Ht. unfold twice.
  pose proof (get_order_after db k entregado_form order "entregado" Hg
                eq_refl eq_refl) as Hg1.
  pose proof (total_nonneg ns (proj2 Hw)) as Hnn.
  destruct (costo_estimado order) as [v|] eqn:Ev.
  - destruct Hc as (c & Hrange & ->).
    assert (Ev1 : costo_estimado (set_estado "entregado" order)
                  = Some (PyFloat.of_int c)) by exact Ev.
    pose proof (deliver_whole db k order c ns Hg Ev Hrange Hw Ht) as E1.
    cbv zeta in E1. destruct (Z.ltb_spec 0 (c - total ns)) as [Hlt|Hge].
    + assert (Hw1 : whole_amounts
                (map monto (filter is_entrada
                   (movimientos_caja
                      (fst (order_change_status db k entregado_form)) k)))
                (ns ++ [c - total ns])).
      { rewrite E1, movimientos_caja_add_cash, filter_app, map_app.
        rewrite (movimientos_caja_ext db) by reflexivity.
        apply whole_amounts_snoc; [exact Hw|lia]. }
      pose proof (deliver_whole _ k _ c _ Hg1 Ev1 Hrange Hw1) as E2.
      rewrite total_app in E2. specialize (E2 ltac:(lia)). cbv zeta in E2.
      replace (0 <? c - (total ns + (c - total ns))) with false in E2
        by (symmetry; apply Z.ltb_ge; lia).
      rewrite E2. split; [reflexivity|].
      eexists. cbn [cash_entries with_status add_history update_order].
      rewrite E1. split; [reflexivity|]. cbn. lia.
    + assert (Hw1 : whole_amounts
                (map monto (filter is_entrada
                   (movimientos_caja
                      (fst (order_change_status db k entregado_form)) k)))
                ns).
      { rewrite E1. now rewrite (movimientos_caja_ext db) by reflexivity. }
      pose proof (deliver_whole _ k _ c _ Hg1 Ev1 Hrange Hw1 Ht) as E2.
      cbv zeta in E2.
      replace (0 <? c - total ns) with false in E2
        by (symmetry; apply Z.ltb_ge; lia).
      rewrite E2. split; [reflexivity|].
      exists []. cbn [cash_entries with_status add_history update_order].
      rewrite E1, app_nil_r. split; [reflexivity|]. cbn. lia.
  - assert (E : forall db0 o, get_order db0 k = Some o ->
                costo_estimado o = None ->
                cash_entries (fst (order_change_status db0 k entregado_form))
                = cash_entries db0).
    { intros db0 o Hg0 Ho.
      rewrite (order_change_status_valid db0 k entregado_form o "entregado"
                 Hg0 eq_refl eq_refl).
      cbn [fst]. unfold logica_de_caja. rewrite Ho. reflexivity. }
    unfold appends_at_most_one.
    rewrite (E _ _ Hg1 Ev), (E _ _ Hg Ev). split; [reflexivity|].
    exists []. rewrite app_nil_r. split; [reflexivity|]. cbn. lia.
Qed.

(** Two cancellations on whole amounts: the second finds nothing to refund. *)
Lemma two_cancellations_whole (db : database) (k : Z)
  (order : RepairOrder) (ns : list Z) :
  get_order db k = Some order ->
  whole_or_absent (senia order) ->
  whole_amounts (map monto (filter is_devolucion (movimientos_caja db k))) ns ->
  total ns < 2 ^ 53 ->
  cash_entries (twice db k cancelado_form) =
    cash_entries (fst (order_change_status db k cancelado_form))
  /\ appends_at_most_one db (twice db k cancelado_form).
Proof.
  intros Hg Hc Hw Ht. unfold twice.
  pose proof (get_order_after db k cancelado_form order "cancelado" Hg
                eq_refl eq_refl) as Hg1.
  pose proof (total_nonneg ns (proj2 Hw)) as Hnn.
  destruct (senia order) as [v|] eqn:Ev.
  - destruct Hc as (d & Hrange & ->).
    assert (Ev1 : senia (set_estado "cancelado" order)
                  = Some (PyFloat.of_int d)) by exact Ev.
    pose proof (refund_whole db k order d ns Hg Ev Hrange Hw Ht) as E1.
    cbv zeta in E1. destruct (Z.ltb_spec 0 (d - total ns)) as [Hlt|Hge].
    + assert (Hw1 : whole_amounts
                (map monto (filter is_devolucion
                   (movimientos_caja
                      (fst (order_change_status db k cancelado_form)) k)))
                (ns ++ [d - total ns])).
      { rewrite E1, movimientos_caja_add_cash, filter_app, map_app.
        rewrite (movimientos_caja_ext db) by reflexivity.
        apply whole_amounts_snoc; [exact Hw|lia]. }
      pose proof (refund_whole _ k _ d _ Hg1 Ev1 Hrange Hw1) as E2.
      rewrite total_app in E2. specialize (E2 ltac:(lia)). cbv zeta in E2.
      replace (0 <? d - (total ns + (d - total ns))) with false in E2
        by (symmetry; apply Z.ltb_ge; lia).
      rewrite E2. split; [reflexivity|].
      eexists. cbn [cash_entries with_status add_history update_order].
      rewrite E1. split; [reflexivity|]. cbn. lia.
    + assert (Hw1 : whole_amounts
                (map monto (filter is_devolucion
                   (movimientos_caja
                      (fst (order_change_status db k cancelado_form)) k)))
                ns).
      { rewrite E1. now rewrite (movimientos_caja_ext db) by reflexivity. }
      pose proof (refund_whole _ k _ d _ Hg1 Ev1 Hrange Hw1 Ht) as E2.
      cbv zeta in E2.
      replace (0 <? d - total ns) with false in E2
        by (symmetry; apply Z.ltb_ge; lia).
      rewrite E2. split; [reflexivity|].
      exists []. cbn [cash_entries with_status add_history update_order].
      rewrite E1, app_nil_r. split; [reflexivity|]. cbn. lia.
  - assert (E : forall db0 o, get_order db0 k = Some o ->
                senia o = None ->
                cash_entries (fst (order_change_status db0 k cancelado_form))
                = cash_entries db0).
    { intros db0 o Hg0 Ho.
      rewrite (order_change_status_valid db0 k cancelado_form o "cancelado"
                 Hg0 eq_refl eq_refl).
      cbn [fst]. unfold logica_de_caja. rewrite Ho.
      destruct (positive_value (costo_estimado o)); reflexivity. }
    unfold appends_at_most_one.
    rewrite (E _ _ Hg1 Ev), (E _ _ Hg Ev). split; [reflexivity|].
    exists []. rewrite app_nil_r. split; [reflexivity|]. cbn. lia.
Qed.

(** *** When the first call settles the amount *)

Lemma round2_sub_self (c : PyFloat.float) :
  PyFloat.gt0 (PyFloat.round2 (PyFloat.sub c c)) = false.
Proof.
  destruct c as [s|s| |s m e]; try (now destruct s); [reflexivity|].
  unfold PyFloat.sub. cbn [SFsub]. now rewrite Z.sub_diag.
Qed.

Lemma logica_de_caja_set_estado (db : database) (o : RepairOrder)
  (e' e : string) :
  logica_de_caja db (set_estado e' o) e = logica_de_caja db o e.
Proof. reflexivity. Qed.

(** The cash logic reads the database through its cash entries only. *)
Lemma logica_de_caja_cash_ext (db db' : database) (o : RepairOrder)
  (e : string) :
  cash_entries db = cash_entries db' ->
  cash_entries (logica_de_caja db o e) = cash_entries (logica_de_caja db' o e).
Proof.
  intros H. unfold logica_de_caja.
  rewrite (total_pagado_ext db' db), (total_devuelto_ext db' db) by easy.
  repeat match goal with
         | |- context [match ?x with _ => _ end] => destruct x
         end; cbn [cash_entries add_cash]; now rewrite ?H.
Qed.

Lemma logica_de_caja_appends (db : database) (o : RepairOrder) (e : string) :
  appends_at_most_one db (logica_de_caja db o e).
Proof.
  unfold logica_de_caja, appends_at_most_one.
  repeat match goal with
         | |- context [match ?x with _ => _ end] => destruct x
         end;
    first [ exists []; rewrite app_nil_r; split; [reflexivity|cbn; lia]
          | eexists; split; [reflexivity|cbn; lia] ].
Qed.

Lemma order_change_status_appends (db : database) (k : Z) (f : form) :
  appends_at_most_one db (fst (order_change_status db k f)).
Proof.
  assert (N : appends_at_most_one db db)
    by (exists []; rewrite app_nil_r; split; [reflexivity|cbn; lia]).
  unfold order_change_status.
  destruct (get_order db k) as [order|]; [|exact N].
  destruct (form_get f "estado") as [e|]; [|exact N].
  destruct (in_order_states e); [|exact N]. cbn [fst].
  exact (logica_de_caja_appends
           (add_history (update_order db (order_pk order) (set_estado e))
              (order_pk order) e _) order e).
Qed.

(** A second call that finds the same cash entries as the first, or finds
    the total equal to the amount to settle, appends nothing. *)
Lemma two_deliveries_settled (db : database) (k : Z) (order : RepairOrder) :
  get_order db k = Some order ->
  let db1 := fst (order_change_status db k entregado_form) in
  cash_entries db1 = cash_entries db
  \/ costo_estimado order = Some (total_pagado db1 k) ->
  cash_entries (twice db k entregado_form) = cash_entries db1
  /\ appends_at_most_one db (twice db k entregado_form).
Proof.
  intros Hg db1 H.
  assert (E : cash_entries (twice db k entregado_form) = cash_entries db1).
  { unfold twice. fold db1.
    pose proof (get_order_after db k entregado_form order "entregado" Hg
                  eq_refl eq_refl) as Hg1. fold db1 in Hg1.
    rewrite (order_change_status_valid db1 k entregado_form _ "entregado"
               Hg1 eq_refl eq_refl).
    cbn [fst]. rewrite logica_de_caja_set_estado.
    destruct H as [H|H].
    - rewrite (logica_de_caja_cash_ext _ (with_status db k "entregado" "")
                 order "entregado") by exact H.
      subst db1.
      now rewrite (order_change_status_valid db k entregado_form order
                     "entregado" Hg eq_refl eq_refl).
    - unfold logica_de_caja. rewrite (get_order_pk _ _ _ Hg).
      change (String.eqb "entregado" "entregado") with true.
      change (String.eqb "entregado" "cancelado") with false. cbv iota.
      rewrite H.
      rewrite (total_pagado_ext db1
                 (with_status db1 k "entregado"
                    (PyStr.strip (form_get_default entregado_form "nota" ""))))
        by reflexivity.
      destruct (positive_value (Some (total_pagado db1 k))) as [c|] eqn:P;
        [|reflexivity].
      cbn in P. destruct (_ && _); [|discriminate]. injection P as <-.
      now rewrite round2_sub_self. }
  split; [exact E|]. unfold appends_at_most_one. rewrite E.
  apply order_change_status_appends.
Qed.

Lemma two_cancellations_settled (db : database) (k : Z)
  (order : RepairOrder) :
  get_order db k = Some order ->
  let db1 := fst (order_change_status db k cancelado_form) in
  cash_entries db1 = cash_entries db
  \/ senia order = Some (total_devuelto db1 k) ->
  cash_entries (twice db k cancelado_form) = cash_entries db1
  /\ appends_at_most_one db (twice db k cancelado_form).
Proof.
  intros Hg db1 H.
  assert (E : cash_entries (twice db k cancelado_form) = cash_entries db1).
  { unfold twice. fold db1.
    pose proof (get_order_after db k cancelado_form order "cancelado" Hg
                  eq_refl eq_refl) as Hg1. fold db1 in Hg1.
    rewrite (order_change_status_valid db1 k cancelado_form _ "cancelado"
               Hg1 eq_refl eq_refl).
    cbn [fst]. rewrite logica_de_caja_set_estado.
    destruct H as [H|H].
    - rewrite (logica_de_caja_cash_ext _ (with_status db k "cancelado" "")
                 order "cancelado") by exact H.
      subst db1.
      now rewrite (order_change_status_valid db k cancelado_form order
                     "cancelado" Hg eq_refl eq_refl).
    - unfold logica_de_caja. rewrite (get_order_pk _ _ _ Hg).
      change (String.eqb "cancelado" "entregado") with false.
      change (String.eqb "cancelado" "cancelado") with true. cbv iota.
      rewrite H.
      rewrite (total_devuelto_ext db1
                 (with_status db1 k "cancelado"
                    (PyStr.strip (form_get_default cancelado_form "nota" ""))))
        by reflexivity.
      destruct (positive_value (Some (total_devuelto db1 k))) as [c|] eqn:P;
        [|reflexivity].
      cbn in P. destruct (_ && _); [|discriminate]. injection P as <-.
      now rewrite round2_sub_self. }
  split; [exact E|]. unfold appends_at_most_one. rewrite E.
  apply order_change_status_appends.
Qed.

(** ** The rounding error of one operation *)

Lemma shifted_0 (m : Z) : 0 <= m -> shifted m 0 (exact_record m).
Proof. intros H. exists 0. cbn. repeat split; lia. Qed.

Lemma shifted_shr_1 (m j : Z) (r : shr_record) :
  0 <= j -> shifted m j r -> shifted m (j + 1) (shr_1 r).
Proof.
  intros Hj (t & Hq & E & Ht & Hs). destruct r as [q b s].
  cbn [shr_m shr_r shr_s] in *.
  assert (P : 2 ^ (j + 1) = 2 * 2 ^ j) by (rewrite Z.pow_add_r; lia).
  exists (Z.b2z b * 2 ^ j + t).
  destruct q as [|[p|p|]|p]; try lia; cbn [shr_1 shr_m shr_r shr_s Z.b2z];
    rewrite P; (split; [lia|]); (split; [nia|]);
    (split; [destruct b; cbn [Z.b2z]; lia|]);
    intros Hbs; apply orb_false_elim in Hbs as [-> Hs'];
    rewrite (Hs Hs'); cbn [Z.b2z]; lia.
Qed.

Lemma shifted_iter (m : Z) (k : positive) :
  0 <= m -> shifted m (Zpos k) (iter_pos shr_1 k (exact_record m)).
Proof.
  intros Hm. rewrite iter_pos_iter.
  induction k as [|k IH] using Pos.peano_ind.
  - cbn [Pos.iter]. apply (shifted_shr_1 m 0); [lia|now apply shifted_0].
  - rewrite Pos.iter_succ, Pos2Z.inj_succ. apply shifted_shr_1; [lia|exact IH].
Qed.

(** Rounding to nearest after [j] shifts moves [m] by at most half of the
    last kept bit, and stays between the quotient and its successor. *)
Lemma shifted_round (m j : Z) (r : shr_record) :
  0 <= j -> shifted m j r ->
  let m2 := round_nearest_even (shr_m r) (loc_of_shr_record r) in
  Z.abs (2 * m - 2 * m2 * 2 ^ j) <= 2 ^ j
  /\ shr_m r <= m2 <= shr_m r + 1
  /\ shr_m r * 2 ^ j <= m.
Proof.
  intros Hj (t & Hq & E & Ht & Hs). destruct r as [q b s].
  cbn [shr_m shr_r shr_s] in *.
  assert (0 < 2 ^ j) by (apply Z.pow_pos_nonneg; lia).
  destruct b, s; cbn [loc_of_shr_record round_nearest_even Z.b2z] in *;
    try (destruct (Z.even q)); try specialize (Hs eq_refl);
    repeat split; try lia; nia.
Qed.

Lemma log2_bounds (m : positive) :
  2 ^ Z.log2 (Zpos m) <= Zpos m < 2 * 2 ^ Z.log2 (Zpos m).
Proof.
  destruct (Z.log2_spec (Zpos m) ltac:(lia)) as [H1 H2].
  rewrite Z.pow_succ_r in H2 by apply Z.log2_nonneg. lia.
Qed.

Lemma pow2_split (a b : Z) : 0 <= a -> 0 <= b -> 2 ^ (a + b) = 2 ^ a * 2 ^ b.
Proof. intros. now rewrite Z.pow_add_r. Qed.

(** The second normalisation of [binary_round_aux] keeps the value. *)
Lemma shr_fexp_rounded (m2 F : Z) :
  0 < m2 <= 2 ^ 53 -> -1074 <= F ->
  exists pz ez,
    shr_fexp 53 1024 m2 F loc_Exact = (exact_record (Zpos pz), ez)
    /\ F <= ez <= F + 1
    /\ Zpos pz * 2 ^ (ez - F) = m2.
Proof.
  intros [Hp Hle] HF. destruct m2 as [|p2|p2]; try lia.
  unfold shr_fexp, shr_record_of_loc, Zdigits2. rewrite digits2_log2.
  fold (exact_record (Zpos p2)).
  destruct (Z.eq_dec (Zpos p2) (2 ^ 53)) as [E|N].
  - rewrite E. change (Z.log2 (2 ^ 53)) with 53.
    replace (fexp 53 1024 (53 + 1 + F) - F) with 1
      by (unfold fexp, emin; lia).
    exists (Z.to_pos (2 ^ 52)), (F + 1). split; [|split; [lia|]].
    + reflexivity.
    + replace (F + 1 - F) with 1 by lia. reflexivity.
  - assert (HL : Z.log2 (Zpos p2) < 53) by (apply Z.log2_lt_pow2; lia).
    exists p2, F. split; [|split; [lia|]].
    + unfold shr.
      destruct (fexp 53 1024 (Z.log2 (Zpos p2) + 1 + F) - F) eqn:Ek;
        try reflexivity.
      unfold fexp, emin in Ek. lia.
    + replace (F - F) with 0 by lia. lia.
Qed.

(** [binary_round_aux] on an exact significand at or below the exponent of
    its format: the result is finite, and its significand is the nearest
    one. *)
Lemma binary_round_aux_error (s : bool) (m : positive) (e : Z) :
  let F := fexp 53 1024 (Z.log2 (Zpos m) + 1 + e) in
  -1074 <= e <= F -> F <= 970 ->
  exists pz ez m2,
    binary_round_aux 53 1024 s (Zpos m) e loc_Exact = S754_finite s pz ez
    /\ F <= ez
    /\ Zpos pz * 2 ^ (ez - F) = m2
    /\ Z.abs (2 * Zpos m - 2 * m2 * 2 ^ (F - e)) <= 2 ^ (F - e)
    /\ (F = e -> m2 = Zpos m).
Proof.
  intros F [He0 He] HF.
  assert (HF0 : -1074 <= F) by (unfold F, fexp, emin; lia).
  pose proof (log2_bounds m) as Hlog.
  pose proof (Z.log2_nonneg (Zpos m)) as Hl0.
  unfold binary_round_aux, shr_fexp at 1, shr_record_of_loc, Zdigits2.
  rewrite digits2_log2. fold F. fold (exact_record (Zpos m)).
  assert (R : exists r,
             shr (exact_record (Zpos m)) e (F - e) = (r, F)
             /\ shifted (Zpos m) (F - e) r
             /\ (F = e -> r = exact_record (Zpos m))).
  { unfold shr. destruct (F - e) as [|k|k] eqn:Ek; try lia.
    - exists (exact_record (Zpos m)). split; [f_equal; lia|].
      split; [apply shifted_0; lia|easy].
    - exists (iter_pos shr_1 k (exact_record (Zpos m))).
      split; [f_equal; lia|]. split; [apply shifted_iter; lia|lia]. }
  destruct R as (r & -> & Hr & Hexact).
  destruct (shifted_round (Zpos m) (F - e) r ltac:(lia) Hr)
    as (Herr & Hm2 & Hq).
  set (m2 := round_nearest_even (shr_m r) (loc_of_shr_record r)) in *.
  assert (Hex : F = e -> m2 = Zpos m).
  { intros E. subst m2. now rewrite (Hexact E). }
  assert (Hrange : 0 < m2 <= 2 ^ 53).
  { destruct (Z.eq_dec F e) as [E|N].
    - rewrite (Hex E). split; [lia|].
      assert (Z.log2 (Zpos m) < 53) by (unfold F, fexp, emin in E; lia).
      assert (Zpos m < 2 ^ 53) by (apply Z.log2_lt_pow2; lia). lia.
    - assert (EF : F - e = Z.log2 (Zpos m) - 52)
        by (unfold F, fexp, emin in *; lia).
      destruct Hr as (t & Hq0 & E2 & Ht & _).
      assert (Hk : 0 < 2 ^ (F - e)) by (apply Z.pow_pos_nonneg; lia).
      assert (P : 2 ^ Z.log2 (Zpos m) = 2 ^ 52 * 2 ^ (F - e)).
      { rewrite <- pow2_split by lia. f_equal. lia. }
      assert (shr_m r < 2 ^ 53) by nia.
      assert (2 ^ 52 <= shr_m r).
      { destruct (shr_r r); cbn [Z.b2z] in E2; nia. }
      lia. }
  destruct (shr_fexp_rounded m2 F Hrange HF0) as (pz & ez & -> & Hez & Hv).
  cbn [exact_record shr_m].
  replace (ez <=? 1024 - 53) with true by (symmetry; apply Z.leb_le; lia).
  exists pz, ez, m2. repeat split; trivial; lia.
Qed.

Lemma pow2_pos (a : Z) : 0 <= a -> 0 < 2 ^ a.
Proof. intros. now apply Z.pow_pos_nonneg. Qed.

Lemma pow2_le (a b : Z) : 0 <= a <= b -> 2 ^ a <= 2 ^ b.
Proof. intros. apply Z.pow_le_mono_r; lia. Qed.

Lemma pow2_lt_inv (a b : Z) : 0 <= b -> 2 ^ a < 2 ^ b -> a < b.
Proof. intros Hb H. apply (Z.pow_lt_mono_r_iff 2); lia. Qed.

(** [binary_round] on a significand of magnitude below [2^B]: the result
    is finite and within half a unit in the last place, [2^(B-54)], of the
    exact value. *)
Lemma binary_round_error (s : bool) (m : positive) (e B : Z) :
  -1074 <= e -> -1020 <= B <= 1000 ->
  Zpos m * 2 ^ (e + 1074) < 2 ^ (B + 1074) ->
  exists pz ez,
    binary_round 53 1024 s m e = S754_finite s pz ez
    /\ -1074 <= ez
    /\ Z.abs (Zpos m * 2 ^ (e + 1074) - Zpos pz * 2 ^ (ez + 1074))
       <= 2 ^ (B + 1020).
Proof.
  intros He HB Hlt.
  pose proof (log2_bounds m) as Hlog.
  pose proof (Z.log2_nonneg (Zpos m)) as Hl0.
  set (L := Z.log2 (Zpos m)) in *.
  assert (HLB : L + e < B).
  { assert (2 ^ (L + (e + 1074)) < 2 ^ (B + 1074)).
    { rewrite (pow2_split L (e + 1074)) by lia.
      pose proof (pow2_pos (e + 1074) ltac:(lia)). nia. }
    apply pow2_lt_inv in H; lia. }
  unfold binary_round. rewrite digits2_log2. fold L.
  set (F := fexp 53 1024 (L + 1 + e)).
  assert (HF : -1074 <= F /\ F <= 970 /\ (e < F -> F = L + e - 52)
               /\ L + e - 52 <= F)
    by (unfold F, fexp, emin; lia).
  destruct HF as (HF0 & HF1 & HF2 & HF3).
  pose proof (pow2_pos (B + 1020) ltac:(lia)) as HE.
  unfold shl_align. destruct (F - e) as [|k|d] eqn:Ek.
  - (* the exponent of the format: no shift *)
    pose proof (binary_round_aux_error s m e) as A. cbv zeta in A.
    fold L in A. fold F in A.
    destruct A as (pz & ez & m2 & -> & H1 & H2 & _ & H4); [lia|lia|].
    exists pz, ez. split; [reflexivity|]. split; [lia|].
    rewrite H4 in H2 by lia.
    replace (ez + 1074) with ((ez - F) + (e + 1074)) by lia.
    rewrite (pow2_split (ez - F) (e + 1074)) by lia. rewrite Z.mul_assoc, H2.
    replace (_ - _) with 0 by lia. cbn [Z.abs]. lia.
  - (* a shift to the right, with rounding *)
    pose proof (binary_round_aux_error s m e) as A. cbv zeta in A.
    fold L in A. fold F in A.
    destruct A as (pz & ez & m2 & -> & H1 & H2 & H3 & _); [lia|lia|].
    exists pz, ez. split; [reflexivity|]. split; [lia|].
    replace (ez + 1074) with ((ez - F) + (F + 1074)) by lia.
    rewrite (pow2_split (ez - F) (F + 1074)) by lia. rewrite Z.mul_assoc, H2.
    replace (F + 1074) with ((F - e) + (e + 1074)) by lia.
    rewrite (pow2_split (F - e) (e + 1074)) by lia.
    pose proof (pow2_pos (e + 1074) ltac:(lia)) as Pe.
    pose proof (pow2_pos (F - e) ltac:(lia)) as Pk.
    assert (Hb : 2 ^ (F - e) * 2 ^ (e + 1074) <= 2 * 2 ^ (B + 1020)).
    { rewrite <- (pow2_split (F - e) (e + 1074)) by lia.
      replace (2 * 2 ^ (B + 1020)) with (2 ^ (1 + (B + 1020)))
        by (rewrite (pow2_split 1 (B + 1020)) by lia; lia).
      apply pow2_le. lia. }
    set (x := 2 ^ (F - e)) in *. set (y := 2 ^ (e + 1074)) in *.
    set (E := 2 ^ (B + 1020)) in *. nia.
  - (* a shift to the left: exact *)
    assert (Hmz : Zpos (Pos.iter xO m d) = Zpos m * 2 ^ (e - F))
      by (rewrite iter_xO; f_equal; f_equal; lia).
    assert (Hlz : Z.log2 (Zpos (Pos.iter xO m d)) = L + (e - F))
      by (rewrite Hmz, Z.log2_mul_pow2 by lia; unfold L; lia).
    pose proof (binary_round_aux_error s (Pos.iter xO m d) F) as A.
    cbv zeta in A. rewrite Hlz in A.
    replace (L + (e - F) + 1 + F) with (L + 1 + e) in A by lia. fold F in A.
    destruct A as (pz & ez & m2 & -> & H1 & H2 & _ & H4); [lia|lia|].
    exists pz, ez. split; [reflexivity|]. split; [lia|].
    rewrite H4 in H2 by reflexivity.
    replace (ez + 1074) with ((ez - F) + (F + 1074)) by lia.
    rewrite (pow2_split (ez - F) (F + 1074)) by lia.
    rewrite Z.mul_assoc, H2, Hmz.
    rewrite <- Z.mul_assoc, <- (pow2_split (e - F) (F + 1074)) by lia.
    replace (e - F + (F + 1074)) with (e + 1074) by lia.
    replace (_ - _) with 0 by lia. cbn [Z.abs]. lia.
Qed.

Lemma normalize_error (M e B : Z) :
  -1074 <= e -> -1020 <= B <= 1000 ->
  Z.abs M * 2 ^ (e + 1074) < 2 ^ (B + 1074) ->
  proper (binary_normalize 53 1024 M e false)
  /\ Z.abs (M * 2 ^ (e + 1074) - ulps (binary_normalize 53 1024 M e false))
     <= 2 ^ (B + 1020).
Proof.
  intros He HB Hlt. pose proof (pow2_pos (B + 1020) ltac:(lia)) as HE.
  destruct M as [|m|m]; cbn [binary_normalize Z.abs] in *.
  - split; [exact I|]. cbn [ulps]. lia.
  - destruct (binary_round_error false m e B He HB Hlt)
      as (pz & ez & -> & Hez & Herr).
    split; [exact Hez|]. cbn [ulps cond_Zopp]. exact Herr.
  - destruct (binary_round_error true m e B He HB Hlt)
      as (pz & ez & -> & Hez & Herr).
    split; [exact Hez|]. cbn [ulps cond_Zopp].
    replace (Z.neg m * 2 ^ (e + 1074) - - (Z.pos pz * 2 ^ (ez + 1074)))
      with (- (Z.pos m * 2 ^ (e + 1074) - Z.pos pz * 2 ^ (ez + 1074)))
      by lia.
    now rewrite Z.abs_opp.
Qed.

Lemma aligned_ulps (s : bool) (m : positive) (e ez : Z) :
  -1074 <= ez <= e ->
  cond_Zopp s (Zpos (fst (shl_align m e ez))) * 2 ^ (ez + 1074)
  = ulps (S754_finite s m e).
Proof.
  intros H. rewrite shl_align_value by lia. cbn [ulps].
  replace (e + 1074) with ((e - ez) + (ez + 1074)) by lia.
  rewrite (pow2_split (e - ez) (ez + 1074)) by lia.
  destruct s; cbn [cond_Zopp]; lia.
Qed.

(** The sum and the difference of two floats of magnitude below [2^B] are
    within [2^(B-54)] of the exact ones. *)
Lemma add_error (x y : PyFloat.float) (B : Z) :
  proper x -> proper y -> -1020 <= B <= 1000 ->
  Z.abs (ulps x + ulps y) < 2 ^ (B + 1074) ->
  proper (PyFloat.add x y)
  /\ Z.abs (ulps x + ulps y - ulps (PyFloat.add x y)) <= 2 ^ (B + 1020).
Proof.
  intros Hx Hy HB Hlt. pose proof (pow2_pos (B + 1020) ltac:(lia)) as HE.
  unfold PyFloat.add, PyFloat.prec, PyFloat.emax.
  destruct x as [sx|sx| |sx mx ex], y as [sy|sy| |sy my ey];
    try contradiction; cbn [proper] in *.
  - destruct sx, sy; cbn; split; trivial; lia.
  - cbn [SFadd]. split; [exact Hy|].
    replace (_ - _) with 0 by (cbn [ulps]; lia). cbn. lia.
  - cbn [SFadd]. split; [exact Hx|].
    replace (_ - _) with 0 by (cbn [ulps]; lia). cbn. lia.
  - cbn [SFadd]. set (ez := Z.min ex ey).
    set (M := cond_Zopp sx (Zpos (fst (shl_align mx ex ez)))
              + cond_Zopp sy (Zpos (fst (shl_align my ey ez)))).
    assert (EM : M * 2 ^ (ez + 1074)
                 = ulps (S754_finite sx mx ex) + ulps (S754_finite sy my ey)).
    { unfold M. rewrite Z.mul_add_distr_r, !aligned_ulps by (unfold ez; lia).
      reflexivity. }
    rewrite <- EM in *.
    apply normalize_error; [unfold ez; lia|exact HB|].
    rewrite <- (Z.abs_eq (2 ^ (ez + 1074))), <- Z.abs_mul
      by (apply Z.lt_le_incl, pow2_pos; unfold ez; lia).
    exact Hlt.
Qed.

Lemma sub_error (x y : PyFloat.float) (B : Z) :
  proper x -> proper y -> -1020 <= B <= 1000 ->
  Z.abs (ulps x - ulps y) < 2 ^ (B + 1074) ->
  proper (PyFloat.sub x y)
  /\ Z.abs (ulps x - ulps y - ulps (PyFloat.sub x y)) <= 2 ^ (B + 1020).
Proof.
  intros Hx Hy HB Hlt. pose proof (pow2_pos (B + 1020) ltac:(lia)) as HE.
  unfold PyFloat.sub, PyFloat.prec, PyFloat.emax.
  destruct x as [sx|sx| |sx mx ex], y as [sy|sy| |sy my ey];
    try contradiction; cbn [proper] in *.
  - destruct sx, sy; cbn; split; trivial; lia.
  - cbn [SFsub proper]. split; [exact Hy|].
    replace (_ - _) with 0
      by (cbn [ulps]; destruct sy; cbn [negb cond_Zopp]; lia).
    cbn. lia.
  - cbn [SFsub]. split; [exact Hx|].
    replace (_ - _) with 0 by (cbn [ulps]; lia). cbn. lia.
  - cbn [SFsub]. set (ez := Z.min ex ey).
    set (M := cond_Zopp sx (Zpos (fst (shl_align mx ex ez)))
              - cond_Zopp sy (Zpos (fst (shl_align my ey ez)))).
    assert (EM : M * 2 ^ (ez + 1074)
                 = ulps (S754_finite sx mx ex) - ulps (S754_finite sy my ey)).
    { unfold M. rewrite Z.mul_sub_distr_r, !aligned_ulps by (unfold ez; lia).
      reflexivity. }
    rewrite <- EM in *.
    apply normalize_error; [unfold ez; lia|exact HB|].
    rewrite <- (Z.abs_eq (2 ^ (ez + 1074))), <- Z.abs_mul
      by (apply Z.lt_le_incl, pow2_pos; unfold ez; lia).
    exact Hlt.
Qed.

(** ** Floats of cent amounts *)

Lemma div_half_even_nearest (a b : Z) :
  0 < b -> 2 * Z.abs (a - b * PyFloat.div_half_even a b) <= b.
Proof.
  intros Hb. unfold PyFloat.div_half_even.
  pose proof (Z.div_mod a b ltac:(lia)) as E.
  pose proof (Z.mod_pos_bound a b Hb) as R.
  destruct (Z.ltb_spec b (2 * (a mod b))); cbn [orb].
  - lia.
  - destruct (Z.eqb_spec (2 * (a mod b)) b); cbn [andb]; [|lia].
    destruct (Z.odd (a / b)); lia.
Qed.

Lemma ilog2_ratio_range (n d : Z) :
  Z.log2 n - Z.log2 d - 1 <= PyFloat.ilog2_ratio n d <= Z.log2 n - Z.log2 d.
Proof. unfold PyFloat.ilog2_ratio. destruct (_ <? _); lia. Qed.

(** The float nearest to [n / 100], for [n] up to [2^37]: it is finite and
    within [2^-23] of [n / 100]. *)
Lemma of_ratio_cents (s : bool) (n : Z) :
  0 < n < 2 ^ 37 ->
  exists p e,
    PyFloat.of_ratio s n 100 = S754_finite s p e
    /\ -1074 <= e
    /\ Z.abs (100 * (Zpos p * 2 ^ (e + 1074)) - n * 2 ^ 1074)
       <= 100 * 2 ^ 1051.
Proof.
  intros [Hn0 Hn]. unfold PyFloat.of_ratio.
  pose proof (ilog2_ratio_range n 100) as Hl.
  change (Z.log2 100) with 6 in Hl.
  assert (HL : 0 <= Z.log2 n < 37)
    by (split; [apply Z.log2_nonneg|apply Z.log2_lt_pow2; lia]).
  set (l := PyFloat.ilog2_ratio n 100) in *.
  replace (Z.max (l - 52) (-1074)) with (l - 52) by lia.
  set (e := l - 52). assert (He : -59 <= e <= -22) by (unfold e; lia).
  rewrite (Z.max_l (- e) 0), (Z.max_r e 0) by lia.
  change (2 ^ 0) with 1. rewrite Z.mul_1_r.
  pose proof (div_half_even_nearest (n * 2 ^ (- e)) 100 ltac:(lia)) as Hm.
  set (m := PyFloat.div_half_even (n * 2 ^ (- e)) 100) in *.
  assert (Hb : 2 ^ 22 <= 2 ^ (- e)) by (apply pow2_le; lia).
  change (2 ^ 22) with 4194304 in Hb.
  assert (Hmpos : 0 < m) by lia.
  assert (HU : 2 ^ 1074 = 2 ^ (- e) * 2 ^ (e + 1074))
    by (rewrite <- pow2_split by lia; f_equal; lia).
  assert (Hw : 0 < 2 ^ (e + 1074) <= 2 ^ 1052)
    by (split; [apply pow2_pos; lia|apply pow2_le; lia]).
  assert (E2 : 100 * 2 ^ 1051 = 50 * 2 ^ 1052) by reflexivity.
  assert (Err : Z.abs (100 * (m * 2 ^ (e + 1074)) - n * 2 ^ 1074)
                <= 100 * 2 ^ 1051).
  { rewrite HU, E2.
    set (w := 2 ^ (e + 1074)) in *. set (b := 2 ^ (- e)) in *.
    set (W := 2 ^ 1052) in *. clearbody w b W m. nia. }
  destruct (Z.eqb_spec m (2 ^ 53)) as [Em|Nm].
  - exists (Z.to_pos (2 ^ 52)), (e + 1).
    replace (971 <? e + 1) with false by (symmetry; apply Z.ltb_ge; lia).
    split; [reflexivity|]. split; [lia|].
    replace (Zpos (Z.to_pos (2 ^ 52)) * 2 ^ (e + 1 + 1074))
      with (m * 2 ^ (e + 1074)); [exact Err|].
    rewrite Em. replace (e + 1 + 1074) with (1 + (e + 1074)) by lia.
    rewrite (pow2_split 1 (e + 1074)) by lia.
    change (Zpos (Z.to_pos (2 ^ 52))) with (2 ^ 52).
    change (2 ^ 53) with (2 ^ 52 * 2 ^ 1). lia.
  - destruct m as [|p|p]; try lia. exists p, e.
    replace (971 <? e) with false by (symmetry; apply Z.ltb_ge; lia).
    split; [reflexivity|]. split; [lia|exact Err].
Qed.

(** [round(x, 2)] of a float within half a cent of [D / 100]: the scaled
    value that it rounds is [|D|]. *)
Lemma round2_scaled (s : bool) (m : positive) (e D : Z) :
  -1074 <= e ->
  2 * Z.abs (100 * ulps (S754_finite s m e) - D * 2 ^ 1074) < 2 ^ 1074 ->
  (if 0 <=? e then 100 * Zpos m * 2 ^ e
   else PyFloat.div_half_even (100 * Zpos m) (2 ^ (- e))) = Z.abs D
  /\ D = cond_Zopp s (Z.abs D).
Proof.
  intros He H. cbn [ulps] in H.
  destruct (Z.leb_spec 0 e) as [Hpos|Hneg].
  - assert (HU : 0 < 2 ^ 1074) by now apply pow2_pos.
    assert (Hv : 2 ^ (e + 1074) = 2 ^ e * 2 ^ 1074)
      by now rewrite pow2_split by lia.
    pose proof (pow2_pos e Hpos) as Pe.
    rewrite Hv in H. set (U := 2 ^ 1074) in *. set (v := 2 ^ e) in *.
    clearbody U v. destruct s; cbn [cond_Zopp] in *; nia.
  - assert (HU : 2 ^ 1074 = 2 ^ (- e) * 2 ^ (e + 1074))
      by (rewrite <- pow2_split by lia; f_equal; lia).
    pose proof (pow2_pos (e + 1074) ltac:(lia)) as Pw.
    pose proof (pow2_pos (- e) ltac:(lia)) as Pb.
    pose proof (div_half_even_nearest (100 * Zpos m) (2 ^ (- e)) Pb) as Hh.
    set (h := PyFloat.div_half_even (100 * Zpos m) (2 ^ (- e))) in *.
    rewrite HU in H. set (w := 2 ^ (e + 1074)) in *.
    set (b := 2 ^ (- e)) in *. clearbody w b h.
    destruct s; cbn [cond_Zopp] in *; nia.
Qed.

Lemma gt0_of_ratio_negative (n d : Z) :
  PyFloat.gt0 (PyFloat.of_ratio true n d) = false.
Proof.
  unfold PyFloat.of_ratio.
  destruct (_ =? 2 ^ 53); [destruct (971 <? _); reflexivity|].
  destruct (PyFloat.div_half_even _ _); [reflexivity| |reflexivity].
  destruct (971 <? _); reflexivity.
Qed.

Lemma round2_near_positive (x : PyFloat.float) (D : Z) :
  proper x -> 0 < D ->
  2 * Z.abs (100 * ulps x - D * 2 ^ 1074) < 2 ^ 1074 ->
  PyFloat.round2 x = PyFloat.of_ratio false D 100.
Proof.
  intros Hx HD H. assert (HU : 0 < 2 ^ 1074) by now apply pow2_pos.
  destruct x as [s|s| |s m e]; try contradiction.
  - cbn [ulps] in H. lia.
  - cbn [proper] in Hx. destruct (round2_scaled s m e D Hx H) as [Eh Es].
    unfold PyFloat.round2. rewrite Eh.
    replace (Z.abs D =? 0) with false by (symmetry; apply Z.eqb_neq; lia).
    destruct s; cbn [cond_Zopp] in Es; [lia|].
    now rewrite Z.abs_eq by lia.
Qed.

Lemma round2_near_not_positive (x : PyFloat.float) (D : Z) :
  proper x -> D <= 0 ->
  2 * Z.abs (100 * ulps x - D * 2 ^ 1074) < 2 ^ 1074 ->
  PyFloat.gt0 (PyFloat.round2 x) = false.
Proof.
  intros Hx HD H. assert (HU : 0 < 2 ^ 1074) by now apply pow2_pos.
  destruct x as [s|s| |s m e]; try contradiction.
  - now destruct s.
  - cbn [proper] in Hx. destruct (round2_scaled s m e D Hx H) as [Eh Es].
    unfold PyFloat.round2. rewrite Eh.
    destruct (Z.eqb_spec (Z.abs D) 0); [now destruct s|].
    destruct s; cbn [cond_Zopp] in Es; [|lia].
    apply gt0_of_ratio_negative.
Qed.

Lemma unit_split :
  2 ^ 1074 = 16777216 * 2 ^ 1050 /\ 2 ^ 1051 = 2 * 2 ^ 1050
  /\ 2 ^ (30 + 1074) = 18014398509481984 * 2 ^ 1050
  /\ 2 ^ (30 + 1020) = 2 ^ 1050 /\ 0 < 2 ^ 1050.
Proof. repeat split. Qed.

(** The hypotheses on powers of two, over one unit [E = 2^1050]. *)
Ltac in_units :=
  destruct unit_split as (HU & HU1 & HU2 & HU3 & HE);
  rewrite ?HU, ?HU1, ?HU2, ?HU3 in *;
  generalize dependent (2 ^ 1050); intros E; intros.

Lemma cents_zero : cents 0 = PyFloat.zero.
Proof. reflexivity. Qed.

Lemma cents_positive (a : Z) :
  0 < a -> cents a = PyFloat.of_ratio false a 100.
Proof.
  intros H. unfold cents, PyStr.of_decimal.
  replace (a =? 0) with false by (symmetry; apply Z.eqb_neq; lia).
  reflexivity.
Qed.

Lemma near_cents (a : Z) : 0 <= a < 2 ^ 37 -> near (cents a) a 2.
Proof.
  intros [H0 H]. destruct (Z.eq_dec a 0) as [->|N].
  - split; [exact I|]. cbn. lia.
  - rewrite cents_positive by lia.
    destruct (of_ratio_cents false a ltac:(lia)) as (p & e & -> & He & Herr).
    split; [exact He|]. cbn [ulps cond_Zopp]. in_units. lia.
Qed.

Lemma cents_shape (a : Z) :
  0 <= a < 2 ^ 37 ->
  PyFloat.or_zero (cents a) = cents a
  /\ PyFloat.gt0 (cents a) = (0 <? a).
Proof.
  intros [H0 H]. destruct (Z.eq_dec a 0) as [->|N]; [now split|].
  rewrite cents_positive by lia.
  destruct (of_ratio_cents false a ltac:(lia)) as (p & e & -> & _).
  split; [reflexivity|]. symmetry. apply Z.ltb_lt. lia.
Qed.

Lemma near_weaken (x : PyFloat.float) (a k k' : Z) :
  k <= k' -> near x a k -> near x a k'.
Proof.
  intros Hk [Hp H]. split; [exact Hp|].
  pose proof (pow2_pos 1050 ltac:(lia)). nia.
Qed.

Lemma near_add (x y : PyFloat.float) (a b k j : Z) :
  near x a k -> near y b j ->
  Z.abs (a + b) <= 10 ^ 11 -> 0 <= k -> 0 <= j -> k + j <= 100000 ->
  near (PyFloat.add x y) (a + b) (k + j + 1).
Proof.
  intros [Px Hx] [Py Hy] Hab Hk Hj Hkj. change (10 ^ 11) with 100000000000 in Hab.
  destruct (add_error x y 30 Px Py ltac:(lia)) as [Pz Hz].
  - in_units. nia.
  - split; [exact Pz|]. in_units. nia.
Qed.

Lemma near_sub (x y : PyFloat.float) (a b k j : Z) :
  near x a k -> near y b j ->
  Z.abs (a - b) <= 10 ^ 11 -> 0 <= k -> 0 <= j -> k + j <= 100000 ->
  near (PyFloat.sub x y) (a - b) (k + j + 1).
Proof.
  intros [Px Hx] [Py Hy] Hab Hk Hj Hkj. change (10 ^ 11) with 100000000000 in Hab.
  destruct (sub_error x y 30 Px Py ltac:(lia)) as [Pz Hz].
  - in_units. nia.
  - split; [exact Pz|]. in_units. nia.
Qed.

Lemma near_fold_cents (ns : list Z) (acc : PyFloat.float) (A k : Z) :
  near acc A k -> 0 <= A -> 0 <= k ->
  Forall (fun n => 0 <= n) ns ->
  A + total ns <= 10 ^ 11 ->
  k + 3 * Z.of_nat (List.length ns) <= 100000 ->
  near (fold_left PyFloat.add (map PyFloat.or_zero (map cents ns)) acc)
       (A + total ns) (k + 3 * Z.of_nat (List.length ns)).
Proof.
  intros Hacc HA Hk Hns. revert acc A k Hacc HA Hk.
  induction Hns as [|n ns Hn Hns IH]; intros acc A k Hacc HA Hk Hsum Hlen;
    cbn [map fold_left total fold_right List.length] in *.
  - replace (A + 0) with A by lia. now replace (k + 3 * _) with k by lia.
  - fold (total ns) in *. pose proof (total_nonneg ns Hns) as Ht.
    change (10 ^ 11) with 100000000000 in Hsum.
    assert (Hn37 : 0 <= n < 2 ^ 37) by (change (2 ^ 37) with 137438953472; lia).
    rewrite (proj1 (cents_shape n Hn37)).
    replace (A + (n + total ns)) with ((A + n) + total ns) by lia.
    replace (k + 3 * Z.of_nat (S (List.length ns)))
      with ((k + 2 + 1) + 3 * Z.of_nat (List.length ns)) by lia.
    apply IH; try lia.
    apply near_add;
      [exact Hacc|now apply near_cents
      |change (10 ^ 11) with 100000000000; lia|lia..].
Qed.

Lemma near_sum_cents (ns : list Z) :
  Forall (fun n => 0 <= n) ns ->
  total ns <= 10 ^ 11 -> Z.of_nat (List.length ns) <= 20000 ->
  near (PyFloat.sum (map PyFloat.or_zero (map cents ns))) (total ns)
       (3 * Z.of_nat (List.length ns)).
Proof.
  intros Hns Ht Hl. unfold PyFloat.sum.
  pose proof (near_fold_cents ns PyFloat.zero 0 0) as H.
  rewrite !Z.add_0_l in H. apply H; trivial; try lia.
  split; [exact I|]. cbn. lia.
Qed.

Lemma near_round2_positive (x : PyFloat.float) (D k : Z) :
  near x D k -> 0 <= k <= 80000 -> 0 < D ->
  PyFloat.round2 x = PyFloat.of_ratio false D 100.
Proof.
  intros [Px Hx] Hk HD. apply round2_near_positive; trivial.
  in_units. nia.
Qed.

Lemma near_round2_not_positive (x : PyFloat.float) (D k : Z) :
  near x D k -> 0 <= k <= 80000 -> D <= 0 ->
  PyFloat.gt0 (PyFloat.round2 x) = false.
Proof.
  intros [Px Hx] Hk HD. apply (round2_near_not_positive x D); trivial.
  in_units. nia.
Qed.

(** The reconciliation arithmetic on cent amounts: with an amount due of
    [C] cents and earlier entries of [ns] cents, the amount to enter is the
    float of [C - total ns] cents when that is positive, and is not
    positive otherwise. *)
Lemma reconcile_cents (C : Z) (ns : list Z) :
  0 <= C <= 10 ^ 11 ->
  Forall (fun n => 0 <= n) ns ->
  total ns <= 10 ^ 11 -> Z.of_nat (List.length ns) <= 20000 ->
  let r := PyFloat.round2
             (PyFloat.sub (cents C)
                (PyFloat.sum (map PyFloat.or_zero (map cents ns)))) in
  if 0 <? C - total ns
  then r = cents (C - total ns) /\ PyFloat.gt0 r = true
  else PyFloat.gt0 r = false.
Proof.
  intros HC Hns Ht Hl r.
  pose proof (total_nonneg ns Hns) as Ht0.
  pose proof (near_sum_cents ns Hns Ht Hl) as Hpaid.
  change (10 ^ 11) with 100000000000 in *.
  assert (HC37 : 0 <= C < 2 ^ 37) by (change (2 ^ 37) with 137438953472; lia).
  pose proof (near_cents C HC37) as Hc.
  assert (Hd : near (PyFloat.sub (cents C)
                       (PyFloat.sum (map PyFloat.or_zero (map cents ns))))
                 (C - total ns)
                 (2 + 3 * Z.of_nat (List.length ns) + 1)).
  { apply near_sub;
      [exact Hc|exact Hpaid|change (10 ^ 11) with 100000000000; lia|lia..]. }
  destruct (Z.ltb_spec 0 (C - total ns)) as [Hgt|Hle].
  - assert (HD37 : 0 <= C - total ns < 2 ^ 37)
      by (change (2 ^ 37) with 137438953472; lia).
    assert (Er : r = cents (C - total ns)).
    { unfold r. rewrite (near_round2_positive _ _ _ Hd) by lia.
      now rewrite cents_positive. }
    split; [exact Er|]. rewrite Er, (proj2 (cents_shape _ HD37)).
    now apply Z.ltb_lt.
  - apply (near_round2_not_positive _ _ _ Hd); lia.
Qed.

(** ** Two deliveries, two cancellations, on cent amounts *)

Lemma entradas_of_is_filter (db : database) (k : Z) :
  filter is_entrada (movimientos_caja db k) = entradas_of db k.
Proof. unfold movimientos_caja, entradas_of. now rewrite filter_filter. Qed.

Lemma devoluciones_of_is_filter (db : database) (k : Z) :
  filter is_devolucion (movimientos_caja db k) = devoluciones_of db k.
Proof. unfold movimientos_caja, devoluciones_of. now rewrite filter_filter. Qed.

Lemma total_le_cents (ns : list Z) (n : Z) :
  total (ns ++ [n]) = total ns + n.
Proof. apply total_app. Qed.

(** One call of [order_change_status] towards [entregado] on cent amounts:
    the entry is the float of the cents that are left to pay. *)
Lemma deliver_cents (db : database) (k : Z) (order : RepairOrder) (c : Z)
  (ns : list Z) :
  get_order db k = Some order ->
  costo_estimado order = Some (cents c) -> 0 <= c <= 10 ^ 11 ->
  map monto (entradas_of db k) = map cents ns ->
  Forall (fun n => 0 <= n) ns -> total ns <= 10 ^ 11 ->
  Z.of_nat (List.length ns) <= 20000 ->
  fst (order_change_status db k entregado_form) =
    let db1 := with_status db k "entregado" "" in
    if 0 <? c - total ns
    then add_cash db1 "entrada" (pago_final k) (cents (c - total ns)) (Some k)
    else db1.
Proof.
  intros Hg Hc Hrange Hm Hns Ht Hl.
  pose proof (total_nonneg ns Hns) as Hnn.
  rewrite (order_change_status_valid db k entregado_form order "entregado"
             Hg eq_refl eq_refl).
  cbn [fst]. change (PyStr.strip (form_get_default entregado_form "nota" ""))
    with "".
  change (10 ^ 11) with 100000000000 in Hrange.
  assert (H37 : 0 <= c < 2 ^ 37) by (change (2 ^ 37) with 137438953472; lia).
  destruct (Z.eq_dec c 0) as [->|Hc0].
  - unfold logica_de_caja. rewrite Hc.
    replace (0 <? 0 - total ns) with false by (symmetry; apply Z.ltb_ge; lia).
    reflexivity.
  - assert (Hpos : PyFloat.gt0 (cents c) = true)
      by (rewrite (proj2 (cents_shape c H37)); apply Z.ltb_lt; lia).
    rewrite (logica_de_caja_entregado _ _ _ Hc Hpos), (get_order_pk _ _ _ Hg).
    cbv zeta. rewrite (total_pagado_ext db) by reflexivity.
    rewrite total_pagado_is_sum. unfold sum_of. rewrite <- map_map, Hm.
    pose proof (reconcile_cents c ns) as R. cbv zeta in R.
    change (10 ^ 11) with 100000000000 in R, Ht.
    specialize (R ltac:(lia) Hns Ht Hl).
    destruct (0 <? c - total ns).
    + destruct R as [-> ->]. reflexivity.
    + now rewrite R.
Qed.

Lemma refund_cents (db : database) (k : Z) (order : RepairOrder) (d : Z)
  (ns : list Z) :
  get_order db k = Some order ->
  senia order = Some (cents d) -> 0 <= d <= 10 ^ 11 ->
  map monto (devoluciones_of db k) = map cents ns ->
  Forall (fun n => 0 <= n) ns -> total ns <= 10 ^ 11 ->
  Z.of_nat (List.length ns) <= 20000 ->
  fst (order_change_status db k cancelado_form) =
    let db1 := with_status db k "cancelado" "" in
    if 0 <? d - total ns
    then add_cash db1 "salida" (devolucion_senia k) (cents (d - total ns))
           (Some k)
    else db1.
Proof.
  intros Hg Hd Hrange Hm Hns Ht Hl.
  pose proof (total_nonneg ns Hns) as Hnn.
  rewrite (order_change_status_valid db k cancelado_form order "cancelado"
             Hg eq_refl eq_refl).
  cbn [fst]. change (PyStr.strip (form_get_default cancelado_form "nota" ""))
    with "".
  change (10 ^ 11) with 100000000000 in Hrange.
  assert (H37 : 0 <= d < 2 ^ 37) by (change (2 ^ 37) with 137438953472; lia).
  destruct (Z.eq_dec d 0) as [->|Hd0].
  - unfold logica_de_caja. rewrite Hd.
    replace (0 <? 0 - total ns) with false by (symmetry; apply Z.ltb_ge; lia).
    reflexivity.
  - assert (Hpos : PyFloat.gt0 (cents d) = true)
      by (rewrite (proj2 (cents_shape d H37)); apply Z.ltb_lt; lia).
    rewrite (logica_de_caja_cancelado _ _ _ Hd Hpos), (get_order_pk _ _ _ Hg).
    cbv zeta. rewrite (total_devuelto_ext db) by reflexivity.
    rewrite total_devuelto_is_sum. unfold sum_of. rewrite <- map_map, Hm.
    pose proof (reconcile_cents d ns) as R. cbv zeta in R.
    change (10 ^ 11) with 100000000000 in R, Ht.
    specialize (R ltac:(lia) Hns Ht Hl).
    destruct (0 <? d - total ns).
    + destruct R as [-> ->]. reflexivity.
    + now rewrite R.
Qed.

Lemma absent_amount_no_entry (db : database) (k : Z) (f : form)
  (o : RepairOrder) (e : string) :
  get_order db k = Some o -> form_get f "estado" = Some e ->
  in_order_states e = true ->
  (if String.eqb e "entregado" then costo_estimado o else None) = None ->
  (if String.eqb e "cancelado" then senia o else None) = None ->
  cash_entries (fst (order_change_status db k f)) = cash_entries db.
Proof.
  intros Hg Hf He Hc Hs.
  rewrite (order_change_status_valid db k f o e Hg Hf He). cbn [fst].
  unfold logica_de_caja.
  destruct (String.eqb e "entregado"); [rewrite Hc|];
    (destruct (String.eqb e "cancelado"); [rewrite Hs|]); reflexivity.
Qed.

(** Two deliveries on cent amounts: the second finds nothing to collect. *)
Lemma two_deliveries_cents (db : database) (k : Z)
  (order : RepairOrder) (ns : list Z) :
  get_order db k = Some order ->
  cents_or_absent (costo_estimado order) ->
  cent_amounts (map monto (entradas_of db k)) ns ->
  cash_entries (twice db k entregado_form) =
    cash_entries (fst (order_change_status db k entregado_form))
  /\ appends_at_most_one db (twice db k entregado_form).
Proof.
  intros Hg Hc (Hm & Hns & Ht & Hl). unfold twice.
  pose proof (get_order_after db k entregado_form order "entregado" Hg
                eq_refl eq_refl) as Hg1.
  pose proof (total_nonneg ns Hns) as Hnn.
  destruct (costo_estimado order) as [v|] eqn:Ev.
  - destruct Hc as (c & Hrange & ->).
    assert (Ev1 : costo_estimado (set_estado "entregado" order)
                  = Some (cents c)) by exact Ev.
    pose proof (deliver_cents db k order c ns Hg Ev Hrange Hm Hns Ht
                  ltac:(lia)) as E1.
    cbv zeta in E1. change (10 ^ 11) with 100000000000 in *.
    destruct (Z.ltb_spec 0 (c - total ns)) as [Hlt|Hge].
    + assert (Hm1 : map monto
                (entradas_of (fst (order_change_status db k entregado_form))
                   k)
              = map cents (ns ++ [c - total ns])).
      { rewrite E1, entradas_of_add_cash, !map_app.
        rewrite (entradas_of_ext db) by reflexivity. now rewrite Hm. }
      pose proof (deliver_cents _ k _ c _ Hg1 Ev1 Hrange Hm1) as E2.
      rewrite total_app, length_app, Nat2Z.inj_add in E2.
      specialize (E2 ltac:(apply Forall_app; split;
                            [exact Hns|constructor; [lia|constructor]])
                     ltac:(change (10 ^ 11) with 100000000000; lia)
                     ltac:(cbn [List.length]; lia)).
      cbv zeta in E2.
      replace (0 <? c - (total ns + (c - total ns))) with false in E2
        by (symmetry; apply Z.ltb_ge; lia).
      rewrite E2. split; [reflexivity|].
      eexists. cbn [cash_entries with_status add_history update_order].
      rewrite E1. split; [reflexivity|]. cbn. lia.
    + assert (Hm1 : map monto
                (entradas_of (fst (order_change_status db k entregado_form))
                   k)
              = map cents ns).
      { rewrite E1. now rewrite (entradas_of_ext db) by reflexivity. }
      pose proof (deliver_cents _ k _ c _ Hg1 Ev1 Hrange Hm1 Hns
                    ltac:(change (10 ^ 11) with 100000000000; lia)
                    ltac:(lia)) as E2.
      cbv zeta in E2.
      replace (0 <? c - total ns) with false in E2
        by (symmetry; apply Z.ltb_ge; lia).
      rewrite E2. split; [reflexivity|].
      exists []. cbn [cash_entries with_status add_history update_order].
      rewrite E1, app_nil_r. split; [reflexivity|]. cbn. lia.
  - unfold appends_at_most_one.
    rewrite (absent_amount_no_entry _ k entregado_form _ "entregado" Hg1
               eq_refl eq_refl Ev eq_refl),
      (absent_amount_no_entry _ k entregado_form _ "entregado" Hg
               eq_refl eq_refl Ev eq_refl).
    split; [reflexivity|].
    exists []. rewrite app_nil_r. split; [reflexivity|]. cbn. lia.
Qed.

(** Two cancellations on cent amounts: the second finds nothing to
    refund. *)
Lemma two_cancellations_cents (db : database) (k : Z)
  (order : RepairOrder) (ns : list Z) :
  get_order db k = Some order ->
  cents_or_absent (senia order) ->
  cent_amounts (map monto (devoluciones_of db k)) ns ->
  cash_entries (twice db k cancelado_form) =
    cash_entries (fst (order_change_status db k cancelado_form))
  /\ appends_at_most_one db (twice db k cancelado_form).
Proof.
  intros Hg Hc (Hm & Hns & Ht & Hl). unfold twice.
  pose proof (get_order_after db k cancelado_form order "cancelado" Hg
                eq_refl eq_refl) as Hg1.
  pose proof (total_nonneg ns Hns) as Hnn.
  destruct (senia order) as [v|] eqn:Ev.
  - destruct Hc as (c & Hrange & ->).
    assert (Ev1 : senia (set_estado "cancelado" order) = Some (cents c))
      by exact Ev.
    pose proof (refund_cents db k order c ns Hg Ev Hrange Hm Hns Ht
                  ltac:(lia)) as E1.
    cbv zeta in E1. change (10 ^ 11) with 100000000000 in *.
    destruct (Z.ltb_spec 0 (c - total ns)) as [Hlt|Hge].
    + assert (Hm1 : map monto
                (devoluciones_of
                   (fst (order_change_status db k cancelado_form)) k)
              = map cents (ns ++ [c - total ns])).
      { rewrite E1, devoluciones_of_add_cash, !map_app.
        rewrite (devoluciones_of_ext db) by reflexivity. now rewrite Hm. }
      pose proof (refund_cents _ k _ c _ Hg1 Ev1 Hrange Hm1) as E2.
      rewrite total_app, length_app, Nat2Z.inj_add in E2.
      specialize (E2 ltac:(apply Forall_app; split;
                            [exact Hns|constructor; [lia|constructor]])
                     ltac:(change (10 ^ 11) with 100000000000; lia)
                     ltac:(cbn [List.length]; lia)).
      cbv zeta in E2.
      replace (0 <? c - (total ns + (c - total ns))) with false in E2
        by (symmetry; apply Z.ltb_ge; lia).
      rewrite E2. split; [reflexivity|].
      eexists. cbn [cash_entries with_status add_history update_order].
      rewrite E1. split; [reflexivity|]. cbn. lia.
    + assert (Hm1 : map monto
                (devoluciones_of
                   (fst (order_change_status db k cancelado_form)) k)
              = map cents ns).
      { rewrite E1. now rewrite (devoluciones_of_ext db) by reflexivity. }
      pose proof (refund_cents _ k _ c _ Hg1 Ev1 Hrange Hm1 Hns
                    ltac:(change (10 ^ 11) with 100000000000; lia)
                    ltac:(lia)) as E2.
      cbv zeta in E2.
      replace (0 <? c - total ns) with false in E2
        by (symmetry; apply Z.ltb_ge; lia).
      rewrite E2. split; [reflexivity|].
      exists []. cbn [cash_entries with_status add_history update_order].
      rewrite E1, app_nil_r. split; [reflexivity|]. cbn. lia.
  - unfold appends_at_most_one.
    rewrite (absent_amount_no_entry _ k cancelado_form _ "cancelado" Hg1
               eq_refl eq_refl eq_refl Ev),
      (absent_amount_no_entry _ k cancelado_form _ "cancelado" Hg
               eq_refl eq_refl eq_refl Ev).
    split; [reflexivity|].
    exists []. rewrite app_nil_r. split; [reflexivity|]. cbn. lia.
Qed.

(** *** The two claims *)

(** C4 (as amended). Two changes of status to [entregado] in a row append
    at most one "Pago final" entry in total, the second call appending
    nothing, when the amounts are cent amounts or whole amounts: either
    [costo_estimado] is null or the float of a cent amount of at most
    1 000 000 000.00 and the [entrada] entries linked to the order are at
    most 10 000, with amounts that are floats of cent amounts, none
    negative, adding up to at most 1 000 000 000.00; or [costo_estimado]
    is null or a whole number from 0 to [2^53 - 1] and those entries have
    whole amounts, none negative, with a sum below [2^53]. *)
Theorem second_delivery_adds_nothing (db : database) (k : Z)
  (order : RepairOrder) :
  get_order db k = Some order ->
  (cents_or_absent (costo_estimado order)
   /\ exists ns, cent_amounts (map monto (entradas_of db k)) ns)
  \/ (whole_or_absent (costo_estimado order)
      /\ exists ns, whole_amounts (map monto (entradas_of db k)) ns
                    /\ total ns < 2 ^ 53) ->
  cash_entries (twice db k entregado_form)
  = cash_entries (fst (order_change_status db k entregado_form))
  /\ appends_at_most_one db (twice db k entregado_form).
Proof.
  intros Hg [(Hc & ns & Hm)|(Hc & ns & Hw & Ht)].
  - now apply (two_deliveries_cents db k order ns).
  - rewrite <- entradas_of_is_filter in Hw.
    now apply (two_deliveries_whole db k order ns).
Qed.

Lemma second_delivery_adds_nothing_witness :
  get_order cent_order_db 1 <> None
  /\ cash_entries (twice cent_order_db 1 entregado_form)
     = cash_entries (fst (order_change_status cent_order_db 1 entregado_form))
  /\ appends_at_most_one cent_order_db (twice cent_order_db 1 entregado_form).
Proof.
  split; [vm_compute; discriminate|].
  destruct (get_order cent_order_db 1) as [order|] eqn:Hg;
    [|vm_compute in Hg; discriminate Hg].
  apply (second_delivery_adds_nothing cent_order_db 1 order Hg).
  left. vm_compute in Hg. injection Hg as <-. split.
  - exists 10007. split; [lia|]. vm_compute. reflexivity.
  - exists [2501]. split; [vm_compute; reflexivity|].
    split; [repeat constructor; lia|]. split; [vm_compute; discriminate|].
    cbn. lia.
Defined.

(** C4 as stated fails. Order 1 of [half_cent_db] has an estimated cost of
    5066.445 and one linked [entrada] of 4718: the first delivery appends a
    final payment of 348.44, and the second, which finds
    [round(5066.445 - 5066.44, 2) = 0.01 > 0], appends another one. *)
Lemma two_deliveries_two_final_payments :
  reachable half_cent_db
  /\ (exists x y,
        parse_float (Some "348.44") = Some x
        /\ parse_float (Some "0.01") = Some y
        /\ cash_entries (twice half_cent_db 1 entregado_form) =
             cash_entries half_cent_db ++
               [mkCashEntry 2 "entrada" "Pago final orden #1" x (Some 1);
                mkCashEntry 3 "entrada" "Pago final orden #1" y (Some 1)])
  /\ ~ appends_at_most_one half_cent_db (twice half_cent_db 1 entregado_form).
Proof.
  split; [|split].
  - exact (reachable_step _ _ (reachable_step _ _ reachable_empty)).
  - do 2 eexists. repeat split; vm_compute; reflexivity.
  - intros (added & E & L). vm_compute in E.
    injection E as <-. cbn in L. lia.
Qed.

(** C5 (as amended). Two changes of status to [cancelado] in a row append
    at most one "Devolución seña" entry in total, the second call appending
    nothing, when the amounts are cent amounts or whole amounts: either
    [senia] is null or the float of a cent amount of at most
    1 000 000 000.00 and the [salida] entries linked to the order whose
    concept starts with "Devolución seña" are at most 10 000, with amounts
    that are floats of cent amounts, none negative, adding up to at most
    1 000 000 000.00; or [senia] is null or a whole number from 0 to
    [2^53 - 1] and those entries have whole amounts, none negative, with a
    sum below [2^53]. *)
Theorem second_cancellation_adds_nothing (db : database) (k : Z)
  (order : RepairOrder) :
  get_order db k = Some order ->
  (cents_or_absent (senia order)
   /\ exists ns, cent_amounts (map monto (devoluciones_of db k)) ns)
  \/ (whole_or_absent (senia order)
      /\ exists ns, whole_amounts (map monto (devoluciones_of db k)) ns
                    /\ total ns < 2 ^ 53) ->
  cash_entries (twice db k cancelado_form)
  = cash_entries (fst (order_change_status db k cancelado_form))
  /\ appends_at_most_one db (twice db k cancelado_form).
Proof.
  intros Hg [(Hc & ns & Hm)|(Hc & ns & Hw & Ht)].
  - now apply (two_cancellations_cents db k order ns).
  - rewrite <- devoluciones_of_is_filter in Hw.
    now apply (two_cancellations_whole db k order ns).
Qed.

Lemma second_cancellation_adds_nothing_witness :
  get_order cent_refund_db 1 <> None
  /\ cash_entries (twice cent_refund_db 1 cancelado_form)
     = cash_entries (fst (order_change_status cent_refund_db 1 cancelado_form))
  /\ appends_at_most_one cent_refund_db
       (twice cent_refund_db 1 cancelado_form).
Proof.
  split; [vm_compute; discriminate|].
  destruct (get_order cent_refund_db 1) as [order|] eqn:Hg;
    [|vm_compute in Hg; discriminate Hg].
  apply (second_cancellation_adds_nothing cent_refund_db 1 order Hg).
  left. vm_compute in Hg. injection Hg as <-. split.
  - exists 2501. split; [lia|]. vm_compute. reflexivity.
  - exists [1010]. split; [vm_compute; reflexivity|].
    split; [repeat constructor; lia|]. split; [vm_compute; discriminate|].
    cbn. lia.
Defined.

(** C5 as stated fails. Order 1 of [partial_refund_db] has a deposit of
    5066.445 and one linked [salida] of 4718 whose concept starts with
    "Devolución seña": the first cancellation appends a refund of 348.44,
    and the second, which finds [round(5066.445 - 5066.44, 2) = 0.01 > 0],
    appends another one. *)
Lemma two_cancellations_two_refunds :
  reachable partial_refund_db
  /\ (exists x y,
        parse_float (Some "348.44") = Some x
        /\ parse_float (Some "0.01") = Some y
        /\ cash_entries (twice partial_refund_db 1 cancelado_form) =
             cash_entries partial_refund_db ++
               [mkCashEntry 3 "salida" "Devolución seña orden #1" x (Some 1);
                mkCashEntry 4 "salida" "Devolución seña orden #1" y (Some 1)])
  /\ ~ appends_at_most_one partial_refund_db
         (twice partial_refund_db 1 cancelado_form).
Proof.
  split; [|split].
  - exact (reachable_step _ _
             (reachable_step _ _ (reachable_step _ _ reachable_empty))).
  - do 2 eexists. repeat split; vm_compute; reflexivity.
  - intros (added & E & L). vm_compute in E.
    injection E as <-. cbn in L. lia.
Qed.

(** The same happens without any entry made by hand when the deposit is
    large enough for consecutive floats to be more than half a cent apart:
    a deposit of 35184372088832.0546875 is refunded as 35184372088832.046875
    and then as 0.01. *)
Lemma huge_deposit_refunded_twice :
  exists x y,
    parse_float (Some "35184372088832.046875") = Some x
    /\ parse_float (Some "0.01") = Some y
    /\ cash_entries (twice huge_deposit_db 1 cancelado_form) =
         cash_entries huge_deposit_db ++
           [mkCashEntry 2 "salida" "Devolución seña orden #1" x (Some 1);
            mkCashEntry 3 "salida" "Devolución seña orden #1" y (Some 1)].
Proof. do 2 eexists. repeat split; vm_compute; reflexivity. Qed.

(** * Further properties *)

Ltac split_matches :=
  repeat match goal with
         | |- context [match ?x with _ => _ end] => destruct x eqn:?
         end.

Lemma extends_refl {A : Type} (xs : list A) : extends xs xs.
Proof. exists []. now rewrite app_nil_r. Qed.

Lemma extends_trans {A : Type} (xs ys zs : list A) :
  extends ys xs -> extends zs ys -> extends zs xs.
Proof. intros [a ->] [b ->]. exists (a ++ b). now rewrite app_assoc. Qed.

Lemma extends_app {A : Type} (xs a : list A) : extends (xs ++ a) xs.
Proof. now exists a. Qed.

Lemma logica_de_caja_frame (db : database) (o : RepairOrder) (e : string) :
  clients (logica_de_caja db o e) = clients db
  /\ orders (logica_de_caja db o e) = orders db
  /\ status_history (logica_de_caja db o e) = status_history db
  /\ parts (logica_de_caja db o e) = parts db.
Proof. unfold logica_de_caja. split_matches; now repeat split. Qed.

Ltac table_simpl :=
  cbn [fst snd clients orders status_history parts cash_entries
       add_client add_order add_history add_part_row add_cash
       update_client update_order] in *.

(** [seed] leaves a database with a client alone, and otherwise adds its
    six rows. *)
Lemma seed_cases (db : database) :
  (clients db <> [] /\ seed db = db)
  \/ (clients db = []
      /\ seed db =
           let c1 := next_pk (map client_pk (clients db)) in
           let db1 :=
             add_client db
               (fun k => mkClient k "Juan Pérez" "261-555-1234"
                           "juan@example.com" "San Martín 123" None) in
           let o1 := next_pk (map order_pk (orders db1)) in
           let db2 :=
             add_order db1
               (fun k => mkRepairOrder k c1 "Samsung" "A54" "3598..." "Funda"
                           "1-2-5-8" "No carga" "Conector"
                           (Some (PyFloat.of_int 45000))
                           (Some (PyFloat.of_int 10000)) "diagnostico") in
           let db3 := add_history db2 o1 "recibido" "Ingreso" in
           let db4 := add_history db3 o1 "diagnostico" "Se detecta conector" in
           let db5 :=
             add_part_row db4 o1 "Conector USB-C" (PyFloat.of_int 12000) in
           add_cash db5 "entrada"
             (String.append "Seña orden #" (PyStr.of_int o1))
             (PyFloat.of_int 10000) (Some o1)).
Proof.
  unfold seed. destruct (clients db); [right|left]; split; easy.
Qed.

(** The cases of a handler, with the tables of the resulting database
    spelled out. *)
Ltac handler_cases :=
  match goal with
  | |- context [seed ?db] =>
      let H := fresh "Hclients" in
      destruct (seed_cases db) as [[H ->]|[H ->]]; cbv zeta
  | _ =>
      unfold client_create, client_update, order_create, order_update,
        order_change_status, add_part, del_part, cash_create, logica_de_caja;
      split_matches
  end;
  table_simpl.

Lemma map_update_key {A : Type} (pk : A -> Z) (g : A -> A) (l : list A) :
  (forall x, pk (g x) = pk x) -> map pk (map g l) = map pk l.
Proof. intros H. rewrite map_map. apply map_ext. exact H. Qed.

Lemma handle_extends (db : database) (r : request) :
  extends (cash_entries (fst (handle db r))) (cash_entries db)
  /\ extends (status_history (fst (handle db r))) (status_history db)
  /\ extends (map client_pk (clients (fst (handle db r))))
             (map client_pk (clients db))
  /\ extends (map order_pk (orders (fst (handle db r))))
             (map order_pk (orders db)).
Proof.
  destruct r; cbn [handle]; handler_cases;
    rewrite ?map_app, ?map_update_key
      by (intros x; destruct (_ =? _); reflexivity);
    repeat split;
    first [ apply extends_refl | apply extends_app
          | rewrite <- !app_assoc; apply extends_app ].
Qed.

Lemma handle_cash_length (db : database) (r : request) :
  (List.length (cash_entries (fst (handle db r)))
   <= S (List.length (cash_entries db)))%nat.
Proof.
  destruct r; cbn [handle]; handler_cases;
    rewrite ?length_app; cbn [List.length]; lia.
Qed.

(** X1. Along any run of requests the cash entries and the history rows
    are only appended to, with at most one new cash entry per request: no
    entry and no history row is changed or deleted.  The keys of the
    clients and of the orders are only appended to as well: no client and
    no order is deleted or renumbered. *)
Theorem tables_only_grow (db : database) (rs : list request) :
  (exists added,
     cash_entries (run db rs) = cash_entries db ++ added
     /\ (List.length added <= List.length rs)%nat)
  /\ extends (status_history (run db rs)) (status_history db)
  /\ extends (map client_pk (clients (run db rs))) (map client_pk (clients db))
  /\ extends (map order_pk (orders (run db rs))) (map order_pk (orders db)).
Proof.
  revert db. induction rs as [|r rs IH]; intros db; cbn [run fold_left].
  - split; [exists []; rewrite app_nil_r; split; [reflexivity|cbn; lia]|].
    repeat split; apply extends_refl.
  - destruct (IH (fst (handle db r))) as ((a & Ea & La) & Hh & Hc & Ho).
    destruct (handle_extends db r) as ((b & Eb) & Hh0 & Hc0 & Ho0).
    pose proof (handle_cash_length db r) as Lb.
    fold (run (fst (handle db r)) rs).
    split; [|repeat split; eapply extends_trans; eassumption].
    exists (b ++ a). rewrite Ea, Eb, app_assoc. split; [reflexivity|].
    rewrite Eb, length_app in Lb. rewrite length_app. cbn [List.length]. lia.
Qed.

(** ** Keys and references *)

Lemma next_pk_fresh (pks : list Z) : ~ In (next_pk pks) pks.
Proof. intros H. apply next_pk_above in H. lia. Qed.

Lemma NoDup_snoc_next (pks : list Z) :
  NoDup pks -> NoDup (pks ++ [next_pk pks]).
Proof.
  intros H. apply NoDup_app; [exact H|repeat constructor; easy|].
  intros x Hx [<-|[]]. now apply next_pk_fresh in Hx.
Qed.

Lemma NoDup_map_filter {A : Type} (pk : A -> Z) (p : A -> bool) (l : list A) :
  NoDup (map pk l) -> NoDup (map pk (filter p l)).
Proof.
  induction l as [|x l IH]; cbn; [easy|]. intros H. inversion H as [|? ? Hx Hl].
  destruct (p x); cbn; [|now apply IH]. constructor; [|now apply IH].
  intros Hin. apply Hx. apply in_map_iff in Hin as (y & <- & Hy).
  apply in_map. now apply filter_In in Hy as [Hy _].
Qed.

Lemma handle_keys_unique (db : database) (r : request) :
  keys_unique db -> keys_unique (fst (handle db r)).
Proof.
  intros (Hc & Ho & Hh & Hp & He).
  destruct r; cbn [handle]; handler_cases; unfold keys_unique; table_simpl;
    rewrite ?map_app, ?map_update_key
      by (intros x; destruct (_ =? _); reflexivity);
    cbn [map client_pk order_pk history_pk part_pk cash_pk];
    repeat split;
    first [ assumption | now repeat apply NoDup_snoc_next
          | now apply NoDup_map_filter ].
Qed.

Lemma get_client_exists (db : database) (k : Z) (c : Client) :
  get_client db k = Some c -> client_exists db (client_pk c).
Proof.
  unfold get_client. intros H. apply find_some in H as [H _].
  now apply in_map.
Qed.

Lemma get_client_by_field_exists (db : database) (v : option string)
  (c : Client) :
  get_client_by_field db v = Some c -> client_exists db (client_pk c).
Proof.
  unfold get_client_by_field. destruct v as [s|]; [|discriminate].
  destruct (pk_of_text s); [|discriminate]. apply get_client_exists.
Qed.

Lemma get_order_exists (db : database) (k : Z) (o : RepairOrder) :
  get_order db k = Some o -> order_exists db (order_pk o).
Proof.
  unfold get_order. intros H. apply find_some in H as [H _].
  now apply in_map.
Qed.

Lemma get_order_by_field_exists (db : database) (v : option string)
  (o : RepairOrder) :
  get_order_by_field db v = Some o -> order_exists db (order_pk o).
Proof.
  unfold get_order_by_field. destruct v as [s|]; [|discriminate].
  destruct (pk_of_text s); [|discriminate]. apply get_order_exists.
Qed.

Lemma extends_In {A : Type} (xs ys : list A) (x : A) :
  extends xs ys -> In x ys -> In x xs.
Proof. intros [a ->] H. apply in_or_app. now left. Qed.

Ltac split_In :=
  repeat match goal with
         | H : In _ (_ ++ _) |- _ => apply in_app_or in H as [H|H]
         | H : In _ [_] |- _ => destruct H as [<-|[]]
         | H : In _ (_ :: _) |- _ => destruct H as [<-|H]
         | H : In _ [] |- _ => destruct H
         | H : In _ (map _ _) |- _ => apply in_map_iff in H as (? & <- & H)
         | H : In _ (filter _ _) |- _ => apply filter_In in H as [H _]
         end.

Ltac ref_simpl :=
  unfold client_exists, order_exists in *; table_simpl;
  rewrite ?map_app, ?map_update_key
    by (intros ?; destruct (_ =? _); reflexivity);
  cbn [map client_pk order_pk client_id history_order_id part_order_id
       cash_order_id set_estado option_map] in *;
  rewrite ?in_app_iff.

Lemma handle_references (db : database) (r : request) :
  references_resolve db -> references_resolve (fst (handle db r)).
Proof.
  intros (Ro & Rh & Rp & Re).
  destruct r; cbn [handle]; handler_cases;
    unfold references_resolve; table_simpl;
    (split; [|split; [|split]]); intros; split_In; ref_simpl;
    repeat match goal with
           | H : Some _ = Some _ |- _ => injection H as <-
           | H : None = Some _ |- _ => discriminate H
           | |- context [if ?b then _ else _] => destruct b
           end; ref_simpl;
    try (first [ right; now left | left ]);
    try first [ now apply Ro | now apply Rh | now apply Rp
          | eapply Re; eassumption
          | eapply get_order_exists; eassumption
          | eapply get_client_by_field_exists; eassumption ].
  destruct (get_order_by_field db (Some s0)) as [o|] eqn:Ho; [|discriminate].
  injection H0 as <-. eapply get_order_by_field_exists, Ho.
Qed.

(** X2. In every database that the requests can reach from the empty one,
    no two rows of a table share a key, every order belongs to a client
    that exists, and every history row, part and cash entry that names an
    order names one that exists. *)
Theorem database_stays_consistent (db : database) :
  reachable db -> keys_unique db /\ references_resolve db.
Proof.
  induction 1 as [|db r _ [IHk IHr]].
  - split; [repeat split; constructor|]. repeat split; cbn; easy.
  - split; [now apply handle_keys_unique|now apply handle_references].
Qed.

Lemma database_stays_consistent_witness :
  keys_unique half_cent_db /\ references_resolve half_cent_db.
Proof.
  apply (database_stays_consistent half_cent_db).
  unfold half_cent_db. cbn [run fold_left].
  repeat apply reachable_step. apply reachable_empty.
Defined.

(** ** Statuses, cash entries and clients that the handlers store *)

Lemma handle_statuses_valid (db : database) (r : request) :
  creates_valid_status r ->
  statuses_valid db -> statuses_valid (fst (handle db r)).
Proof.
  intros Hr (Vo & Vh).
  destruct r; cbn [handle creates_valid_status] in *; handler_cases;
    unfold statuses_valid; table_simpl; split; intros; split_In;
    cbn [estado history_estado set_estado];
    repeat match goal with
           | |- context [if ?b then _ else _] => destruct b
           end;
    cbn [estado history_estado set_estado];
    first [ now apply Vo | now apply Vh | assumption | reflexivity ].
Qed.

Lemma run_invariant (P : database -> Prop) (Q : request -> Prop) :
  (forall db r, Q r -> P db -> P (fst (handle db r))) ->
  forall rs db, Forall Q rs -> P db -> P (run db rs).
Proof.
  intros Hstep rs. induction rs as [|r rs IH]; intros db HQ HP; [exact HP|].
  inversion HQ as [|? ? Hr Hrs]. cbn [run fold_left].
  apply (IH (fst (handle db r)) Hrs). now apply Hstep.
Qed.

(** X3. When no [order_create] request carries an [estado] outside
    [ORDER_STATES] (a request without the field gets "recibido"), every
    order and every history row keeps a status of [ORDER_STATES] along the
    run: [order_change_status], [order_update] and [seed] never store
    another one. *)
Theorem valid_statuses_are_kept (db : database) (rs : list request) :
  Forall creates_valid_status rs ->
  statuses_valid db -> statuses_valid (run db rs).
Proof. apply run_invariant. exact handle_statuses_valid. Qed.

Lemma valid_statuses_are_kept_witness :
  statuses_valid
    (run empty_db
       [Seed; OrderChangeStatus 1 [("estado", "listo")];
        OrderChangeStatus 1 [("estado", "roto")];
        OrderCreate order_with_deposit_form]).
Proof.
  apply valid_statuses_are_kept.
  - repeat constructor.
  - split; intros ? [].
Defined.

Lemma not_le0_gt0 (x : PyFloat.float) :
  PyFloat.le0 x = false -> x <> S754_nan -> PyFloat.gt0 x = true.
Proof. destruct x as [s|s| |s m e]; try destruct s; cbv; congruence. Qed.

Lemma gt0_not_le0 (x : PyFloat.float) :
  PyFloat.gt0 x = true -> PyFloat.le0 x = false.
Proof. destruct x as [s|s| |s m e]; try destruct s; cbv; congruence. Qed.

Lemma positive_value_not_le0 (x : option PyFloat.float) (v : PyFloat.float) :
  positive_value x = Some v -> PyFloat.gt0 v = true.
Proof.
  destruct x as [y|]; cbn; [|discriminate].
  destruct (PyFloat.truthy y); cbn; [|discriminate].
  destruct (PyFloat.gt0 y) eqn:G; [|discriminate]. now intros [= <-].
Qed.

Lemma append_not_empty (a b : string) : a <> "" -> String.append a b <> "".
Proof. destruct a; cbn; congruence. Qed.

Lemma truthy_not_empty (s : string) : PyStr.truthy s = true -> s <> "".
Proof. destruct s; cbn; congruence. Qed.

(** [cash_create] either rejects the request, with the message
    "Completar tipo, concepto y monto (>0)." and the database as it was, or
    appends exactly one entry: its type is the submitted one and is
    "entrada" or "salida", its concept is the submitted text without the
    surrounding blanks and is not empty, its amount is the parsed one and
    is not zero or negative, and it is linked to the order named by
    [order_id] when that order exists and to no order otherwise. *)
Lemma cash_create_effect (db : database) (f : form) :
  cash_create db f
  = (db, Flash "Completar tipo, concepto y monto (>0)." "danger")
  \/ exists t,
       form_get f "tipo" = Some t
       /\ (t = "entrada" \/ t = "salida")
       /\ PyStr.strip (form_get_default f "concepto" "") <> ""
       /\ PyFloat.le0 (parse_float_or_zero (form_get f "monto")) = false
       /\ cash_create db f
          = (add_cash db t
               (PyStr.strip (form_get_default f "concepto" ""))
               (parse_float_or_zero (form_get f "monto"))
               (match form_get f "order_id" with
                | Some "" | None => None
                | Some s => option_map order_pk
                              (get_order_by_field db (Some s))
                end),
             Flash "Movimiento registrado." "success").
Proof.
  unfold cash_create. destruct (form_get f "tipo") as [t|]; [|now left].
  destruct (negb _ || negb _ || _) eqn:E; [now left|]. right.
  apply orb_false_elim in E as [E Em]. apply orb_false_elim in E as [Et Ec].
  apply negb_false_iff in Et, Ec. exists t. split; [reflexivity|].
  split; [|split; [now apply truthy_not_empty|split; [exact Em|]]].
  - apply orb_true_iff in Et as [Et|Et]; apply String.eqb_eq in Et; auto.
  - do 2 f_equal. destruct (form_get f "order_id") as [[|a s]|]; reflexivity.
Qed.

Lemma handle_entries_well_formed (db : database) (r : request) :
  Forall entry_well_formed (cash_entries db) ->
  Forall entry_well_formed (cash_entries (fst (handle db r))).
Proof.
  intros H. destruct r as [f|k f|f|k f|k f|k f|k p|f|]; cbn [handle].
  8: { destruct (cash_create_effect db f) as [->|(t & _ & Ht & Hc & Hm & ->)];
       [exact H|].
       apply Forall_app. split; [exact H|]. constructor; [|constructor].
       now repeat split. }
  all: handler_cases; try exact H.
  all: apply Forall_app; (split; [exact H|]).
  all: apply Forall_cons; [|apply Forall_nil].
  all: (split; [|split]); cbn [tipo concepto monto].
  all: first [ now left | now right
          | apply append_not_empty; discriminate
          | apply gt0_not_le0; first [ assumption | reflexivity
              | eapply positive_value_not_le0; eassumption ] ].
Qed.

(** X4. Every cash entry of a reachable database has the type "entrada" or
    "salida", a concept that is not empty, and an amount that is not zero
    or negative. *)
Theorem ledger_entries_well_formed (db : database) :
  reachable db -> Forall entry_well_formed (cash_entries db).
Proof.
  induction 1 as [|db r _ IH]; [constructor|].
  now apply handle_entries_well_formed.
Qed.

Lemma ledger_entries_well_formed_witness :
  Forall entry_well_formed (cash_entries half_cent_db).
Proof.
  apply ledger_entries_well_formed.
  exact (reachable_step _ _ (reachable_step _ _ reachable_empty)).
Defined.

Lemma parse_float_or_zero_nan (v : option string) :
  parse_float_or_zero v = S754_nan -> parse_float v = Some S754_nan.
Proof.
  unfold parse_float_or_zero. destruct (parse_float v) as [x|]; [|discriminate].
  unfold PyFloat.or_zero. destruct (PyFloat.truthy x); [now intros ->|easy].
Qed.

Lemma handle_amounts_positive (db : database) (r : request) :
  no_nan_amount r ->
  Forall (fun e => PyFloat.gt0 (monto e) = true) (cash_entries db) ->
  Forall (fun e => PyFloat.gt0 (monto e) = true)
         (cash_entries (fst (handle db r))).
Proof.
  intros Hr H. destruct r as [f|k f|f|k f|k f|k f|k p|f|];
    cbn [handle no_nan_amount] in *.
  8: { destruct (cash_create_effect db f) as [->|(t & _ & Ht & Hc & Hm & ->)];
       [exact H|].
       apply Forall_app. split; [exact H|].
       apply Forall_cons; [|apply Forall_nil]. cbn [monto].
       apply not_le0_gt0; [exact Hm|]. intros E. apply Hr.
       now apply parse_float_or_zero_nan. }
  all: handler_cases; try exact H.
  all: apply Forall_app; (split; [exact H|]).
  all: apply Forall_cons; [|apply Forall_nil]; cbn [monto].
  all: first [ assumption | reflexivity
             | eapply positive_value_not_le0; eassumption ].
Qed.

(** X5. When no [cash_create] request submits an amount that parses to a
    NaN, every cash entry written along the run has an amount [> 0]: the
    deposit of [order_create], the final payment and the refund of
    [order_change_status], the entry of [seed] and the accepted manual
    entries. *)
Theorem amounts_stay_positive (db : database) (rs : list request) :
  Forall no_nan_amount rs ->
  Forall (fun e => PyFloat.gt0 (monto e) = true) (cash_entries db) ->
  Forall (fun e => PyFloat.gt0 (monto e) = true) (cash_entries (run db rs)).
Proof.
  apply (run_invariant
           (fun db => Forall (fun e => PyFloat.gt0 (monto e) = true)
                             (cash_entries db))).
  exact handle_amounts_positive.
Qed.

Lemma amounts_stay_positive_witness :
  Forall (fun e => PyFloat.gt0 (monto e) = true)
    (cash_entries
       (run empty_db
          [Seed; OrderChangeStatus 1 entregado_form;
           CashCreate [("tipo", "salida"); ("concepto", "Alquiler");
                       ("monto", "inf")];
           CashCreate [("tipo", "salida"); ("concepto", "Luz");
                       ("monto", "-5")]])).
Proof.
  apply amounts_stay_positive; [|constructor].
  repeat constructor; cbn; discriminate.
Defined.

Lemma handle_clients_well_formed (db : database) (r : request) :
  Forall client_well_formed (clients db) ->
  Forall client_well_formed (clients (fst (handle db r))).
Proof.
  intros H. destruct r as [f|k f|f|k f|k f|k f|k p|f|]; cbn [handle];
    handler_cases; try exact H.
  - apply Forall_app. split; [exact H|].
    apply Forall_cons; [|apply Forall_nil]. split; cbn [nombre dni].
    + apply truthy_not_empty. now apply negb_false_iff.
    + intros [= E]. apply negb_false_iff in Heqb0. rewrite E in Heqb0.
      discriminate.
  - apply Forall_forall. intros x Hx. apply in_map_iff in Hx as (y & <- & Hy).
    destruct (client_pk y =? client_pk c);
      [|now apply (proj1 (Forall_forall _ _) H)].
    split; cbn [nombre dni].
    + apply truthy_not_empty. now apply negb_false_iff.
    + intros [= E]. apply negb_false_iff in Heqb0. rewrite E in Heqb0.
      discriminate.
  - apply Forall_app. split; [exact H|].
    apply Forall_cons; [|apply Forall_nil]. split; cbn; discriminate.
Qed.

(** X6. Every client of a reachable database has a name that is not empty
    and an identity number that is null (the client of [seed]) or not
    empty: [client_create] and [client_update] store neither a blank name
    nor a blank number. *)
Theorem clients_have_names (db : database) :
  reachable db -> Forall client_well_formed (clients db).
Proof.
  induction 1 as [|db r _ IH]; [constructor|].
  now apply handle_clients_well_formed.
Qed.

Lemma clients_have_names_witness :
  Forall client_well_formed (clients half_cent_db).
Proof.
  apply clients_have_names.
  exact (reachable_step _ _ (reachable_step _ _ reachable_empty)).
Defined.

(** ** [order_change_status] beyond the two reconciliations *)

(** X7. [order_change_status] writes a cash entry only when the status
    becomes "entregado" on an order whose estimated cost is present and
    [> 0], or becomes "cancelado" on an order whose deposit is present and
    [> 0]: any other status, a null, zero, negative or NaN cost on
    delivery, or such a deposit on cancellation, leaves the cash entries as
    they were. *)
Theorem reconciliation_only_when_due (db : database) (k : Z) (f : form) :
  cash_entries (fst (order_change_status db k f)) <> cash_entries db ->
  exists order,
    get_order db k = Some order
    /\ ((form_get f "estado" = Some "entregado"
         /\ exists c, costo_estimado order = Some c /\ PyFloat.gt0 c = true)
        \/ (form_get f "estado" = Some "cancelado"
            /\ exists s, senia order = Some s /\ PyFloat.gt0 s = true)).
Proof.
  unfold order_change_status.
  destruct (get_order db k) as [order|]; [|easy].
  destruct (form_get f "estado") as [e|]; [|easy].
  destruct (in_order_states e); [|easy]. cbn [fst]. unfold logica_de_caja.
  intros H. exists order. split; [reflexivity|].
  destruct (String.eqb e "entregado") eqn:E1.
  - apply String.eqb_eq in E1. subst e.
    destruct (positive_value (costo_estimado order)) as [c|] eqn:P.
    + left. split; [reflexivity|]. exists c.
      destruct (costo_estimado order) as [c'|]; [|discriminate].
      pose proof (positive_value_not_le0 _ _ P) as G. cbn in P.
      destruct (_ && _); [|discriminate]. injection P as ->. now split.
    + now contradiction H.
  - destruct (String.eqb e "cancelado") eqn:E2; [|now contradiction H].
    apply String.eqb_eq in E2. subst e.
    destruct (positive_value (senia order)) as [s|] eqn:P;
      [|now contradiction H].
    right. split; [reflexivity|]. exists s.
    destruct (senia order) as [s'|]; [|discriminate].
    pose proof (positive_value_not_le0 _ _ P) as G. cbn in P.
    destruct (_ && _); [|discriminate]. injection P as ->. now split.
Qed.

Lemma reconciliation_only_when_due_witness :
  exists order,
    get_order demo_db 1 = Some order
    /\ ((form_get entregado_form "estado" = Some "entregado"
         /\ exists c, costo_estimado order = Some c /\ PyFloat.gt0 c = true)
        \/ (form_get entregado_form "estado" = Some "cancelado"
            /\ exists s, senia order = Some s /\ PyFloat.gt0 s = true)).
Proof.
  apply (reconciliation_only_when_due demo_db 1 entregado_form).
  vm_compute. discriminate.
Defined.

(** ** [order_update] *)

(** X8. [order_update] never writes the history, the cash entries, the
    parts or the clients, and keeps the key and the status of every order:
    a deposit changed by an edit is not carried to the cash entries.  An
    order with another key is left as it is. *)
Theorem order_update_keeps_status_and_ledger (db : database) (k : Z)
  (f : form) :
  let db' := fst (order_update db k f) in
  status_history db' = status_history db
  /\ cash_entries db' = cash_entries db
  /\ parts db' = parts db
  /\ clients db' = clients db
  /\ map order_pk (orders db') = map order_pk (orders db)
  /\ map estado (orders db') = map estado (orders db)
  /\ (forall o, In o (orders db) -> order_pk o <> k -> In o (orders db')).
Proof.
  unfold order_update.
  destruct (get_order db k) as [order|] eqn:Hg;
    [|cbn; repeat split; auto].
  destruct (get_client_by_field db (form_get f "client_id")) as [c|];
    [|cbn; repeat split; auto].
  cbn [fst]. table_simpl. rewrite (get_order_pk _ _ _ Hg).
  repeat split.
  - rewrite map_map. apply map_ext. intros o.
    now destruct (order_pk o =? k).
  - rewrite map_map. apply map_ext. intros o.
    now destruct (order_pk o =? k).
  - intros o Hin Hne. apply in_map_iff. exists o. split; [|exact Hin].
    destruct (Z.eqb_spec (order_pk o) k); [contradiction|reflexivity].
Qed.

Lemma order_update_keeps_status_and_ledger_witness :
  exists o,
    get_order two_orders_db 1 = Some o
    /\ In o (orders (fst (order_update two_orders_db 2
                            [("client_id", "1"); ("marca", "Nokia")]))).
Proof.
  destruct (get_order two_orders_db 1) as [o|] eqn:Hg;
    [|vm_compute in Hg; discriminate Hg].
  exists o. split; [reflexivity|].
  unfold get_order in Hg. apply find_some in Hg as [Hin Hk].
  apply Z.eqb_eq in Hk.
  destruct (order_update_keeps_status_and_ledger two_orders_db 2
              [("client_id", "1"); ("marca", "Nokia")])
    as (_ & _ & _ & _ & _ & _ & H).
  apply H; [exact Hin|]. rewrite Hk. discriminate.
Defined.

(** ** [estado_label] and [index] *)

Lemma in_order_states_cases (s : string) :
  in_order_states s = true ->
  s = "recibido" \/ s = "diagnostico" \/ s = "en_proceso"
  \/ s = "esperando_repuestos" \/ s = "listo" \/ s = "entregado"
  \/ s = "cancelado".
Proof.
  unfold in_order_states. cbn [map fst ORDER_STATES existsb].
  rewrite !orb_true_iff, !String.eqb_eq. intuition congruence.
Qed.

(** X9. [estado_label] gives the label that [ORDER_STATES] pairs with the
    status of the order, and the status itself when it is not one of
    [ORDER_STATES]. *)
Theorem estado_label_cases (o : RepairOrder) :
  (forall label, In (estado o, label) ORDER_STATES -> estado_label o = label)
  /\ (in_order_states (estado o) = false -> estado_label o = estado o).
Proof.
  unfold estado_label. split.
  - intros label H. cbn in H.
    repeat (destruct H as [[= <- <-]|H]; [reflexivity|]). destruct H.
  - intros H. unfold in_order_states in H.
    cbn [map fst ORDER_STATES existsb] in H.
    rewrite !orb_false_iff in H. decompose [and] H.
    cbn [dict_get ORDER_STATES].
    repeat match goal with
           | E : String.eqb (estado o) ?s = false |- _ =>
               rewrite (String.eqb_sym (estado o) s) in E; rewrite E; clear E
           end.
    reflexivity.
Qed.

Lemma estado_label_cases_witness :
  estado_label
    (mkRepairOrder 1 1 "Samsung" "A54" "" "" "" "No carga" "" None None
       "listo")
  = "Listo para entregar".
Proof.
  apply (estado_label_cases
           (mkRepairOrder 1 1 "Samsung" "A54" "" "" "" "No carga" "" None
              None "listo")).
  cbn. tauto.
Defined.

Lemma length_cons_Z {A : Type} (x : A) (l : list A) :
  Z.of_nat (List.length (x :: l)) = 1 + Z.of_nat (List.length l).
Proof. cbn [List.length]. lia. Qed.

Lemma count_orders_cons (c : list Client) (o : RepairOrder)
  (os : list RepairOrder) (h : list StatusHistory) (ps : list Part)
  (es : list CashEntry) (p : RepairOrder -> bool) :
  count_orders (mkDatabase c (o :: os) h ps es) p =
  (if p o then 1 else 0) + count_orders (mkDatabase c os h ps es) p.
Proof.
  unfold count_orders. cbn [orders filter].
  destruct (p o); cbn [List.length]; lia.
Qed.

(** Comparisons of two string literals, evaluated. *)
Ltac eval_eqb :=
  repeat match goal with
         | |- context [String.eqb ?a ?b] =>
             let v := eval vm_compute in (String.eqb a b) in
             match v with true => idtac | false => idtac end;
             change (String.eqb a b) with v
         end;
  cbn [orb andb negb].

(** X10. The counters of the dashboard never count an order twice: open,
    ready and delivered orders together are at most all the orders, and
    when every order has a status of [ORDER_STATES] the orders that are
    left are exactly the cancelled ones.  The balance of the dashboard is
    the balance of the cash page. *)
Theorem index_counters_partition (db : database) :
  let v := index db in
  0 <= open_orders v /\ 0 <= ready_orders v /\ 0 <= delivered_orders v
  /\ open_orders v + ready_orders v + delivered_orders v <= total_orders v
  /\ ((forall o, In o (orders db) -> in_order_states (estado o) = true) ->
      total_orders v =
        open_orders v + ready_orders v + delivered_orders v
        + count_orders db (has_estado "cancelado"))
  /\ index_saldo v = saldo (cash_list db).
Proof.
  cbn zeta. unfold index.
  cbn [total_orders open_orders ready_orders delivered_orders index_saldo].
  repeat split; try (unfold count_orders; lia).
  - destruct db as [c os h ps es]. cbn [orders existsb].
    induction os as [|o os IH]; [cbn; lia|].
    rewrite !count_orders_cons, length_cons_Z. unfold has_estado in *.
    destruct (String.eqb_spec (estado o) "recibido") as [E|];
      [rewrite E; eval_eqb; lia|].
    destruct (String.eqb_spec (estado o) "diagnostico") as [E|];
      [rewrite E; eval_eqb; lia|].
    destruct (String.eqb_spec (estado o) "en_proceso") as [E|];
      [rewrite E; eval_eqb; lia|].
    destruct (String.eqb_spec (estado o) "esperando_repuestos") as [E|];
      [rewrite E; eval_eqb; lia|].
    destruct (String.eqb_spec (estado o) "listo") as [E|];
      [rewrite E; eval_eqb; lia|].
    destruct (String.eqb_spec (estado o) "entregado"); cbn [orb]; lia.
  - destruct db as [c os h ps es]. cbn [orders existsb].
    induction os as [|o os IH]; intros H; [reflexivity|].
    rewrite !count_orders_cons, length_cons_Z.
    specialize (IH (fun x Hx => H x (or_intror Hx))).
    specialize (H o (or_introl eq_refl)).
    apply in_order_states_cases in H. unfold has_estado in *.
    decompose [or] H; match goal with E : estado o = _ |- _ => rewrite E end;
      eval_eqb; lia.
Qed.

Lemma index_counters_partition_witness :
  total_orders (index demo_db) =
    open_orders (index demo_db) + ready_orders (index demo_db)
    + delivered_orders (index demo_db)
    + count_orders demo_db (has_estado "cancelado").
Proof.
  apply (index_counters_partition demo_db).
  intros o H. vm_compute in H. destruct H as [<-|[]]. reflexivity.
Defined.

(** ** Parts *)

Lemma find_snoc_fresh {A : Type} (p : A -> bool) (l : list A) (x : A) :
  (forall y, In y l -> p y = false) -> p x = true ->
  find p (l ++ [x]) = Some x.
Proof.
  intros Hl Hx. induction l as [|y l IH]; cbn [app find].
  - now rewrite Hx.
  - rewrite (Hl y (or_introl eq_refl)). apply IH.
    intros z Hz. apply Hl. now right.
Qed.

Lemma filter_snoc_fresh {A : Type} (p : A -> bool) (l : list A) (x : A) :
  (forall y, In y l -> p y = true) -> p x = false ->
  filter p (l ++ [x]) = l.
Proof.
  intros Hl Hx. rewrite filter_app. cbn [filter]. rewrite Hx, app_nil_r.
  induction l as [|y l IH]; cbn [filter]; [reflexivity|].
  rewrite (Hl y (or_introl eq_refl)). f_equal. apply IH.
  intros z Hz. apply Hl. now right.
Qed.

Lemma part_key_below (db : database) (p : Part) :
  In p (parts db) -> part_pk p <> next_pk (map part_pk (parts db)).
Proof.
  intros H. apply (in_map part_pk) in H. apply next_pk_above in H. lia.
Qed.

(** X11. A part that [add_part] has stored gets the next key of the table,
    and [del_part] on that key removes it again and gives back the database
    as it was, whatever order number the request of [del_part] carries. *)
Theorem add_part_then_del_part (db : database) (k k' : Z) (f : form) :
  snd (add_part db k f) = Flash "Repuesto agregado." "success" ->
  del_part (fst (add_part db k f)) k' (next_pk (map part_pk (parts db)))
  = (db, Flash "Repuesto eliminado." "success").
Proof.
  unfold add_part. destruct (get_order db k) as [order|]; [|easy].
  destruct (negb _); [easy|]. intros _. cbn [fst].
  unfold del_part, add_part_row.
  cbn [parts clients orders status_history cash_entries].
  rewrite find_snoc_fresh.
  - cbn [part_pk]. rewrite filter_snoc_fresh; [now destruct db| |].
    + intros y Hy. apply negb_true_iff, Z.eqb_neq. now apply part_key_below.
    + cbn [part_pk]. now rewrite Z.eqb_refl.
  - intros y Hy. apply Z.eqb_neq. now apply part_key_below.
  - cbn [part_pk]. apply Z.eqb_refl.
Qed.

Lemma add_part_then_del_part_witness :
  del_part (fst (add_part demo_db 1 part_form)) 7
    (next_pk (map part_pk (parts demo_db)))
  = (demo_db, Flash "Repuesto eliminado." "success").
Proof.
  apply (add_part_then_del_part demo_db 1 7 part_form). reflexivity.
Defined.

Lemma sum_snoc (xs : list PyFloat.float) (x : PyFloat.float) :
  PyFloat.sum (xs ++ [x]) = PyFloat.add (PyFloat.sum xs) x.
Proof. unfold PyFloat.sum. now rewrite fold_left_app. Qed.

(** X12. After [add_part] has stored a part for an order, the parts total
    that [order_detail] shows for that order is the former total plus the
    cost that was submitted (zero when the field is blank or no number);
    the totals of the other orders are the same. *)
Theorem add_part_adds_to_total (db : database) (k : Z) (f : form) :
  snd (add_part db k f) = Flash "Repuesto agregado." "success" ->
  total_repuestos (fst (add_part db k f)) k
  = PyFloat.add (total_repuestos db k)
      (PyFloat.or_zero (parse_float_or_zero (form_get f "costo")))
  /\ forall k', k' <> k ->
       total_repuestos (fst (add_part db k f)) k' = total_repuestos db k'.
Proof.
  unfold add_part. destruct (get_order db k) as [order|] eqn:Hg; [|easy].
  destruct (negb _); [easy|]. intros _. cbn [fst].
  rewrite (get_order_pk _ _ _ Hg).
  unfold total_repuestos, repuestos, add_part_row. cbn [parts].
  split.
  - rewrite filter_app. cbn [filter part_order_id]. rewrite Z.eqb_refl.
    rewrite map_app. cbn [map costo]. apply sum_snoc.
  - intros k' Hk. rewrite filter_app. cbn [filter part_order_id].
    destruct (Z.eqb_spec k k'); [congruence|]. now rewrite app_nil_r.
Qed.

Lemma add_part_adds_to_total_witness :
  total_repuestos (fst (add_part demo_db 1 part_form)) 1
  = PyFloat.add (total_repuestos demo_db 1)
      (PyFloat.or_zero (parse_float_or_zero (form_get part_form "costo")))
  /\ forall k', k' <> 1 ->
       total_repuestos (fst (add_part demo_db 1 part_form)) k'
       = total_repuestos demo_db k'.
Proof.
  apply (add_part_adds_to_total demo_db 1 part_form). reflexivity.
Defined.

(** ** [seed] *)

(** X13. [seed] writes its demonstration rows at most once: the database
    it returns has a client, and a second run changes nothing. *)
Theorem seed_twice_is_seed_once (db : database) :
  clients (seed db) <> [] /\ seed (seed db) = seed db.
Proof.
  assert (H : clients (seed db) <> []).
  { destruct (seed_cases db) as [[H ->]|[H ->]]; [exact H|].
    cbv zeta. table_simpl. now destruct (clients db). }
  split; [exact H|].
  destruct (seed_cases (seed db)) as [[_ E]|[E _]]; [exact E|contradiction].
Qed.

(** ** The balance on whole amounts *)

Lemma total_bounds (ns : list Z) (n : Z) :
  Forall (fun n => 0 <= n) ns -> In n ns -> 0 <= n <= total ns.
Proof.
  induction 1 as [|m ns Hm Hns IH]; [easy|].
  cbn [total fold_right]. fold (total ns).
  pose proof (total_nonneg ns Hns).
  intros [->|Hin]; [lia|]. specialize (IH Hin). lia.
Qed.

Lemma cash_total_whole (db : database) (t : string) (ns : list Z) :
  whole_amounts (amounts_of db t) ns -> total ns < 2 ^ 53 ->
  cash_total db t = PyFloat.of_int (total ns).
Proof.
  intros H Hlt. unfold cash_total. fold (amounts_of db t).
  rewrite sql_sum_is_sum.
  assert (E : map PyFloat.or_zero (amounts_of db t) = amounts_of db t).
  { destruct H as [-> Hns]. rewrite map_map. apply map_ext_in.
    intros n Hn. apply or_zero_whole.
    pose proof (total_bounds ns n Hns Hn). lia. }
  rewrite <- E, (sum_whole _ ns H Hlt). apply or_zero_whole.
  destruct H as [_ Hns]. pose proof (total_nonneg ns Hns). lia.
Qed.

(** X14. When the amounts of the cash entries are whole numbers, none
    negative, and the incoming and the outgoing amounts each add up to less
    than [2^53], no addition rounds: the totals and the balance of
    [cash_list] are the floats of the exact sums and of their difference. *)
Theorem balance_exact_on_whole_amounts (db : database) (ins outs : list Z) :
  whole_amounts (amounts_of db "entrada") ins ->
  whole_amounts (amounts_of db "salida") outs ->
  total ins < 2 ^ 53 -> total outs < 2 ^ 53 ->
  entradas (cash_list db) = PyFloat.of_int (total ins)
  /\ salidas (cash_list db) = PyFloat.of_int (total outs)
  /\ saldo (cash_list db) = PyFloat.of_int (total ins - total outs).
Proof.
  intros Hi Ho Li Lo. unfold cash_list. cbn [entradas salidas saldo].
  rewrite (cash_total_whole db "entrada" ins Hi Li),
    (cash_total_whole db "salida" outs Ho Lo).
  repeat split. apply sub_whole.
  - destruct Hi as [_ H]. pose proof (total_nonneg ins H). lia.
  - destruct Ho as [_ H]. pose proof (total_nonneg outs H). lia.
Qed.

Lemma balance_exact_on_whole_amounts_witness :
  entradas (cash_list three_entries_db) = PyFloat.of_int (total [100; 5])
  /\ salidas (cash_list three_entries_db) = PyFloat.of_int (total [40])
  /\ saldo (cash_list three_entries_db)
     = PyFloat.of_int (total [100; 5] - total [40]).
Proof.
  apply (balance_exact_on_whole_amounts three_entries_db [100; 5] [40]).
  - split; [reflexivity|]. repeat constructor; lia.
  - split; [reflexivity|]. repeat constructor; lia.
  - vm_compute. reflexivity.
  - vm_compute. reflexivity.
Defined.

(** ** [parse_float] *)

Lemma drop_while_all (p : ascii -> bool) (l : list ascii) :
  Forall (fun c => p c = true) l -> PyStr.drop_while p l = [].
Proof. induction 1 as [|c l Hc _ IH]; cbn; [easy|]. now rewrite Hc. Qed.

Lemma drop_while_none (p : ascii -> bool) (l : list ascii) :
  Forall (fun c => p c = false) l -> PyStr.drop_while p l = l.
Proof. destruct 1 as [|c l Hc _]; cbn; [easy|]. now rewrite Hc. Qed.

Lemma strip_by_none (p : ascii -> bool) (l : list ascii) :
  Forall (fun c => p c = false) l -> PyStr.strip_by p l = l.
Proof.
  intros H. unfold PyStr.strip_by.
  rewrite (drop_while_none p l H), drop_while_none, rev_involutive; trivial.
  now apply Forall_rev.
Qed.

Lemma drop_while_map (p : ascii -> bool) (g : ascii -> ascii)
  (l : list ascii) :
  (forall c, p (g c) = p c) ->
  PyStr.drop_while p (map g l) = map g (PyStr.drop_while p l).
Proof.
  intros H. induction l as [|c l IH]; cbn [map PyStr.drop_while]; [easy|].
  rewrite H. now destruct (p c).
Qed.

Lemma strip_by_map (p : ascii -> bool) (g : ascii -> ascii) (l : list ascii) :
  (forall c, p (g c) = p c) ->
  PyStr.strip_by p (map g l) = map g (PyStr.strip_by p l).
Proof.
  intros H. unfold PyStr.strip_by.
  now rewrite drop_while_map, <- map_rev, drop_while_map, <- map_rev.
Qed.

Lemma string_of_list_empty (l : list ascii) :
  String.eqb (string_of_list_ascii l) ""
  = match l with [] => true | _ => false end.
Proof. now destruct l. Qed.

Lemma comma_to_point_isspace (c : ascii) :
  PyStr.isspace (if (PyStr.code c =? 44)%N then "."%char else c)
  = PyStr.isspace c.
Proof.
  destruct (N.eqb_spec (PyStr.code c) 44) as [E|]; [|reflexivity].
  unfold PyStr.isspace, PyStr.between. rewrite E. reflexivity.
Qed.

Lemma replace_comma_twice (v : string) :
  PyStr.replace_comma (PyStr.replace_comma v) = PyStr.replace_comma v.
Proof.
  unfold PyStr.replace_comma.
  rewrite list_ascii_of_string_of_list_ascii, map_map. f_equal.
  apply map_ext. intros c.
  destruct (N.eqb_spec (PyStr.code c) 44) as [E|]; [reflexivity|].
  destruct (N.eqb_spec (PyStr.code c) 44); [contradiction|reflexivity].
Qed.

(** X15. [parse_float] reads a decimal comma as a decimal point: a text
    and the same text with its commas replaced by points give the same
    result.  A text of blanks alone gives [None]. *)
Theorem parse_float_comma_and_blank (v : string) :
  parse_float (Some (PyStr.replace_comma v)) = parse_float (Some v)
  /\ (Forall (fun c => PyStr.isspace c = true) (list_ascii_of_string v) ->
      parse_float (Some v) = None).
Proof.
  repeat split.
  - unfold parse_float. rewrite replace_comma_twice. unfold PyStr.strip.
    unfold PyStr.replace_comma at 1.
    rewrite list_ascii_of_string_of_list_ascii,
      (strip_by_map _ _ _ comma_to_point_isspace), !string_of_list_empty.
    now destruct (PyStr.strip_by PyStr.isspace (list_ascii_of_string v)).
  - intros H. unfold parse_float, PyStr.strip, PyStr.strip_by.
    now rewrite (drop_while_all _ _ H).
Qed.

Lemma parse_float_comma_and_blank_witness :
  parse_float (Some "  ") = None.
Proof.
  apply (parse_float_comma_and_blank "  "). repeat constructor.
Defined.

(** *** The decimal text of an integer *)

(** The characters of the decimal numeral [d]. *)
Lemma uint_chars_digits (d : Decimal.uint) :
  Forall (fun c => PyStr.is_digit c = true)
    (list_ascii_of_string (NilEmpty.string_of_uint d)).
Proof.
  induction d; cbn [NilEmpty.string_of_uint list_ascii_of_string];
    constructor; trivial.
Qed.

Lemma digits_uint_acc (d : Decimal.uint) (acc : positive) (cnt : Z) :
  PyStr.digits (Zpos acc) cnt
    (list_ascii_of_string (NilEmpty.string_of_uint d))
  = (Zpos (Pos.of_uint_acc d acc),
     cnt + Z.of_nat (String.length (NilEmpty.string_of_uint d)), []).
Proof.
  revert acc cnt.
  induction d; intros acc cnt;
    cbn [NilEmpty.string_of_uint list_ascii_of_string PyStr.digits
         String.length Pos.of_uint_acc];
    [do 2 f_equal; lia|..];
    match goal with
    | |- context [PyStr.is_digit ?c] => change (PyStr.is_digit c) with true
    end; cbv iota;
    match goal with
    | |- context [PyStr.digit_val ?c] =>
        let v := eval vm_compute in (PyStr.digit_val c) in
        change (PyStr.digit_val c) with v
    end;
    match goal with
    | |- PyStr.digits ?a _ _ = (Zpos (Pos.of_uint_acc _ ?b), _, _) =>
        replace a with (Zpos b) by lia
    end;
    rewrite IHd; do 2 f_equal; lia.
Qed.

Lemma digits_uint (d : Decimal.uint) (cnt : Z) :
  PyStr.digits 0 cnt (list_ascii_of_string (NilEmpty.string_of_uint d))
  = (Z.of_uint d,
     cnt + Z.of_nat (String.length (NilEmpty.string_of_uint d)), []).
Proof.
  revert cnt. unfold Z.of_uint.
  induction d; intros cnt;
    cbn [NilEmpty.string_of_uint list_ascii_of_string PyStr.digits
         String.length Pos.of_uint];
    [do 2 f_equal; cbn; lia|..];
    match goal with
    | |- context [PyStr.is_digit ?c] => change (PyStr.is_digit c) with true
    end; cbv iota;
    match goal with
    | |- context [PyStr.digit_val ?c] =>
        let v := eval vm_compute in (PyStr.digit_val c) in
        change (PyStr.digit_val c) with v
    end;
    change (10 * 0 + 0) with 0;
    first [ rewrite IHd; do 2 f_equal; lia
          | match goal with
            | |- PyStr.digits ?a _ _ = _ =>
                let p := eval vm_compute in (Z.to_pos a) in
                change a with (Zpos p)
            end;
            rewrite digits_uint_acc; cbn [Z.of_N]; do 2 f_equal; lia ].
Qed.

Lemma uint_length_pos (d : Decimal.uint) :
  d <> Decimal.Nil ->
  0 < Z.of_nat (String.length (NilEmpty.string_of_uint d)).
Proof.
  destruct d; [easy|..]; intros _;
    cbn [NilEmpty.string_of_uint String.length]; lia.
Qed.

Lemma digit_not_sign (c : ascii) :
  PyStr.is_digit c = true ->
  (PyStr.code c =? 45)%N = false /\ (PyStr.code c =? 43)%N = false
  /\ (PyStr.code c =? 44)%N = false /\ PyStr.is_underscore c = false
  /\ PyStr.is_blank c = false /\ PyStr.isspace c = false.
Proof.
  unfold PyStr.is_digit, PyStr.is_underscore, PyStr.is_blank, PyStr.isspace,
    PyStr.between.
  intros H. apply andb_true_iff in H as [H1 H2].
  apply N.leb_le in H1. apply N.leb_le in H2.
  repeat split;
    rewrite ?orb_false_iff, ?andb_false_iff, ?N.eqb_neq, ?N.leb_gt;
    repeat split; lia.
Qed.

Lemma ilog2_ratio_one (n : Z) : 0 < n -> PyFloat.ilog2_ratio n 1 = Z.log2 n.
Proof.
  intros Hn. unfold PyFloat.ilog2_ratio. change (Z.log2 1) with 0.
  rewrite Z.sub_0_r. pose proof (Z.log2_nonneg n).
  destruct (Z.log2_spec n Hn) as [Hlo _].
  rewrite Z.max_r, Z.max_l by lia. change (2 ^ 0) with 1.
  destruct (Z.ltb_spec (n * 1) (1 * 2 ^ Z.log2 n)); [lia|reflexivity].
Qed.

Lemma of_ratio_one (s : bool) (n : Z) :
  0 < n < 2 ^ 53 -> PyFloat.of_ratio s n 1 = whole_float s n.
Proof.
  intros [Hp Hs]. pose proof (log2_small n Hp Hs) as HL.
  pose proof (scaled_pos n Hp (52 - Z.log2 n) ltac:(lia)) as Hq.
  unfold PyFloat.of_ratio. rewrite ilog2_ratio_one by exact Hp.
  replace (Z.max (Z.log2 n - 52) (-1074)) with (Z.log2 n - 52) by lia.
  rewrite (Z.max_l (- (Z.log2 n - 52))), (Z.max_r (Z.log2 n - 52)) by lia.
  change (2 ^ 0) with 1.
  replace (n * 2 ^ (- (Z.log2 n - 52)))
    with (n * 2 ^ (52 - Z.log2 n) * (1 * 1))
    by (replace (- (Z.log2 n - 52)) with (52 - Z.log2 n) by lia; lia).
  rewrite div_half_even_exact by lia.
  assert (Hlt : n * 2 ^ (52 - Z.log2 n) < 2 ^ 53).
  { destruct (Z.log2_spec n Hp) as [_ Hhi].
    replace 53 with (Z.succ (Z.log2 n) + (52 - Z.log2 n)) by lia.
    rewrite Z.pow_add_r by lia.
    apply Z.mul_lt_mono_pos_r; [apply Z.pow_pos_nonneg; lia|exact Hhi]. }
  replace (n * 2 ^ (52 - Z.log2 n) =? 2 ^ 53) with false
    by (symmetry; apply Z.eqb_neq; lia).
  unfold whole_float.
  destruct (n * 2 ^ (52 - Z.log2 n)) as [|q|q]; try lia.
  replace (971 <? Z.log2 n - 52) with false
    by (symmetry; apply Z.ltb_ge; lia).
  reflexivity.
Qed.

Lemma drop_underscores_none (prev : ascii) (l : list ascii) :
  PyStr.is_underscore prev = false ->
  Forall (fun c => PyStr.is_underscore c = false) l ->
  PyStr.drop_underscores prev l = Some l.
Proof.
  intros Hp H. revert prev Hp.
  induction H as [|c l Hc _ IH]; intros prev Hp; cbn [PyStr.drop_underscores].
  - now rewrite Hp.
  - rewrite Hc, Hp. cbn [andb]. now rewrite IH.
Qed.

Lemma map_same {A : Type} (g : A -> A) (l : list A) :
  Forall (fun x => g x = x) l -> map g l = l.
Proof. induction 1; cbn [map]; congruence. Qed.

(** The text of the numeral [d], with a minus sign when [s] holds. *)
Lemma to_float_numeral (s : bool) (d : Decimal.uint) :
  d <> Decimal.Nil ->
  let text := if s then String "-" (NilEmpty.string_of_uint d)
              else NilEmpty.string_of_uint d in
  parse_float (Some text) = Some (PyStr.of_decimal s (Z.of_uint d) 0).
Proof.
  intros Hd text.
  pose proof (uint_chars_digits d) as Hdig.
  assert (Hall : Forall (fun c => (PyStr.code c =? 44)%N = false
                                  /\ PyStr.is_underscore c = false
                                  /\ PyStr.is_blank c = false
                                  /\ PyStr.isspace c = false)
                   (list_ascii_of_string text)).
  { subst text. destruct s; cbn [list_ascii_of_string];
      [constructor; [now repeat split|]|];
      (eapply Forall_impl; [|exact Hdig]);
      intros c Hc; now apply digit_not_sign in Hc. }
  assert (Hne : list_ascii_of_string text <> []).
  { subst text. destruct s; [easy|]. destruct d; easy. }
  unfold parse_float.
  assert (Es : PyStr.strip text = text).
  { unfold PyStr.strip. rewrite strip_by_none.
    - apply string_of_list_ascii_of_string.
    - eapply Forall_impl; [|exact Hall]. now intros c (_ & _ & _ & H). }
  rewrite Es.
  replace (String.eqb text "") with false
    by (symmetry; apply String.eqb_neq; intros E; rewrite E in Hne; easy).
  assert (Er : PyStr.replace_comma text = text).
  { unfold PyStr.replace_comma. rewrite map_same.
    - apply string_of_list_ascii_of_string.
    - eapply Forall_impl; [|exact Hall]. now intros c (-> & _). }
  rewrite Er. unfold PyStr.to_float.
  rewrite drop_underscores_none;
    [|reflexivity
     |eapply Forall_impl; [|exact Hall]; now intros c (_ & H & _)].
  rewrite strip_by_none
    by (eapply Forall_impl; [|exact Hall]; now intros c (_ & _ & H & _)).
  assert (Ep : PyStr.parse_sign (list_ascii_of_string text)
               = (s, list_ascii_of_string (NilEmpty.string_of_uint d))).
  { subst text. destruct s; [reflexivity|].
    inversion Hdig as [E|c l Hc Hl E]; [reflexivity|].
    apply digit_not_sign in Hc as (H1 & H2 & _).
    cbn [PyStr.parse_sign]. now rewrite H1, H2. }
  unfold PyStr.parse_number. rewrite Ep, digits_uint.
  pose proof (uint_length_pos d Hd) as Hlen.
  replace (0 + Z.of_nat (String.length (NilEmpty.string_of_uint d))
           + 0 =? 0) with false by (symmetry; apply Z.eqb_neq; lia).
  reflexivity.
Qed.

(** X16. [parse_float] reads the decimal text of a whole number of
    magnitude below [2^53] as the float of that number, with no rounding:
    a whole amount typed into a form is stored exactly. *)
Theorem parse_float_of_int (n : Z) :
  - 2 ^ 53 < n < 2 ^ 53 ->
  parse_float (Some (PyStr.of_int n)) = Some (PyFloat.of_int n).
Proof.
  intros Hn. unfold PyStr.of_int.
  destruct n as [|p|p]; [reflexivity|..];
    cbn [Z.to_int NilZero.string_of_int];
    pose proof (Stdlib.Numbers.DecimalPos.Unsigned.to_uint_nonnil p) as Hd;
    pose proof (Stdlib.Numbers.DecimalPos.Unsigned.of_to p) as Ev;
    assert (Ez : NilZero.string_of_uint (Pos.to_uint p)
                 = NilEmpty.string_of_uint (Pos.to_uint p))
      by (destruct (Pos.to_uint p); [contradiction|reflexivity..]);
    rewrite Ez.
  - rewrite (to_float_numeral false _ Hd). unfold Z.of_uint. rewrite Ev.
    cbn [Z.of_N]. unfold PyStr.of_decimal. cbn [Z.eqb Z.leb Z.compare].
    change (10 ^ 0) with 1. rewrite Z.mul_1_r, of_ratio_one, of_int_pos by lia.
    reflexivity.
  - rewrite (to_float_numeral true _ Hd). unfold Z.of_uint. rewrite Ev.
    cbn [Z.of_N]. unfold PyStr.of_decimal. cbn [Z.eqb Z.leb Z.compare].
    change (10 ^ 0) with 1. rewrite Z.mul_1_r, of_ratio_one by lia.
    change (Z.neg p) with (- Z.pos p). rewrite of_int_neg by lia.
    reflexivity.
Qed.

Lemma parse_float_of_int_witness :
  parse_float (Some (PyStr.of_int 4718)) = Some (PyFloat.of_int 4718).
Proof. apply (parse_float_of_int 4718). lia. Defined.

(** ** The settings *)

Lemma substring_append (a p : string) :
  String.substring (String.length a) (String.length p) (String.append a p) = p.
Proof.
  induction a as [|c a IH]; cbn [String.length String.append String.substring].
  - induction p as [|c p IH]; cbn; [reflexivity|]. now rewrite IH.
  - exact IH.
Qed.

Lemma append_length (a p : string) :
  String.length (String.append a p) = (String.length a + String.length p)%nat.
Proof. induction a as [|c a IH]; cbn; [reflexivity|]. now rewrite IH. Qed.

Lemma endswith_append (a p : string) : endswith (String.append a p) p = true.
Proof.
  unfold endswith. rewrite append_length.
  replace (String.length a + String.length p - String.length p)%nat
    with (String.length a) by lia.
  rewrite substring_append, String.eqb_refl, andb_true_r.
  apply Nat.leb_le. lia.
Qed.

(** X17. [settings_save] keeps the logo of the settings usable: when the
    logo that the settings name was a file of the upload directory with a
    name ending in [.png] or [.jpg], it still is after the request,
    whatever file was uploaded. *)
Theorem settings_save_keeps_logo_stored (st : store) (f : form)
  (file : option (string * string)) (token : string) :
  logo_stored st -> logo_stored (fst (settings_save st f file token)).
Proof.
  intros H. unfold settings_save, get_settings.
  assert (Hb : forall u, logo_stored (mkStore (Some blank_settings) u)).
  { intros u s name [= <-]. discriminate. }
  assert (Hs1 : forall s u a b c d e,
             settings_row st = Some s -> uploads st = u ->
             logo_stored
               (mkStore (Some (mkSettings a b c d (logo_filename s) e)) u)).
  { intros s u a b c d e Hs <- s' name [= <-] Hn. exact (H s name Hs Hn). }
  assert (Hnew : forall u a b c d e contents (png : bool),
             let safe :=
               String.append (String.append "logo_" token)
                 (if png then ".png" else ".jpg") in
             logo_stored
               (mkStore (Some (mkSettings a b c d (Some safe) e))
                        ((safe, contents) :: u))).
  { intros u a b c d e contents png safe s' name [= <-] [= <-]. split.
    - now left.
    - subst safe. destruct png.
      + now rewrite endswith_append.
      + rewrite (endswith_append _ ".jpg"). apply orb_true_r. }
  destruct (settings_row st) as [s|] eqn:Hrow.
  - destruct file as [[filename contents]|]; cbn [fst snd];
      [|now eapply Hs1].
    destruct (PyStr.truthy filename); [|now eapply Hs1].
    destruct (negb _); [exact H|].
    apply (Hnew (uploads st)).
  - destruct file as [[filename contents]|]; cbn [fst snd];
      [|intros s' name [= <-]; discriminate].
    destruct (PyStr.truthy filename);
      [|intros s' name [= <-]; discriminate].
    destruct (negb _); [apply Hb|].
    apply (Hnew (uploads st)).
Qed.

Lemma settings_save_keeps_logo_stored_witness :
  logo_stored
    (fst (settings_save (mkStore None []) logo_upload_form
            (Some ("Marca.PNG", "image")) "9f86d081")).
Proof.
  apply (settings_save_keeps_logo_stored (mkStore None [])).
  intros s name H. discriminate H.
Defined.

(** X18. [settings_save] saves all of the form or nothing: when it answers
    that the logo must be a PNG or JPG, the store is what [get_settings]
    alone leaves, so the texts of the form are lost with the logo; when it
    answers that the settings were saved, the row holds the five texts of
    the form without their outer blanks. *)
Theorem settings_save_all_or_nothing (st : store) (f : form)
  (file : option (string * string)) (token : string) :
  let r := settings_save st f file token in
  (snd r = Flash "El logo debe ser PNG/JPG." "danger" ->
   fst r = fst (get_settings st))
  /\ (snd r = Flash "Configuración guardada" "success" ->
      exists s,
        settings_row (fst r) = Some s
        /\ empresa s = Some (PyStr.strip (form_get_default f "empresa" ""))
        /\ settings_direccion s
           = Some (PyStr.strip (form_get_default f "direccion" ""))
        /\ settings_telefono s
           = Some (PyStr.strip (form_get_default f "telefono" ""))
        /\ settings_email s
           = Some (PyStr.strip (form_get_default f "email" ""))
        /\ condiciones s
           = Some (PyStr.strip (form_get_default f "condiciones" ""))).
Proof.
  cbn zeta. unfold settings_save.
  destruct (get_settings st) as [st1 s]. cbn [fst].
  destruct file as [[filename contents]|]; cbn [fst snd].
  - destruct (PyStr.truthy filename); cbn [fst snd].
    + destruct (negb _); cbn [fst snd];
        (split; [try easy|intros E; try discriminate E]).
      eexists. split; [reflexivity|]. now repeat split.
    + split; [easy|]. intros _. eexists. split; [reflexivity|].
      now repeat split.
  - split; [easy|]. intros _. eexists. split; [reflexivity|].
    now repeat split.
Qed.

Lemma settings_save_all_or_nothing_witness :
  fst (settings_save (mkStore None []) logo_upload_form
         (Some ("logo.gif", "image")) "9f86d081")
  = fst (get_settings (mkStore None [])).
Proof.
  apply (settings_save_all_or_nothing (mkStore None []) logo_upload_form
           (Some ("logo.gif", "image")) "9f86d081").
  reflexivity.
Defined.

(** ** The script that adds the column [condiciones] *)

Lemma existsb_snoc_self (cols : list string) (c : string) :
  existsb (String.eqb c) (cols ++ [c]) = true.
Proof.
  rewrite existsb_app. cbn [existsb]. rewrite String.eqb_refl.
  now rewrite orb_true_r.
Qed.

(** X19. Running the script a second time changes no file and adds no
    column: the files after two runs are the files after one, and the
    second run never reports that it added the column. *)
Theorem main_second_run_changes_nothing (fs : UpdateDb.files) :
  fst (UpdateDb.main (fst (UpdateDb.main fs))) = fst (UpdateDb.main fs)
  /\ snd (UpdateDb.main (fst (UpdateDb.main fs))) <> UpdateDb.Added.
Proof.
  destruct fs as [[[[cols|] others]|] b]; [| |now split].
  - unfold UpdateDb.main, UpdateDb.add_column, UpdateDb.col_names.
    cbn [UpdateDb.sat_db UpdateDb.backup UpdateDb.settings_columns
         UpdateDb.other_tables].
    destruct (existsb (String.eqb "condiciones") cols) eqn:Hc;
      [|destruct (existsb
                    (fun x => String.eqb (lower_text x)
                                (lower_text "condiciones")) cols) eqn:Hl];
      cbn [fst snd UpdateDb.sat_db UpdateDb.backup UpdateDb.settings_columns
           UpdateDb.other_tables];
      rewrite ?Hc, ?Hl, ?existsb_snoc_self; cbn [fst snd];
      (split; [now destruct b|easy]).
  - unfold UpdateDb.main, UpdateDb.add_column, UpdateDb.col_names.
    cbn [UpdateDb.sat_db UpdateDb.backup UpdateDb.settings_columns
         UpdateDb.other_tables existsb fst snd].
    split; [now destruct b|easy].
Qed.

(** X20. The script never overwrites a backup and never loses a column: a
    backup that exists is kept, a backup that is missing becomes a copy of
    the database as it was before the run, and the database afterwards is
    the database before, or, when the column was added, the same tables
    with [condiciones] as the new last column of [settings]. *)
Theorem main_keeps_backup_and_columns (fs : UpdateDb.files) :
  let fs' := fst (UpdateDb.main fs) in
  (forall b, UpdateDb.backup fs = Some b -> UpdateDb.backup fs' = Some b)
  /\ (UpdateDb.backup fs = None -> UpdateDb.backup fs' = UpdateDb.sat_db fs)
  /\ (snd (UpdateDb.main fs) <> UpdateDb.Added ->
      UpdateDb.sat_db fs' = UpdateDb.sat_db fs)
  /\ (snd (UpdateDb.main fs) = UpdateDb.Added ->
      exists d cols,
        UpdateDb.sat_db fs = Some d
        /\ UpdateDb.settings_columns d = Some cols
        /\ ~ In "condiciones" cols
        /\ UpdateDb.sat_db fs'
           = Some (UpdateDb.mkDbFile (Some (cols ++ ["condiciones"]))
                     (UpdateDb.other_tables d))).
Proof.
  cbn zeta. destruct fs as [[[[cols|] others]|] b].
  - unfold UpdateDb.main, UpdateDb.add_column, UpdateDb.col_names.
    cbn [UpdateDb.sat_db UpdateDb.backup UpdateDb.settings_columns
         UpdateDb.other_tables].
    destruct (existsb (String.eqb "condiciones") cols) eqn:Hc;
      [|destruct (existsb
                    (fun x => String.eqb (lower_text x)
                                (lower_text "condiciones")) cols) eqn:Hl];
      cbn [fst snd UpdateDb.sat_db UpdateDb.backup];
      (split; [now intros ? ->|]); (split; [now intros ->|]);
      (split; [try easy|try easy]).
    intros _. eexists; exists cols. repeat split; trivial.
    intros Hin.
    assert (existsb (String.eqb "condiciones") cols = true); [|congruence].
    apply existsb_exists. exists "condiciones". split; [exact Hin|].
    apply String.eqb_refl.
  - unfold UpdateDb.main, UpdateDb.add_column, UpdateDb.col_names.
    cbn [UpdateDb.sat_db UpdateDb.backup UpdateDb.settings_columns
         UpdateDb.other_tables existsb fst snd].
    split; [now intros ? ->|]. split; [now intros ->|]. now split.
  - cbn. split; [easy|]. split; [easy|]. now split.
Qed.

Lemma main_keeps_backup_and_columns_witness :
  exists d cols,
    UpdateDb.sat_db (UpdateDb.mkFiles (Some old_settings_file) None) = Some d
    /\ UpdateDb.settings_columns d = Some cols
    /\ ~ In "condiciones" cols
    /\ UpdateDb.sat_db
         (fst (UpdateDb.main
                 (UpdateDb.mkFiles (Some old_settings_file) None)))
       = Some (UpdateDb.mkDbFile (Some (cols ++ ["condiciones"]))
                 (UpdateDb.other_tables d)).
Proof.
  apply (main_keeps_backup_and_columns
           (UpdateDb.mkFiles (Some old_settings_file) None)).
  reflexivity.
Defined.

(** ** [order_update], read back *)

(** X21. After [order_update] with a client that exists, the order read
    back holds the fields of the form without their outer blanks, the key
    of that client, and its former key and status.  Nothing is required of
    the fields: brand, model and reported problem, which [order_create]
    demands, are stored empty when the form leaves them out. *)
Theorem order_update_read_back (db : database) (k : Z) (f : form)
  (o : RepairOrder) (c : Client) :
  get_order db k = Some o ->
  get_client_by_field db (form_get f "client_id") = Some c ->
  snd (order_update db k f) = Flash "Orden actualizada." "success"
  /\ get_order (fst (order_update db k f)) k =
       Some (mkRepairOrder k (client_pk c)
               (PyStr.strip (form_get_default f "marca" ""))
               (PyStr.strip (form_get_default f "modelo" ""))
               (PyStr.strip (form_get_default f "imei" ""))
               (PyStr.strip (form_get_default f "accesorios" ""))
               (PyStr.strip (form_get_default f "clave_desbloqueo" ""))
               (PyStr.strip (form_get_default f "problema_reportado" ""))
               (PyStr.strip (form_get_default f "diagnostico" ""))
               (parse_float (form_get f "costo_estimado"))
               (Some (parse_float_or_zero (form_get f "senia")))
               (estado o))
  /\ (form_get f "marca" = None -> form_get f "modelo" = None ->
      form_get f "problema_reportado" = None ->
      exists o', get_order (fst (order_update db k f)) k = Some o'
                 /\ marca o' = "" /\ modelo o' = ""
                 /\ problema_reportado o' = "").
Proof.
  intros Hg Hc. unfold order_update. rewrite Hg, Hc. cbn [fst snd].
  pose proof (get_order_pk _ _ _ Hg) as Hk. rewrite Hk.
  split; [reflexivity|].
  match goal with
  | |- context [update_order db k ?g] =>
      pose proof (get_order_update db k g o (fun x => eq_refl) Hg) as Hu
  end.
  cbv beta in Hu. rewrite Hk in Hu. split; [exact Hu|].
  intros Hm Hmo Hp. eexists. split; [exact Hu|].
  unfold form_get_default. rewrite Hm, Hmo, Hp. now repeat split.
Qed.

Lemma order_update_read_back_witness :
  exists o', get_order (fst (order_update demo_db 1 [("client_id", "1")])) 1
             = Some o'
             /\ marca o' = "" /\ modelo o' = "" /\ problema_reportado o' = "".
Proof.
  destruct (get_order demo_db 1) as [o|] eqn:Hg; [|discriminate Hg].
  destruct (get_client_by_field demo_db
              (form_get [("client_id", "1")] "client_id")) as [c|] eqn:Hc;
    [|discriminate Hc].
  apply (order_update_read_back demo_db 1 [("client_id", "1")] o c Hg Hc);
    reflexivity.
Defined.

(** ** [gen_token] *)

Lemma token_char_cases (i : nat) :
  (i < 32)%nat ->
  exists c, String.get i token_alphabet = Some c
            /\ (PyStr.between 65 90 c || PyStr.between 50 57 c) = true
            /\ c <> "I"%char /\ c <> "O"%char.
Proof.
  intros H.
  do 32 (destruct i as [|i];
         [eexists; split; [reflexivity|now repeat split]|]).
  lia.
Qed.

Lemma token_char_injective (i j : nat) :
  (i < 32)%nat -> (j < 32)%nat ->
  String.get i token_alphabet = String.get j token_alphabet -> i = j.
Proof.
  intros Hi Hj.
  do 32 (destruct i as [|i];
         [do 32 (destruct j as [|j]; [now intros|]); lia|]).
  lia.
Qed.

Lemma token_pick_injective (i j : nat) :
  (i < 32)%nat -> (j < 32)%nat ->
  match String.get i token_alphabet with Some c => c | None => " "%char end
  = match String.get j token_alphabet with Some c => c | None => " "%char end
  -> i = j.
Proof.
  intros Hi Hj E. apply (token_char_injective i j Hi Hj).
  destruct (token_char_cases i Hi) as (c & Ei & _).
  destruct (token_char_cases j Hj) as (c' & Ej & _).
  rewrite Ei, Ej in E. rewrite Ei, Ej. now f_equal.
Qed.

Lemma map_injective_on {A B : Type} (g : A -> B) (P : A -> Prop) :
  (forall i j, P i -> P j -> g i = g j -> i = j) ->
  forall l l', Forall P l -> Forall P l' -> map g l = map g l' -> l = l'.
Proof.
  intros Hg l l' H. revert l'.
  induction H as [|i l Hi _ IH]; intros l' H' E;
    destruct H' as [|j l' Hj H']; cbn [map] in E; try discriminate E;
    [reflexivity|].
  injection E as E1 E2. f_equal; [now apply Hg|now apply IH].
Qed.

(** X22. A token of [gen_token] has one character for every draw; each is
    an upper-case letter other than [I] and [O] or a digit from 2 to 9, so
    a token has no character that reads like another one; and two
    different sequences of draws give two different tokens. *)
Theorem gen_token_characters (draws : list nat) :
  Forall (fun i => (i < 32)%nat) draws ->
  String.length (gen_token draws) = List.length draws
  /\ Forall (fun c => (PyStr.between 65 90 c || PyStr.between 50 57 c) = true
                      /\ c <> "I"%char /\ c <> "O"%char)
       (list_ascii_of_string (gen_token draws))
  /\ forall draws', Forall (fun i => (i < 32)%nat) draws' ->
       gen_token draws = gen_token draws' -> draws = draws'.
Proof.
  intros H. unfold gen_token. repeat split.
  - induction draws as [|i draws IH];
      cbn [map string_of_list_ascii String.length List.length];
      [reflexivity|].
    rewrite IH; [reflexivity|]. now inversion H.
  - rewrite list_ascii_of_string_of_list_ascii.
    induction H as [|i draws Hi _ IH]; cbn [map]; constructor; [|exact IH].
    destruct (token_char_cases i Hi) as (c & -> & Hc). exact Hc.
  - intros draws' H' E.
    apply (f_equal list_ascii_of_string) in E.
    rewrite !list_ascii_of_string_of_list_ascii in E.
    apply (map_injective_on _ _ token_pick_injective _ _ H H' E).
Qed.

Lemma gen_token_characters_witness :
  String.length (gen_token [0; 31; 7; 7; 24; 12; 3; 30; 9; 16]%nat)
  = List.length [0; 31; 7; 7; 24; 12; 3; 30; 9; 16]%nat.
Proof.
  apply (gen_token_characters [0; 31; 7; 7; 24; 12; 3; 30; 9; 16]%nat).
  repeat (apply Forall_cons; [lia|]). apply Forall_nil.
Defined.

(** ** The WhatsApp link *)

Lemma code_hex_digit (n : N) :
  (n < 16)%N ->
  PyStr.code (hex_digit n) = if (n <? 10)%N then (48 + n)%N else (55 + n)%N.
Proof.
  intros H. unfold hex_digit, PyStr.code.
  destruct (n <? 10)%N; apply N_ascii_embedding; lia.
Qed.

Lemma hex_digit_quoted (n : N) :
  (n < 16)%N -> quoted_char (hex_digit n) = true.
Proof.
  intros H. unfold quoted_char, always_safe, PyStr.between.
  rewrite (code_hex_digit n H).
  destruct (N.ltb_spec n 10).
  - replace ((48 <=? 48 + n) && (48 + n <=? 57))%N with true; [|symmetry].
    + now rewrite !orb_true_r.
    + apply andb_true_iff. split; apply N.leb_le; lia.
  - replace ((65 <=? 55 + n) && (55 + n <=? 90))%N with true; [reflexivity|].
    symmetry. apply andb_true_iff. split; apply N.leb_le; lia.
Qed.

Lemma hex_digit_injective (n m : N) :
  (n < 16)%N -> (m < 16)%N -> hex_digit n = hex_digit m -> n = m.
Proof.
  intros Hn Hm E. apply (f_equal PyStr.code) in E.
  rewrite !code_hex_digit in E by assumption.
  destruct (N.ltb_spec n 10), (N.ltb_spec m 10); lia.
Qed.

Lemma code_parts (c : ascii) :
  (PyStr.code c / 16 < 16)%N /\ (PyStr.code c mod 16 < 16)%N.
Proof.
  pose proof (N_ascii_bounded c) as H. unfold PyStr.code. split.
  - apply N.Div0.div_lt_upper_bound. exact H.
  - apply N.mod_lt. easy.
Qed.

Lemma quote_byte_quoted (c : ascii) :
  Forall (fun x => quoted_char x = true) (quote_byte c).
Proof.
  unfold quote_byte. destruct (code_parts c) as [H1 H2].
  destruct (always_safe c || (PyStr.code c =? 47)%N) eqn:E.
  - constructor; [|constructor]. unfold quoted_char. now rewrite E.
  - repeat constructor; now apply hex_digit_quoted.
Qed.

Lemma code_injective (c c' : ascii) : PyStr.code c = PyStr.code c' -> c = c'.
Proof.
  intros E. rewrite <- (ascii_N_embedding c), <- (ascii_N_embedding c').
  unfold PyStr.code in E. now rewrite E.
Qed.

Lemma quote_byte_injective (c c' : ascii) (r r' : list ascii) :
  quote_byte c ++ r = quote_byte c' ++ r' -> c = c' /\ r = r'.
Proof.
  unfold quote_byte.
  destruct (always_safe c || (PyStr.code c =? 47)%N) eqn:E;
    destruct (always_safe c' || (PyStr.code c' =? 47)%N) eqn:E';
    cbn [app]; intros H.
  - now injection H.
  - injection H as -> _. discriminate E.
  - injection H as <- _. discriminate E'.
  - injection H as H1 H2 Hr. split; [|exact Hr].
    destruct (code_parts c) as [B1 B2]. destruct (code_parts c') as [B1' B2'].
    apply hex_digit_injective in H1; [|assumption..].
    apply hex_digit_injective in H2; [|assumption..].
    apply code_injective.
    rewrite (N.div_mod (PyStr.code c) 16), (N.div_mod (PyStr.code c') 16)
      by easy.
    now rewrite H1, H2.
Qed.

Lemma quote_injective (s s' : string) : quote s = quote s' -> s = s'.
Proof.
  unfold quote. intros E. apply (f_equal list_ascii_of_string) in E.
  rewrite !list_ascii_of_string_of_list_ascii in E.
  rewrite <- (string_of_list_ascii_of_string s),
    <- (string_of_list_ascii_of_string s'). f_equal.
  revert E. generalize (list_ascii_of_string s') as l'.
  induction (list_ascii_of_string s) as [|c l IH]; intros [|c' l'];
    cbn [flat_map].
  - reflexivity.
  - intros E. exfalso. unfold quote_byte in E.
    destruct (_ || _); discriminate E.
  - intros E. exfalso. unfold quote_byte in E.
    destruct (_ || _); discriminate E.
  - intros E. apply quote_byte_injective in E as [-> E]. f_equal.
    now apply IH.
Qed.

Lemma append_injective (p a b : string) :
  String.append p a = String.append p b -> a = b.
Proof.
  induction p as [|c p IH]; cbn [String.append]; [easy|].
  intros [= E]. now apply IH.
Qed.

(** X23. The link that [order_detail] builds for WhatsApp is its fixed
    prefix followed only by letters, digits and the characters
    [_ . - ~ / %], so no name of a client can put a space, [&], [#] or [+]
    into the link; and two links are equal only when their messages are. *)
Theorem wa_link_is_safe_and_faithful (nombre : string) (k : Z)
  (public_url : string) :
  (exists q,
      wa_link nombre k public_url = String.append "https://wa.me/?text=" q
      /\ Forall (fun c => quoted_char c = true) (list_ascii_of_string q))
  /\ forall nombre' k' public_url',
       wa_link nombre k public_url = wa_link nombre' k' public_url' ->
       wa_text nombre k public_url = wa_text nombre' k' public_url'.
Proof.
  split.
  - exists (quote (wa_text nombre k public_url)). split; [reflexivity|].
    unfold quote. rewrite list_ascii_of_string_of_list_ascii.
    induction (list_ascii_of_string (wa_text nombre k public_url))
      as [|c l IH]; cbn [flat_map]; [constructor|].
    apply Forall_app. split; [apply quote_byte_quoted|exact IH].
  - intros nombre' k' public_url' E. unfold wa_link in E.
    apply append_injective in E. now apply quote_injective.
Qed.

Lemma wa_link_is_safe_and_faithful_witness :
  wa_text "Ana & Cía" 1 "http://sat.local/t/ABCDEFGH23"
  = wa_text "Ana & Cía" 1 "http://sat.local/t/ABCDEFGH23".
Proof.
  apply (wa_link_is_safe_and_faithful "Ana & Cía" 1
           "http://sat.local/t/ABCDEFGH23").
  reflexivity.
Defined.

(** ** Clients *)

Lemma get_client_pk (db : database) (k : Z) (c : Client) :
  get_client db k = Some c -> client_pk c = k.
Proof.
  unfold get_client. intros H. apply find_some in H as [_ H].
  now apply Z.eqb_eq.
Qed.

Lemma get_client_update (db : database) (k k' : Z) (g : Client -> Client) :
  (forall x, client_pk (g x) = client_pk x) ->
  get_client (update_client db k g) k' =
  if k' =? k then option_map g (get_client db k') else get_client db k'.
Proof.
  intros Hg. unfold get_client, update_client. cbn [clients].
  induction (clients db) as [|x xs IH]; cbn [find map].
  - now destruct (k' =? k).
  - destruct (Z.eqb_spec (client_pk x) k) as [E|E].
    + rewrite Hg, E. destruct (Z.eqb_spec k k') as [<-|N].
      * now rewrite Z.eqb_refl.
      * destruct (Z.eqb_spec k' k); [congruence|]. rewrite IH.
        destruct (Z.eqb_spec k' k); [congruence|reflexivity].
    + destruct (Z.eqb_spec (client_pk x) k') as [E'|E'].
      * destruct (Z.eqb_spec k' k); [congruence|reflexivity].
      * exact IH.
Qed.

(** X24. After [client_update] has answered that the client was updated,
    the client read back under the same key holds the five texts of the
    form without their outer blanks, every other client reads as before,
    and the orders, the history, the parts and the cash entries are the
    same. *)
Theorem client_update_changes_one_client (db : database) (k : Z) (f : form) :
  snd (client_update db k f) = Flash "Cliente actualizado" "success" ->
  let db' := fst (client_update db k f) in
  get_client db' k =
    Some (mkClient k
            (PyStr.strip (form_get_default f "nombre" ""))
            (PyStr.strip (form_get_default f "telefono" ""))
            (PyStr.strip (form_get_default f "email" ""))
            (PyStr.strip (form_get_default f "direccion" ""))
            (Some (PyStr.strip (form_get_default f "dni" ""))))
  /\ (forall k', k' <> k -> get_client db' k' = get_client db k')
  /\ orders db' = orders db /\ status_history db' = status_history db
  /\ parts db' = parts db /\ cash_entries db' = cash_entries db.
Proof.
  unfold client_update.
  destruct (get_client db k) as [c|] eqn:Hg; [|easy].
  destruct (negb _); [easy|]. destruct (negb _); [easy|].
  intros _. cbn [fst]. rewrite (get_client_pk _ _ _ Hg).
  split; [|split; [|now repeat split]].
  - rewrite get_client_update by reflexivity.
    rewrite Z.eqb_refl, Hg. cbn [option_map].
    now rewrite (get_client_pk _ _ _ Hg).
  - intros k' Hk. rewrite get_client_update by reflexivity.
    destruct (Z.eqb_spec k' k); [contradiction|reflexivity].
Qed.

Lemma client_update_changes_one_client_witness :
  get_client (fst (client_update demo_db 1 client_form)) 1 =
    Some (mkClient 1 "Ana Ruiz" "155-0101" "" "" (Some "30111222")).
Proof.
  apply (client_update_changes_one_client demo_db 1 client_form).
  reflexivity.
Defined.

(** X25. [client_create] does not look for the DNI among the clients: a
    form that it accepts is accepted again, and the two clients that it
    stores have different keys and the same name and DNI. *)
Theorem client_create_allows_same_dni (db : database) (f : form) :
  snd (client_create db f) = Flash "Cliente creado" "success" ->
  let db1 := fst (client_create db f) in
  let db2 := fst (client_create db1 f) in
  snd (client_create db1 f) = Flash "Cliente creado" "success"
  /\ exists c1 c2,
       clients db2 = clients db ++ [c1; c2]
       /\ client_pk c1 <> client_pk c2
       /\ nombre c1 = nombre c2 /\ dni c1 = dni c2
       /\ dni c1 = Some (PyStr.strip (form_get_default f "dni" "")).
Proof.
  unfold client_create.
  destruct (negb (PyStr.truthy (PyStr.strip (form_get_default f "nombre" ""))));
    [easy|].
  destruct (negb (PyStr.truthy (PyStr.strip (form_get_default f "dni" ""))));
    [easy|].
  intros _. cbn [fst snd]. split; [reflexivity|].
  unfold add_client. cbn [clients]. do 2 eexists.
  split; [now rewrite <- app_assoc|]. cbn [client_pk nombre dni].
  split; [|now repeat split].
  rewrite map_app. cbn [map client_pk].
  set (k := next_pk (map client_pk (clients db))).
  pose proof (next_pk_above (map client_pk (clients db) ++ [k]) k) as H.
  specialize (H ltac:(apply in_or_app; right; now left)). lia.
Qed.

Lemma client_create_allows_same_dni_witness :
  snd (client_create (fst (client_create empty_db client_form)) client_form)
  = Flash "Cliente creado" "success"
  /\ exists c1 c2,
       clients (fst (client_create (fst (client_create empty_db client_form))
                       client_form))
       = clients empty_db ++ [c1; c2]
       /\ client_pk c1 <> client_pk c2
       /\ nombre c1 = nombre c2 /\ dni c1 = dni c2
       /\ dni c1 = Some (PyStr.strip (form_get_default client_form "dni" "")).
Proof.
  apply (client_create_allows_same_dni empty_db client_form). reflexivity.
Defined.
